(** * The study-tool browser client: review session and sidekick dialogue

    A shallow embedding of [frontend/app.js] (and of its twin script, which
    differs only in the [API] base address): JavaScript values with the
    coercions the script relies on, the part of the DOM it reads and writes,
    a state-and-exception monad for its [async] functions, and the functions
    themselves, followed by the properties of the review session, of the
    dialogue session and of the request layer. *)

From Stdlib Require Import ZArith Ascii String List Bool Lia.
From Stdlib Require Import Decimal DecimalString DecimalZ DecimalPos.
From stdpp Require Import base decidable option list strings gmap.

Set Warnings "-register-all".
Open Scope Z_scope.
Open Scope string_scope.

(** ** JavaScript strings

    A string is the sequence of the bytes of its UTF-8 encoding. *)

Module Str.

Definition is_empty (s : string) : bool :=
  match s with EmptyString => true | _ => false end.

(** Whether the byte [c] can begin a white-space character. *)
Definition leadsWs (c : ascii) : bool :=
  match N_of_ascii c with
  | 9%N | 10%N | 11%N | 12%N | 13%N | 32%N
  | 194%N | 225%N | 226%N | 227%N | 239%N => true
  | _ => false
  end.

(** What follows the white-space character that [s] begins with, if it
    begins with one.  White space is what [String.prototype.trim] strips:
    TAB, LF, VT, FF, CR, SP, and in UTF-8 the no-break space U+00A0, U+1680,
    U+2000 to U+200A, the separators U+2028 and U+2029, U+202F, U+205F,
    U+3000 and U+FEFF. *)
Definition afterWs (s : string) : option string :=
  match s with
  | EmptyString => None
  | String a r =>
      match N_of_ascii a, r with
      | (9 | 10 | 11 | 12 | 13 | 32)%N, _ => Some r
      | 194%N, String b r' =>
          if (N_of_ascii b =? 160)%N then Some r' else None
      | 225%N, String b (String c r') =>
          if ((N_of_ascii b =? 154) && (N_of_ascii c =? 128))%N
          then Some r' else None
      | 226%N, String b (String c r') =>
          let b := N_of_ascii b in
          let c := N_of_ascii c in
          if ((b =? 128)
              && ((128 <=? c) && (c <=? 138) || (c =? 168) || (c =? 169)
                  || (c =? 175))
              || (b =? 129) && (c =? 159))%N
          then Some r' else None
      | 227%N, String b (String c r') =>
          if ((N_of_ascii b =? 128) && (N_of_ascii c =? 128))%N
          then Some r' else None
      | 239%N, String b (String c r') =>
          if ((N_of_ascii b =? 187) && (N_of_ascii c =? 191))%N
          then Some r' else None
      | _, _ => None
      end
  end.

(** Stripping at most [n] leading white-space characters; a string has no
    more of them than it has bytes. *)
Fixpoint dropWs (n : nat) (s : string) : string :=
  match n with
  | O => s
  | S n' => match afterWs s with Some r => dropWs n' r | None => s end
  end.

Definition trimStart (s : string) : string := dropWs (String.length s) s.

(** Whether [s] is white space throughout, looking at most [n] characters
    in. *)
Fixpoint onlyWs (n : nat) (s : string) : bool :=
  match s, n with
  | EmptyString, _ => true
  | _, O => false
  | _, S n' => match afterWs s with Some r => onlyWs n' r | None => false end
  end.

Fixpoint trimEnd (s : string) : string :=
  match s with
  | String c r => if onlyWs (String.length s) s then EmptyString
                  else String c (trimEnd r)
  | EmptyString => EmptyString
  end.

Definition trim (s : string) : string := trimEnd (trimStart s).

(** [s.includes(p)] *)
Fixpoint includes (p s : string) : bool :=
  String.prefix p s ||
  match s with
  | String _ r => includes p r
  | EmptyString => false
  end.

Fixpoint join (sep : string) (l : list string) : string :=
  match l with
  | [] => ""
  | [x] => x
  | x :: r => x ++ sep ++ join sep r
  end.

Definition concat (l : list string) : string := join "" l.

End Str.

(** ** JavaScript values *)

Inductive Num := Int (z : Z) | NaN.

Inductive JsVal :=
| JUndefined
| JNull
| JBool (b : bool)
| JNum (n : Num)
| JStr (s : string)
| JArr (items : list JsVal)
| JObj (fields : list (string * JsVal)).

Module Js.

(** Number::toString.  Identifiers and counters are integers, far below
    the 2^53 up to which a double holds every integer and the 10^21 from
    which it is written with an exponent. *)
Definition numToString (n : Num) : string :=
  match n with
  | Int z => NilZero.string_of_int (Z.to_int z)
  | NaN => "NaN"
  end.

(** StringToNumber on decimal integer literals.  The other numeral forms
    (fractions, exponents, radix prefixes, [Infinity]) denote numbers that
    [Num] does not have; they read as [NaN] here. *)
Definition unsignedLit (s : string) : option Z :=
  option_map Z.of_uint (NilZero.uint_of_string s).

Definition stringToNumber (s : string) : Num :=
  match Str.trim s with
  | EmptyString => Int 0
  | String c r as t =>
      if Ascii.eqb c "-" then
        match unsignedLit r with Some z => Int (- z) | None => NaN end
      else if Ascii.eqb c "+" then
        match unsignedLit r with Some z => Int z | None => NaN end
      else
        match unsignedLit t with Some z => Int z | None => NaN end
  end.

(** ToString *)
Fixpoint toString (v : JsVal) : string :=
  match v with
  | JUndefined => "undefined"
  | JNull => "null"
  | JBool true => "true"
  | JBool false => "false"
  | JNum n => numToString n
  | JStr s => s
  | JArr items =>
      Str.join ","
        ((fix each (l : list JsVal) : list string :=
            match l with
            | [] => []
            | JUndefined :: r | JNull :: r => "" :: each r
            | x :: r => toString x :: each r
            end) items)
  | JObj _ => "[object Object]"
  end.

(** ToBoolean *)
Definition truthy (v : JsVal) : bool :=
  match v with
  | JUndefined | JNull | JBool false | JNum (Int 0) | JNum NaN | JStr "" => false
  | _ => true
  end.

(** ToPrimitive: arrays and plain objects go through their [toString]. *)
Definition toPrimitive (v : JsVal) : JsVal :=
  match v with
  | JArr _ | JObj _ => JStr (toString v)
  | _ => v
  end.

(** ToNumber, and the [Number(...)] call *)
Definition toNumber (v : JsVal) : Num :=
  match toPrimitive v with
  | JUndefined => NaN
  | JNull => Int 0
  | JBool true => Int 1
  | JBool false => Int 0
  | JNum n => n
  | JStr s => stringToNumber s
  | _ => NaN
  end.

Definition Number (v : JsVal) : JsVal := JNum (toNumber v).

(** [a || b], [a ?? b], [!a] *)
Definition or (a b : JsVal) : JsVal := if truthy a then a else b.
Definition coalesce (a b : JsVal) : JsVal :=
  match a with JUndefined | JNull => b | _ => a end.
Definition not (a : JsVal) : bool := negb (truthy a).

(** [a > b] *)
Definition gt (a b : JsVal) : bool :=
  match toPrimitive a, toPrimitive b with
  | JStr x, JStr y => String.ltb y x
  | pa, pb =>
      match toNumber pa, toNumber pb with
      | Int x, Int y => Z.ltb y x
      | _, _ => false
      end
  end.

(** [a === b]; two objects read from different places are never the same
    object. *)
Definition strictEq (a b : JsVal) : bool :=
  match a, b with
  | JUndefined, JUndefined | JNull, JNull => true
  | JBool x, JBool y => Bool.eqb x y
  | JNum (Int x), JNum (Int y) => Z.eqb x y
  | JStr x, JStr y => String.eqb x y
  | _, _ => false
  end.

(** [a + b] *)
Definition add (a b : JsVal) : JsVal :=
  match toPrimitive a, toPrimitive b with
  | JStr x, pb => JStr (x ++ toString pb)
  | pa, JStr y => JStr (toString pa ++ y)
  | pa, pb =>
      match toNumber pa, toNumber pb with
      | Int x, Int y => JNum (Int (x + y))
      | _, _ => JNum NaN
      end
  end.

End Js.

(** ** The page

    The script reaches the page through [$(id)] only.  The page itself is
    not part of the script; it is taken to declare every identifier the
    script looks up, so [Id.t] lists them and a [Dom] holds one element for
    each. *)

Module Id.
Inductive t :=
| deckSelect | deckName | tag | question | answer | tagFilter
| reviewQ | reviewA | pdfFile | qaList | cardsTbody | stats
| sidekickPane | sidekickTopic | sidekickTitle | sidekickOutput
| chatBox | chatInput | postsList.

#[global] Instance eq_dec : EqDecision t.
Proof. solve_decision. Defined.
End Id.

(** A file picked in an [<input type="file">]. *)
Record File := { fileName : string; fileData : string }.

(** What an element contains.  [Markup h] stands for the nodes the browser
    builds from the markup [h] assigned through [innerHTML]; [Created] is an
    element made by [document.createElement] and appended by the script,
    with the [item] its click handler has captured, if it has one. *)
Inductive Node :=
| Markup (html : string)
| Text (s : string)
| Created (tagName className optValue : string) (children : list Node)
          (item : option JsVal).

Record Elem := {
  value : string;              (* [.value] of an input or a textarea *)
  nodes : list Node;           (* children *)
  classList : gset string;
  cardId : option string;      (* [dataset.cardId]; [None] is [undefined] *)
  display : string;            (* [style.display] *)
  files : list File;
  selectedIndex : nat          (* of a [<select>] *)
}.

Module El.

Definition setValue (s : string) (e : Elem) : Elem :=
  {| value := s; nodes := nodes e; classList := classList e;
     cardId := cardId e; display := display e; files := files e;
     selectedIndex := selectedIndex e |}.

Definition setNodes (l : list Node) (e : Elem) : Elem :=
  {| value := value e; nodes := l; classList := classList e;
     cardId := cardId e; display := display e; files := files e;
     selectedIndex := selectedIndex e |}.

Definition setClassList (c : gset string) (e : Elem) : Elem :=
  {| value := value e; nodes := nodes e; classList := c;
     cardId := cardId e; display := display e; files := files e;
     selectedIndex := selectedIndex e |}.

Definition setCardId (s : string) (e : Elem) : Elem :=
  {| value := value e; nodes := nodes e; classList := classList e;
     cardId := Some s; display := display e; files := files e;
     selectedIndex := selectedIndex e |}.

Definition setDisplay (s : string) (e : Elem) : Elem :=
  {| value := value e; nodes := nodes e; classList := classList e;
     cardId := cardId e; display := s; files := files e;
     selectedIndex := selectedIndex e |}.

(** [e.innerHTML = h]: the old children go; a [<select>] left without
    options has nothing selected and picks the first one appended. *)
Definition setInnerHTML (h : string) (e : Elem) : Elem :=
  {| value := value e;
     nodes := if Str.is_empty h then [] else [Markup h];
     classList := classList e; cardId := cardId e; display := display e;
     files := files e; selectedIndex := 0%nat |}.

(** [e.innerHTML += h]: the children are serialised and built again,
    followed by the nodes of [h]. *)
Definition appendInnerHTML (h : string) (e : Elem) : Elem :=
  setNodes (nodes e ++ (if Str.is_empty h then [] else [Markup h])) e.

(** [e.textContent = s] *)
Definition textNodes (s : string) : list Node :=
  if Str.is_empty s then [] else [Text s].

Definition setTextContent (s : string) (e : Elem) : Elem :=
  setNodes (textNodes s) e.

Definition appendChild (n : Node) (e : Elem) : Elem :=
  setNodes (nodes e ++ [n]) e.

Definition classAdd (c : string) (e : Elem) : Elem :=
  setClassList (classList e ∪ {[c]}) e.

Definition classRemove (c : string) (e : Elem) : Elem :=
  setClassList (classList e ∖ {[c]}) e.

(** [.value] of a [<select>]: the value of the selected option, the empty
    string when there is none. *)
Definition optionValues (e : Elem) : list string :=
  flat_map (fun n => match n with
                     | Created "option" _ v _ _ => [v]
                     | _ => []
                     end) (nodes e).

Definition selectValue (e : Elem) : string :=
  nth (selectedIndex e) (optionValues e) "".

Definition blank : Elem :=
  {| value := ""; nodes := []; classList := ∅; cardId := None;
     display := ""; files := []; selectedIndex := 0%nat |}.

End El.

Record Dom := {
  e_deckSelect : Elem; e_deckName : Elem; e_tag : Elem; e_question : Elem;
  e_answer : Elem; e_tagFilter : Elem; e_reviewQ : Elem; e_reviewA : Elem;
  e_pdfFile : Elem; e_qaList : Elem; e_cardsTbody : Elem; e_stats : Elem;
  e_sidekickPane : Elem; e_sidekickTopic : Elem; e_sidekickTitle : Elem;
  e_sidekickOutput : Elem; e_chatBox : Elem; e_chatInput : Elem;
  e_postsList : Elem
}.

Module Page.

Definition get (i : Id.t) (d : Dom) : Elem :=
  match i with
  | Id.deckSelect => e_deckSelect d | Id.deckName => e_deckName d
  | Id.tag => e_tag d | Id.question => e_question d
  | Id.answer => e_answer d | Id.tagFilter => e_tagFilter d
  | Id.reviewQ => e_reviewQ d | Id.reviewA => e_reviewA d
  | Id.pdfFile => e_pdfFile d | Id.qaList => e_qaList d
  | Id.cardsTbody => e_cardsTbody d | Id.stats => e_stats d
  | Id.sidekickPane => e_sidekickPane d
  | Id.sidekickTopic => e_sidekickTopic d
  | Id.sidekickTitle => e_sidekickTitle d
  | Id.sidekickOutput => e_sidekickOutput d
  | Id.chatBox => e_chatBox d | Id.chatInput => e_chatInput d
  | Id.postsList => e_postsList d
  end.

Definition set (i : Id.t) (e : Elem) (d : Dom) : Dom :=
  let pick j := if decide (i = j) then e else get j d in
  {| e_deckSelect := pick Id.deckSelect; e_deckName := pick Id.deckName;
     e_tag := pick Id.tag; e_question := pick Id.question;
     e_answer := pick Id.answer; e_tagFilter := pick Id.tagFilter;
     e_reviewQ := pick Id.reviewQ; e_reviewA := pick Id.reviewA;
     e_pdfFile := pick Id.pdfFile; e_qaList := pick Id.qaList;
     e_cardsTbody := pick Id.cardsTbody; e_stats := pick Id.stats;
     e_sidekickPane := pick Id.sidekickPane;
     e_sidekickTopic := pick Id.sidekickTopic;
     e_sidekickTitle := pick Id.sidekickTitle;
     e_sidekickOutput := pick Id.sidekickOutput;
     e_chatBox := pick Id.chatBox; e_chatInput := pick Id.chatInput;
     e_postsList := pick Id.postsList |}.

Definition blank : Dom :=
  {| e_deckSelect := El.blank; e_deckName := El.blank; e_tag := El.blank;
     e_question := El.blank; e_answer := El.blank;
     e_tagFilter := El.blank; e_reviewQ := El.blank;
     e_reviewA := El.blank; e_pdfFile := El.blank; e_qaList := El.blank;
     e_cardsTbody := El.blank; e_stats := El.blank;
     e_sidekickPane := El.blank; e_sidekickTopic := El.blank;
     e_sidekickTitle := El.blank; e_sidekickOutput := El.blank;
     e_chatBox := El.blank; e_chatInput := El.blank;
     e_postsList := El.blank |}.

End Page.

(** ** Requests, responses and the backend *)

Inductive Body :=
| NoBody
| Json (v : JsVal)                        (* [JSON.stringify(v)] *)
| FormData (fields : list (string * File)).

(** The [opts] argument of [fetch]. *)
Record Opts := {
  method : option string;
  headers : list (string * string);
  body : Body
}.

Record Request := { url : string; opts : Opts }.

(** A [Response], as far as the script looks at it: [res.ok],
    [res.headers.get("content-type")], what [res.text()] resolves to and
    what [res.json()] resolves to ([None]: it rejects with a syntax
    error). *)
Record Response := {
  ok : bool;
  contentType : option string;
  text : string;
  json : option JsVal
}.

Inductive FetchResult :=
| Responded (r : Response)
| Unreachable.                            (* [fetch] itself rejects *)

(** What surrounds the script: the backend, which answers a request knowing
    the requests it has been sent before, and the browser's locale, which
    turns an ISO timestamp into the text of
    [new Date(iso).toLocaleString()]. *)
Record Env := {
  backend : list Request -> Request -> FetchResult;
  toLocaleString : string -> string
}.

(** The script's state: the page, the module-level [SOC_SESSION], and the
    requests sent so far. *)
Record State := {
  dom : Dom;
  SOC_SESSION : JsVal;
  sent : list Request
}.

Definition withDom (d : Dom) (st : State) : State :=
  {| dom := d; SOC_SESSION := SOC_SESSION st; sent := sent st |}.

Definition withSession (v : JsVal) (st : State) : State :=
  {| dom := dom st; SOC_SESSION := v; sent := sent st |}.

(** The state once the request [rq] has gone out. *)
Definition sending (rq : Request) (st : State) : State :=
  {| dom := dom st; SOC_SESSION := SOC_SESSION st; sent := sent st ++ [rq] |}.

(** ** Running the script

    An [async] function either returns or throws, and what it did to the
    state before it threw stays done. *)

Inductive Exn :=
| Error (message : string)
| TypeError
| SyntaxError.

Inductive Outcome (A : Type) :=
| Ret (a : A)
| Throw (e : Exn).
Arguments Ret {A} a.
Arguments Throw {A} e.

Definition M (A : Type) : Type := Env -> State -> Outcome A * State.

Definition ret {A} (a : A) : M A := fun _ st => (Ret a, st).

Definition throw {A} (e : Exn) : M A := fun _ st => (Throw e, st).

Definition bind {A B} (m : M A) (k : A -> M B) : M B :=
  fun env st =>
    match m env st with
    | (Ret a, st') => k a env st'
    | (Throw e, st') => (Throw e, st')
    end.

Declare Scope js_scope.
Delimit Scope js_scope with js.
Notation "'let*' x := m 'in' k" := (bind m (fun x => k))
  (at level 10, x pattern, m at level 100, k at level 200) : js_scope.
Notation "m ;; k" := (bind m (fun _ => k))
  (at level 100, k at level 200, right associativity) : js_scope.
Open Scope js_scope.

(** A call that is not awaited: the caller goes on whether it fulfils or
    rejects.  The detached calls of this script write to elements that the
    code running after them never reads, and the backend answers by the
    order in which requests are issued, so letting the call finish first
    gives the state the page settles in. *)
Definition detach {A} (m : M A) : M unit :=
  fun env st => (Ret tt, snd (m env st)).

Fixpoint forEach {A} (l : list A) (f : A -> M unit) : M unit :=
  match l with
  | [] => ret tt
  | x :: r => f x ;; forEach r f
  end.

(** [$(id)] *)
Definition byId (i : Id.t) : M Elem :=
  fun _ st => (Ret (Page.get i (dom st)), st).

(** An assignment to, or a mutating method call on, the element [$(id)]. *)
Definition update (i : Id.t) (f : Elem -> Elem) : M unit :=
  fun _ st =>
    (Ret tt, withDom (Page.set i (f (Page.get i (dom st))) (dom st)) st).

Definition getSession : M JsVal := fun _ st => (Ret (SOC_SESSION st), st).

Definition setSession (v : JsVal) : M unit :=
  fun _ st => (Ret tt, withSession v st).

Definition localeString (iso : string) : M string :=
  fun env st => (Ret (toLocaleString env iso), st).

Definition fetch (u : string) (o : Opts) : M Response :=
  fun env st =>
    let rq := {| url := u; opts := o |} in
    match backend env (sent st) rq with
    | Responded r => (Ret r, sending rq st)
    | Unreachable => (Throw TypeError, sending rq st)
    end.

(** [res.json()] *)
Definition resJson (r : Response) : M JsVal :=
  match json r with
  | Some v => ret v
  | None => throw SyntaxError
  end.

(** [v.k]: reading a property of [null] or [undefined] throws; the names
    the script reads are own properties of response objects and nothing
    else, and an object's keys are distinct. *)
Fixpoint lookupField (k : string) (fs : list (string * JsVal)) : JsVal :=
  match fs with
  | [] => JUndefined
  | (k', v) :: r => if String.eqb k k' then v else lookupField k r
  end.

Definition prop (v : JsVal) (k : string) : M JsVal :=
  match v with
  | JUndefined | JNull => throw TypeError
  | JObj fs => ret (lookupField k fs)
  | _ => ret JUndefined
  end.

(** The receiver of [v.forEach(...)] or [v.map(...)]: only an array has
    the method. *)
Definition asArray (v : JsVal) : M (list JsVal) :=
  match v with
  | JArr l => ret l
  | _ => throw TypeError
  end.

Definition GET : Opts := {| method := None; headers := []; body := NoBody |}.

Definition postJson (v : JsVal) : Opts :=
  {| method := Some "POST";
     headers := [("Content-Type", "application/json")];
     body := Json v |}.

(** ** Strings the script builds *)

Module Fmt.

(** The double-quote character of the markup templates. *)
Definition dq : string := String "034" "".

(** [name="v"] *)
Definition attr (name v : string) : string := name ++ "=" ++ dq ++ v ++ dq.

Definition hexDigit (n : N) : ascii :=
  match n with
  | 0%N => "0" | 1%N => "1" | 2%N => "2" | 3%N => "3" | 4%N => "4"
  | 5%N => "5" | 6%N => "6" | 7%N => "7" | 8%N => "8" | 9%N => "9"
  | 10%N => "A" | 11%N => "B" | 12%N => "C" | 13%N => "D" | 14%N => "E"
  | _ => "F"
  end%char.

(** Bytes the form-urlencoded serialiser leaves as they are: ASCII
    letters and digits and [* - . _]. *)
Definition unreserved (c : ascii) : bool :=
  let n := N_of_ascii c in
  ((48 <=? n) && (n <=? 57) || (65 <=? n) && (n <=? 90)
   || (97 <=? n) && (n <=? 122)
   || (n =? 42) || (n =? 45) || (n =? 46) || (n =? 95))%N.

Fixpoint urlencode (s : string) : string :=
  match s with
  | EmptyString => EmptyString
  | String c r =>
      if unreserved c then String c (urlencode r)
      else if Ascii.eqb c " " then String "+" (urlencode r)
      else
        let n := N_of_ascii c in
        String "%" (String (hexDigit (n / 16)) (String (hexDigit (n mod 16))
                                                        (urlencode r)))
  end.

(** [new URLSearchParams(entries).toString()] *)
Definition URLSearchParams (entries : list (string * string)) : string :=
  Str.join "&" (map (fun kv => urlencode (fst kv) ++ "=" ++ urlencode (snd kv))
                    entries).

(** What lands in a nullable DOM string such as [textContent]. *)
Definition nullable (v : JsVal) : string :=
  match v with JUndefined | JNull => "" | _ => Js.toString v end.

(** What lands in the [value] of an input or a textarea. *)
Definition inputValue (v : JsVal) : string :=
  match v with JNull => "" | _ => Js.toString v end.

(** [...(v && {k: v})] inside the argument of [URLSearchParams] *)
Definition entryIf (k : string) (v : JsVal) : list (string * string) :=
  if Js.truthy v then [(k, Js.toString v)] else [].

End Fmt.

(** ** The script

    The functions of the first part of [frontend/app.js], over the [API]
    base address, which is all that the twin script changes. *)

Module Script.
Section WithBase.

Variable API : string.

Definition nl : string := String "010" "".

Definition api (path : string) (o : Opts) : M JsVal :=
  let* res := fetch (API ++ path) o in
  if negb (ok res) then throw (Error (text res))
  else
    match contentType res with
    | Some ct =>
        if Str.includes "application/json" ct then resJson res
        else ret (JStr (text res))
    | None => ret (JStr (text res))
    end.

(** [Number(deckSelect.value)] *)
Definition deckId : M JsVal :=
  let* sel := byId Id.deckSelect in
  ret (Js.Number (JStr (El.selectValue sel))).

(** The class of a row of the cards table. *)
Definition rowClass (wrong_count right_count : JsVal) : string :=
  let hard := Js.gt wrong_count right_count in
  let medium := Js.strictEq wrong_count right_count
                && Js.gt (Js.add right_count wrong_count) (JNum (Int 0)) in
  let easy := Js.gt right_count wrong_count in
  if hard then "hard" else if medium then "medium"
  else if easy then "easy" else "".

Definition cardRow (c : JsVal) : M Node :=
  let* wrong_count := prop c "wrong_count" in
  let* right_count := prop c "right_count" in
  let className := rowClass wrong_count right_count in
  let* due_at := prop c "due_at" in
  let* due :=
    if Js.truthy due_at
    then localeString (Js.toString (Js.add due_at (JStr "Z")))
    else ret "" in
  let* tag := prop c "tag" in
  let* question := prop c "question" in
  let* answer := prop c "answer" in
  let* last_result := prop c "last_result" in
  ret (Created "tr" className ""
         [Markup (Str.concat
            [nl; "      <td>"; Js.toString tag; "</td>";
             nl; "      <td>"; Js.toString question; "</td>";
             nl; "      <td>"; Js.toString answer; "</td>";
             nl; "      <td>";
                 Js.toString (Js.coalesce last_result (JStr "")); "</td>";
             nl; "      <td>"; Js.toString right_count; "</td>";
             nl; "      <td>"; Js.toString wrong_count; "</td>";
             nl; "      <td>"; due; "</td>"])]
         None).

Definition refreshCards : M unit :=
  let* deck_id := deckId in
  let* tagFilter := byId Id.tagFilter in
  let tag := Str.trim (value tagFilter) in
  let q := Fmt.URLSearchParams
             (Fmt.entryIf "deck_id" deck_id ++ Fmt.entryIf "tag" (JStr tag)) in
  let* cards := api ("/cards?" ++ q) GET in
  update Id.cardsTbody (El.setInnerHTML "") ;;
  let* cs := asArray cards in
  forEach cs (fun c =>
    let* tr := cardRow c in
    update Id.cardsTbody (El.appendChild tr)).

Definition statBox (style label : string) (n : JsVal) : string :=
  Str.concat [nl; "    <div "; Fmt.attr "class" "box"; style; ">"; label;
              ": "; Js.toString n; "</div>"].

Definition refreshStats : M unit :=
  let* deck_id := deckId in
  let q := Fmt.URLSearchParams (Fmt.entryIf "deck_id" deck_id) in
  let* s := api ("/reflect/stats?" ++ q) GET in
  let* total := prop s "total" in
  let bucket k := (let* b := prop s "buckets" in prop b k) in
  let* red_hard := bucket "red_hard" in
  let* orange_medium := bucket "orange_medium" in
  let* green_easy := bucket "green_easy" in
  let* gray_never := bucket "gray_never" in
  let colour c := " " ++ Fmt.attr "style" ("border-color:" ++ c) in
  update Id.stats (El.setInnerHTML (Str.concat
    [statBox "" "Total" total;
     statBox (colour "#ef4444") "Red/Hard" red_hard;
     statBox (colour "#f59e0b") "Orange/Medium" orange_medium;
     statBox (colour "#10b981") "Green/Easy" green_easy;
     statBox (colour "#9ca3af") "Never Reviewed" gray_never;
     nl; "  "])).

Definition refreshDecks : M unit :=
  let* decks := api "/decks" GET in
  update Id.deckSelect (El.setInnerHTML "") ;;
  let* ds := asArray decks in
  forEach ds (fun d =>
    let* id := prop d "id" in
    let* name := prop d "name" in
    update Id.deckSelect
      (El.appendChild
         (Created "option" "" (Js.toString id)
            (El.textNodes (Fmt.nullable name)) None))) ;;
  match ds with
  | [] => ret tt
  | _ :: _ => detach refreshCards ;; detach refreshStats
  end.

Definition createDeck : M unit :=
  let* deckName := byId Id.deckName in
  let name := Str.trim (value deckName) in
  if Str.is_empty name then ret tt
  else
    api "/decks" (postJson (JObj [("name", JStr name)])) ;;
    update Id.deckName (El.setValue "") ;;
    detach refreshDecks.

(** [$("tag").value.trim() || "general"] *)
Definition tagOrGeneral : M JsVal :=
  let* t := byId Id.tag in
  ret (Js.or (JStr (Str.trim (value t))) (JStr "general")).

Definition addCard : M unit :=
  let* deck_id := deckId in
  let* tag := tagOrGeneral in
  let* qe := byId Id.question in
  let question := Str.trim (value qe) in
  let* ae := byId Id.answer in
  let answer := Str.trim (value ae) in
  if Js.not deck_id || Str.is_empty question || Str.is_empty answer
  then ret tt
  else
    api "/cards"
      (postJson (JObj [("deck_id", deck_id); ("tag", tag);
                       ("question", JStr question);
                       ("answer", JStr answer)])) ;;
    update Id.question (El.setValue "") ;;
    update Id.answer (El.setValue "") ;;
    detach refreshCards ;;
    detach refreshStats.

Definition nothingDue : string :=
  "Nothing due yet—nice! Add cards or wait until due.".

Definition loadNext : M unit :=
  let* deck_id := deckId in
  let* tagFilter := byId Id.tagFilter in
  let tag := Str.trim (value tagFilter) in
  let q := Fmt.URLSearchParams
             (("deck_id", Js.toString deck_id) :: Fmt.entryIf "tag" (JStr tag)) in
  let* card := api ("/review/next?" ++ q) GET in
  if Js.not card then
    update Id.reviewQ (El.setTextContent nothingDue) ;;
    update Id.reviewA (El.classAdd "hidden") ;;
    update Id.reviewA (El.setTextContent "") ;;
    update Id.reviewQ (El.setCardId "")
  else
    let* question := prop card "question" in
    update Id.reviewQ (El.setTextContent (Fmt.nullable question)) ;;
    let* answer := prop card "answer" in
    update Id.reviewA (El.setTextContent (Fmt.nullable answer)) ;;
    update Id.reviewA (El.classAdd "hidden") ;;
    let* id := prop card "id" in
    update Id.reviewQ (El.setCardId (Js.toString id)).

(** [$("reviewQ").dataset.cardId || 0] *)
Definition datasetCardId (e : Elem) : JsVal :=
  Js.or (match cardId e with Some s => JStr s | None => JUndefined end)
        (JNum (Int 0)).

Definition submitResult (result : string) : M unit :=
  let* reviewQ := byId Id.reviewQ in
  let cardId := Js.Number (datasetCardId reviewQ) in
  if Js.not cardId then ret tt
  else
    api "/review/submit"
      (postJson (JObj [("card_id", cardId); ("result", JStr result)])) ;;
    loadNext ;;
    refreshCards ;;
    refreshStats.

Definition showAnswer : M unit :=
  update Id.reviewA (El.classRemove "hidden").

Definition qaMarkup (q a : JsVal) : string :=
  Str.concat
    ["<b>Q:</b> "; Js.toString q; "<br/><b>A:</b> "; Js.toString a;
     nl; "      <div "; Fmt.attr "class" "row"; " ";
         Fmt.attr "style" "margin-top:6px"; ">";
     nl; "        <button "; Fmt.attr "class" "ghost"; " ";
         Fmt.attr "data-add" "1"; ">+ Add as Card</button>";
     nl; "      </div>"].

(** The click handler [ingestPdf] gives the button of each extracted
    question, with the [item] it closes over. *)
Definition addAsCard (item : JsVal) : M unit :=
  let* deck_id := deckId in
  let* tag := tagOrGeneral in
  let* q := prop item "q" in
  let* a := prop item "a" in
  api "/cards"
    (postJson (JObj [("deck_id", deck_id); ("tag", tag);
                     ("question", q); ("answer", a)])) ;;
  detach refreshCards ;;
  detach refreshStats.

Definition ingestPdf : M unit :=
  let* pdfFile := byId Id.pdfFile in
  match files pdfFile with
  | [] => ret tt
  | f :: _ =>
      let* res := fetch (API ++ "/ingest/pdf")
                    {| method := Some "POST"; headers := [];
                       body := FormData [("file", f)] |} in
      let* data := resJson res in
      update Id.qaList (El.setInnerHTML "") ;;
      let* qa := prop data "qa" in
      let* items := asArray qa in
      forEach items (fun item =>
        let* q := prop item "q" in
        let* a := prop item "a" in
        update Id.qaList
          (El.appendChild
             (Created "div" "box" "" [Markup (qaMarkup q a)] (Some item))))
  end.

End WithBase.
End Script.

(** ** [frontend/app.js]: the script at ["/api"], and the sidekick *)

Module App.

Definition API : string := "/api".

Definition api := Script.api API.
Definition refreshDecks := Script.refreshDecks API.
Definition createDeck := Script.createDeck API.
Definition addCard := Script.addCard API.
Definition loadNext := Script.loadNext API.
Definition submitResult := Script.submitResult API.
Definition showAnswer := Script.showAnswer.
Definition ingestPdf := Script.ingestPdf API.
Definition refreshCards := Script.refreshCards API.
Definition refreshStats := Script.refreshStats API.

Definition postMarkup (title when content : string) : string :=
  Str.concat
    [Script.nl; "    <div "; Fmt.attr "class" "box"; " ";
         Fmt.attr "style" "margin-bottom:8px"; ">";
     Script.nl; "      <b>"; title; "</b> <small>("; when; ")</small>";
     Script.nl; "      <div ";
         Fmt.attr "style" "white-space:pre-wrap; margin-top:6px"; ">";
         content; "</div>";
     Script.nl; "    </div>";
     Script.nl; "  "].

Fixpoint mapM {A B} (f : A -> M B) (l : list A) : M (list B) :=
  match l with
  | [] => ret []
  | x :: r => let* y := f x in let* ys := mapM f r in ret (y :: ys)
  end.

Definition refreshPosts : M unit :=
  let* posts := api "/posts" GET in
  let* ps := asArray posts in
  let* boxes := mapM (fun p =>
    let* title := prop p "title" in
    let* created_at := prop p "created_at" in
    let* when := localeString (Js.toString (Js.add created_at (JStr "Z"))) in
    let* content := prop p "content" in
    ret (postMarkup (Js.toString title) when (Js.toString content))) ps in
  update Id.postsList (El.setInnerHTML (Str.concat boxes)).

(** The click handler of the button that opens the sidekick pane. *)
Definition openSidekick : M unit :=
  let* pane := byId Id.sidekickPane in
  update Id.sidekickPane
    (El.setDisplay (if String.eqb (display pane) "none" then "block"
                    else "none")) ;;
  let* pane := byId Id.sidekickPane in
  if String.eqb (display pane) "block" then detach refreshPosts
  else ret tt.

Definition gemini (says : string) : string :=
  "<div><b>Gemini:</b> " ++ says ++ "</div>".

Definition you (says : string) : string :=
  "<div><b>You:</b> " ++ says ++ "</div>".

Definition greatWork : string :=
  "Great work! I generated a draft on the left — feel free to edit, then click Post.".

(** Moving the focus to the input and scrolling the chat box to its end
    change what the user sees, not what the script later reads; they are
    left out. *)
Definition startSidekick : M unit :=
  let* e := byId Id.sidekickTopic in
  let topic := Str.trim (value e) in
  if Str.is_empty topic then ret tt
  else
    let* res := api "/socratic/start"
                  (postJson (JObj [("topic", JStr topic)])) in
    let* session_id := prop res "session_id" in
    setSession session_id ;;
    update Id.sidekickTitle (El.setValue topic) ;;
    update Id.sidekickOutput (El.setValue "") ;;
    let* question := prop res "question" in
    update Id.chatBox (El.setInnerHTML (gemini (Js.toString question))).

Definition sendSidekickAnswer : M unit :=
  let* session := getSession in
  if Js.not session then ret tt
  else
    let* e := byId Id.chatInput in
    let ans := Str.trim (value e) in
    if Str.is_empty ans then ret tt
    else
      update Id.chatBox (El.appendInnerHTML (you ans)) ;;
      update Id.chatInput (El.setValue "") ;;
      let* session := getSession in
      let* res := api "/socratic/reply"
                    (postJson (JObj [("session_id", session);
                                     ("answer", JStr ans)])) in
      let* done := prop res "done" in
      if Js.not done then
        let* question := prop res "question" in
        update Id.chatBox (El.appendInnerHTML (gemini (Js.toString question)))
      else
        let* content := prop res "content" in
        update Id.sidekickOutput (El.setValue (Fmt.inputValue content)) ;;
        let* title := prop res "title" in
        let* t := byId Id.sidekickTitle in
        update Id.sidekickTitle
          (El.setValue
             (Fmt.inputValue
                (Js.or title (Js.or (JStr (value t))
                                    (JStr "My Learning Note"))))) ;;
        update Id.chatBox (El.appendInnerHTML (gemini greatWork)).

Definition postNote : M unit :=
  let* t := byId Id.sidekickTitle in
  let title := Js.or (JStr (Str.trim (value t))) (JStr "My Learning Note") in
  let* o := byId Id.sidekickOutput in
  let content := Str.trim (value o) in
  if Str.is_empty content then ret tt
  else
    api "/posts" (postJson (JObj [("title", title);
                                  ("content", JStr content)])) ;;
    refreshPosts.

End App.

(** ** The twin script: the same functions at ["http://localhost:8000"] *)

Module Twin.

Definition API : string := "http://localhost:8000".

Definition api := Script.api API.
Definition refreshDecks := Script.refreshDecks API.
Definition createDeck := Script.createDeck API.
Definition addCard := Script.addCard API.
Definition loadNext := Script.loadNext API.
Definition submitResult := Script.submitResult API.
Definition showAnswer := Script.showAnswer.
Definition ingestPdf := Script.ingestPdf API.
Definition refreshCards := Script.refreshCards API.
Definition refreshStats := Script.refreshStats API.

End Twin.

(** ** The two sessions, read off the state *)

Module Review.

(** The identifier of the loaded card: what [submitResult] makes of
    [dataset.cardId], when that is a number other than zero. *)
Definition loadedCard (d : Dom) : option Z :=
  match Js.toNumber (Script.datasetCardId (Page.get Id.reviewQ d)) with
  | Int z => if Z.eqb z 0 then None else Some z
  | NaN => None
  end.

(** No card is loaded: [dataset.cardId] is absent, as on a page where
    nothing has been loaded yet, or empty, as [loadNext] leaves it when
    nothing is due. *)
Definition noCard (d : Dom) : Prop :=
  cardId (Page.get Id.reviewQ d) = None \/
  cardId (Page.get Id.reviewQ d) = Some "".

Definition answerHidden (d : Dom) : bool :=
  bool_decide ("hidden" ∈ classList (Page.get Id.reviewA d)).

Inductive state :=
| Empty
| Loaded (id : Z) (hidden : bool).

Definition state_of (d : Dom) : state :=
  match loadedCard d with
  | Some id => Loaded id (answerHidden d)
  | None => Empty
  end.

(** The relative address [loadNext] asks for, from the selected deck and
    the tag filter. *)
Definition nextPath (d : Dom) : string :=
  "/review/next?" ++
  Fmt.URLSearchParams
    (("deck_id",
      Js.toString (Js.Number (JStr (El.selectValue (Page.get Id.deckSelect d)))))
     :: Fmt.entryIf "tag" (JStr (Str.trim (value (Page.get Id.tagFilter d))))).

(** The request [submitResult] sends to grade card [id] as [result]. *)
Definition submitRequest (API : string) (id : Z) (result : string) : Request :=
  {| url := API ++ "/review/submit";
     opts := postJson (JObj [("card_id", JNum (Int id));
                             ("result", JStr result)]) |}.

End Review.

Module Dialogue.

(** No session: [SOC_SESSION] is [null], or anything else [!] takes for
    false. *)
Definition noSession (st : State) : Prop := Js.truthy (SOC_SESSION st) = false.

(** The transcript is what the chat box holds. *)
Definition transcript (st : State) : list Node :=
  nodes (Page.get Id.chatBox (dom st)).

(** The text waiting in the chat input. *)
Definition pending (st : State) : string :=
  value (Page.get Id.chatInput (dom st)).

Definition topic (st : State) : string :=
  Str.trim (value (Page.get Id.sidekickTopic (dom st))).

Definition replyRequest (session : JsVal) (ans : string) : Request :=
  {| url := App.API ++ "/socratic/reply";
     opts := postJson (JObj [("session_id", session);
                             ("answer", JStr ans)]) |}.

End Dialogue.

(** [v.k] for a value that is neither [null] nor [undefined]. *)
Definition field (k : string) (v : JsVal) : JsVal :=
  match v with
  | JObj fs => lookupField k fs
  | _ => JUndefined
  end.

(** Whether the declared content type of a response says JSON. *)
Definition declaresJson (r : Response) : bool :=
  match contentType r with
  | Some ct => Str.includes "application/json" ct
  | None => false
  end.

(** ** What the operations do to the page *)

Module Effect.

(** [loadNext] when nothing is due. *)
Definition showNothingDue (d : Dom) : Dom :=
  Page.set Id.reviewQ
    (El.setCardId ""
       (El.setTextContent Script.nothingDue (Page.get Id.reviewQ d)))
    (Page.set Id.reviewA
       (El.setTextContent "" (El.classAdd "hidden" (Page.get Id.reviewA d)))
       d).

(** [loadNext] when the backend returns [card]. *)
Definition showCard (card : JsVal) (d : Dom) : Dom :=
  Page.set Id.reviewQ
    (El.setCardId (Js.toString (field "id" card))
       (El.setTextContent (Fmt.nullable (field "question" card))
          (Page.get Id.reviewQ d)))
    (Page.set Id.reviewA
       (El.classAdd "hidden"
          (El.setTextContent (Fmt.nullable (field "answer" card))
             (Page.get Id.reviewA d)))
       d).

(** [showAnswer] *)
Definition reveal (d : Dom) : Dom :=
  Page.set Id.reviewA (El.classRemove "hidden" (Page.get Id.reviewA d)) d.

(** [sendSidekickAnswer] before it calls the backend: the user's turn
    joins the transcript and the input is cleared. *)
Definition sayYou (ans : string) (d : Dom) : Dom :=
  Page.set Id.chatInput (El.setValue "" (Page.get Id.chatInput d))
    (Page.set Id.chatBox
       (El.appendInnerHTML (App.you ans) (Page.get Id.chatBox d)) d).

(** [startSidekick] once the backend has answered [res]. *)
Definition openDialogue (topic : string) (res : JsVal) (d : Dom) : Dom :=
  Page.set Id.chatBox
    (El.setInnerHTML (App.gemini (Js.toString (field "question" res)))
       (Page.get Id.chatBox d))
    (Page.set Id.sidekickOutput
       (El.setValue "" (Page.get Id.sidekickOutput d))
       (Page.set Id.sidekickTitle
          (El.setValue topic (Page.get Id.sidekickTitle d)) d)).

(** [sendSidekickAnswer] once the backend has answered [res]: the next
    question, or the draft and the closing words. *)
Definition showReply (res : JsVal) (d : Dom) : Dom :=
  if Js.not (field "done" res) then
    Page.set Id.chatBox
      (El.appendInnerHTML (App.gemini (Js.toString (field "question" res)))
         (Page.get Id.chatBox d)) d
  else
    Page.set Id.chatBox
      (El.appendInnerHTML (App.gemini App.greatWork) (Page.get Id.chatBox d))
      (Page.set Id.sidekickTitle
         (El.setValue
            (Fmt.inputValue
               (Js.or (field "title" res)
                  (Js.or (JStr (value (Page.get Id.sidekickTitle d)))
                         (JStr "My Learning Note"))))
            (Page.get Id.sidekickTitle d))
         (Page.set Id.sidekickOutput
            (El.setValue (Fmt.inputValue (field "content" res))
               (Page.get Id.sidekickOutput d)) d)).

End Effect.

Definition nullish (v : JsVal) : bool :=
  match v with JUndefined | JNull => true | _ => false end.

Definition isGet (rq : Request) : Prop := method (opts rq) = None.

(** ** Strings without white space, and digit strings *)

Fixpoint solid (s : string) : bool :=
  match s with
  | EmptyString => true
  | String c r => negb (Str.leadsWs c) && solid r
  end.

Definition is_digit (c : ascii) : bool :=
  match c with
  | "0" | "1" | "2" | "3" | "4" | "5" | "6" | "7" | "8" | "9" => true
  | _ => false
  end%char.

Fixpoint all_digits (s : string) : bool :=
  match s with
  | EmptyString => true
  | String c r => is_digit c && all_digits r
  end.

(** ** Relating the state after a run to the state before *)

(** Every run of [m] takes a state to one that [I] relates to it. *)
Definition within (I : State -> State -> Prop) {A} (m : M A) : Prop :=
  forall env st, I st (snd (m env st)).

(** The requests sent have only grown, by requests that satisfy [P]. *)
Definition grows (P : Request -> Prop) (st st' : State) : Prop :=
  exists later, sent st' = (sent st ++ later)%list /\ Forall P later.

(** The elements that satisfy [keep] are as they were. *)
Definition keeps (keep : Id.t -> bool) (st st' : State) : Prop :=
  forall i, keep i = true -> Page.get i (dom st') = Page.get i (dom st).

Definition isReview (i : Id.t) : bool :=
  match i with Id.reviewQ | Id.reviewA => true | _ => false end.

(** ** Sample pages and backends *)

Module Sample.

Definition jsonOk (v : JsVal) (raw : string) : Response :=
  {| ok := true; contentType := Some "application/json";
     text := raw; json := Some v |}.

Definition serverError : Response :=
  {| ok := false; contentType := Some "text/plain; charset=utf-8";
     text := "Internal Server Error"; json := None |}.

(** The first entry whose address starts the requested one answers. *)
Fixpoint route (table : list (string * Response)) (rq : Request) : FetchResult :=
  match table with
  | [] => Unreachable
  | (p, r) :: rest =>
      if String.prefix p (url rq) then Responded r else route rest rq
  end.

Definition card (id : Z) (q a : string) : JsVal :=
  JObj [("id", JNum (Int id)); ("tag", JStr "general");
        ("question", JStr q); ("answer", JStr a);
        ("last_result", JNull); ("right_count", JNum (Int 0));
        ("wrong_count", JNum (Int 0)); ("due_at", JNull)].

Definition card42 : JsVal := card 42 "2 + 2?" "4".
Definition card43 : JsVal := card 43 "3 + 3?" "6".

Definition stats : JsVal :=
  JObj [("total", JNum (Int 1));
        ("buckets", JObj [("red_hard", JNum (Int 0));
                          ("orange_medium", JNum (Int 0));
                          ("green_easy", JNum (Int 0));
                          ("gray_never", JNum (Int 1))])].

Definition ack : Response := jsonOk (JObj [("ok", JBool true)]) "{...}".

Definition views (base : string) : list (string * Response) :=
  [(base ++ "/cards", jsonOk (JArr [card42]) "[...]");
   (base ++ "/reflect/stats", jsonOk stats "{...}");
   (base ++ "/decks",
    jsonOk (JArr [JObj [("id", JNum (Int 1)); ("name", JStr "Maths")]])
           "[...]")].

Definition wasGraded (base : string) (hist : list Request) : bool :=
  existsb (fun rq => String.prefix (base ++ "/review/submit") (url rq)) hist.

(** A deck whose only card stays due however it is graded. *)
Definition oneCardDue : Env :=
  {| backend := fun _ => route
       (("/api/review/submit", ack)
        :: ("/api/review/next", jsonOk card42 "{...}") :: views "/api");
     toLocaleString := fun iso => iso |}.

(** Card 42 is due first; once a card has been graded, card 43 is. *)
Definition twoCards (base : string) : Env :=
  {| backend := fun hist => route
       ((base ++ "/review/submit", ack)
        :: (base ++ "/review/next",
            if wasGraded base hist then jsonOk card43 "{...}"
            else jsonOk card42 "{...}")
        :: views base);
     toLocaleString := fun iso => iso |}.

(** Card 42 is due; once it has been graded nothing is. *)
Definition lastCard : Env :=
  {| backend := fun hist => route
       (("/api/review/submit", ack)
        :: ("/api/review/next",
            if wasGraded "/api" hist then jsonOk JNull "null"
            else jsonOk card42 "{...}")
        :: views "/api");
     toLocaleString := fun iso => iso |}.

(** Grading works, and then the backend stops answering properly. *)
Definition failsAfterGrading : Env :=
  {| backend := fun hist rq =>
       if wasGraded "/api" hist then Responded serverError
       else backend lastCard hist rq;
     toLocaleString := fun iso => iso |}.

(** A deck with nothing due. *)
Definition emptyDeck : Env :=
  {| backend := fun _ => route
       (("/api/review/next", jsonOk JNull "null") :: views "/api");
     toLocaleString := fun iso => iso |}.

(** A backend that answers every request with a line of plain text. *)
Definition textOnly : Env :=
  {| backend := fun _ _ =>
       Responded {| ok := true; contentType := Some "text/plain";
                    text := "pong"; json := None |};
     toLocaleString := fun iso => iso |}.

(** A backend that answers every request with an error. *)
Definition down : Env :=
  {| backend := fun _ _ => Responded serverError;
     toLocaleString := fun iso => iso |}.

(** The sidekick: a first question, and a draft on the first reply. *)
Definition tutor : Env :=
  {| backend := fun _ => route
       [("/api/socratic/start",
         jsonOk (JObj [("session_id", JStr "s1"); ("question", JStr "Q1")])
                "{...}");
        ("/api/socratic/reply",
         jsonOk (JObj [("done", JBool true); ("content", JStr "Notes");
                       ("title", JStr "Photosynthesis Notes")]) "{...}")];
     toLocaleString := fun iso => iso |}.

(** A page with deck 1 selected and nothing else filled in. *)
Definition page : Dom :=
  Page.set Id.deckSelect
    (El.appendChild (Created "option" "" "1" [Text "Maths"] None) El.blank)
    Page.blank.

Definition fresh : State :=
  {| dom := page; SOC_SESSION := JNull; sent := [] |}.

(** The user types [s] into the element [i]. *)
Definition type (i : Id.t) (s : string) (st : State) : State :=
  withDom (Page.set i (El.setValue s (Page.get i (dom st))) (dom st)) st.

(** Card 42 loaded, answer hidden. *)
Definition loaded42 : State := snd (App.loadNext lastCard fresh).

(** The same in the twin script. *)
Definition loaded42twin : State :=
  snd (Twin.loadNext (twoCards Twin.API) fresh).

(** A card wrong twice and right once. *)
Definition shaky : list (string * JsVal) :=
  [("id", JNum (Int 7)); ("tag", JStr "general");
   ("question", JStr "7 * 8?"); ("answer", JStr "56");
   ("last_result", JStr "hard"); ("right_count", JNum (Int 1));
   ("wrong_count", JNum (Int 2)); ("due_at", JStr "2025-01-01T00:00:00")].

(** A dialogue on photosynthesis, just started. *)
Definition started : State :=
  snd (App.startSidekick tutor (type Id.sidekickTopic "Photosynthesis" fresh)).

(** The same dialogue after the reply that completes it. *)
Definition completed : State :=
  snd (App.sendSidekickAnswer tutor
         (type Id.chatInput "Because sunlight" started)).

End Sample.

(** ** The two scripts side by side *)

(** A call of one of the functions the two scripts share. *)
Inductive Call :=
| CallApi (path : string) (o : Opts)
| CallRefreshDecks
| CallCreateDeck
| CallAddCard
| CallLoadNext
| CallSubmitResult (result : string)
| CallShowAnswer
| CallIngestPdf
| CallRefreshCards
| CallRefreshStats.

Module Twins.

(** The call as [frontend/app.js] runs it. *)
Definition inApp (c : Call) : M JsVal :=
  match c with
  | CallApi path o => App.api path o
  | CallRefreshDecks => App.refreshDecks ;; ret JUndefined
  | CallCreateDeck => App.createDeck ;; ret JUndefined
  | CallAddCard => App.addCard ;; ret JUndefined
  | CallLoadNext => App.loadNext ;; ret JUndefined
  | CallSubmitResult result => App.submitResult result ;; ret JUndefined
  | CallShowAnswer => App.showAnswer ;; ret JUndefined
  | CallIngestPdf => App.ingestPdf ;; ret JUndefined
  | CallRefreshCards => App.refreshCards ;; ret JUndefined
  | CallRefreshStats => App.refreshStats ;; ret JUndefined
  end.

(** The call as the twin script runs it. *)
Definition inTwin (c : Call) : M JsVal :=
  match c with
  | CallApi path o => Twin.api path o
  | CallRefreshDecks => Twin.refreshDecks ;; ret JUndefined
  | CallCreateDeck => Twin.createDeck ;; ret JUndefined
  | CallAddCard => Twin.addCard ;; ret JUndefined
  | CallLoadNext => Twin.loadNext ;; ret JUndefined
  | CallSubmitResult result => Twin.submitResult result ;; ret JUndefined
  | CallShowAnswer => Twin.showAnswer ;; ret JUndefined
  | CallIngestPdf => Twin.ingestPdf ;; ret JUndefined
  | CallRefreshCards => Twin.refreshCards ;; ret JUndefined
  | CallRefreshStats => Twin.refreshStats ;; ret JUndefined
  end.

(** The request for the relative address [url rq], sent under [base]. *)
Definition under (base : string) (rq : Request) : Request :=
  {| url := base ++ url rq; opts := opts rq |}.

(** Two surroundings that differ in where the backend lives only: what
    the one answers under [b1] the other answers under [b2], and the
    locale is the same. *)
Definition alike (b1 b2 : string) (e1 e2 : Env) : Prop :=
  (forall hist rq,
     backend e1 (map (under b1) hist) (under b1 rq) =
     backend e2 (map (under b2) hist) (under b2 rq)) /\
  (forall iso, toLocaleString e1 iso = toLocaleString e2 iso).

(** Two states that differ in the base address of the requests sent
    only. *)
Definition paired (b1 b2 : string) (s1 s2 : State) : Prop :=
  dom s1 = dom s2 /\ SOC_SESSION s1 = SOC_SESSION s2 /\
  exists hist, sent s1 = map (under b1) hist /\ sent s2 = map (under b2) hist.

(** [m1] in the one surrounding and [m2] in the other do the same. *)
Definition agree (b1 b2 : string) (e1 e2 : Env) {A} (m1 m2 : M A) : Prop :=
  forall s1 s2,
    paired b1 b2 s1 s2 ->
    fst (m1 e1 s1) = fst (m2 e2 s2) /\
    paired b1 b2 (snd (m1 e1 s1)) (snd (m2 e2 s2)).

End Twins.

(** ** The wiring: what the page's events run

    The last lines of each part of [frontend/app.js] hand the functions to
    the page as event handlers.  A handler's promise goes nowhere: what it
    rejects with is lost. *)

Module Wiring.

Definition setFiles (l : list File) (e : Elem) : Elem :=
  {| value := value e; nodes := nodes e; classList := classList e;
     cardId := cardId e; display := display e; files := l;
     selectedIndex := selectedIndex e |}.

Definition setSelectedIndex (n : nat) (e : Elem) : Elem :=
  {| value := value e; nodes := nodes e; classList := classList e;
     cardId := cardId e; display := display e; files := files e;
     selectedIndex := n |}.

(** [deckSelect.onchange] *)
Definition onDeckChange : M unit :=
  detach App.refreshCards ;; detach App.refreshStats.

(** The [keydown] listener of the chat input. *)
Definition onChatKeydown (key : string) : M unit :=
  if String.eqb key "Enter" then detach App.sendSidekickAnswer else ret tt.

(** The click handler of the [n]-th box of extracted questions: the one
    [ingestPdf] gave its button, with the item it closed over. *)
Definition onAddAsCard (n : nat) : M unit :=
  let* qaList := byId Id.qaList in
  match nth_error (nodes qaList) n with
  | Some (Created _ _ _ _ (Some item)) => detach (Script.addAsCard App.API item)
  | _ => ret tt
  end.

(** What can happen to the page: the user fills in a field, picks a deck or
    a file, presses a key in the chat input or clicks a button, and the
    page finishes loading. *)
Inductive Event :=
| Typed (i : Id.t) (s : string)
| DeckPicked (n : nat)
| FilePicked (f : File)
| DOMContentLoaded
| CreateDeckClicked
| AddCardClicked
| LoadNextClicked
| ShowAnswerClicked
| ResultClicked (res : string)            (* a [button[data-res]] *)
| IngestClicked
| AddAsCardClicked (n : nat)
| OpenSidekickClicked
| StartSidekickClicked
| ChatSendClicked
| PostNoteClicked
| ChatKeydown (key : string).

Definition handle (ev : Event) : M unit :=
  match ev with
  | Typed i s => update i (El.setValue s)
  | DeckPicked n => update Id.deckSelect (setSelectedIndex n) ;; onDeckChange
  | FilePicked f => update Id.pdfFile (setFiles [f])
  | DOMContentLoaded => detach App.refreshDecks
  | CreateDeckClicked => detach App.createDeck
  | AddCardClicked => detach App.addCard
  | LoadNextClicked => detach App.loadNext
  | ShowAnswerClicked => App.showAnswer
  | ResultClicked res => detach (App.submitResult res)
  | IngestClicked => detach App.ingestPdf
  | AddAsCardClicked n => onAddAsCard n
  | OpenSidekickClicked => App.openSidekick
  | StartSidekickClicked => detach App.startSidekick
  | ChatSendClicked => detach App.sendSidekickAnswer
  | PostNoteClicked => detach App.postNote
  | ChatKeydown key => onChatKeydown key
  end.

(** The state after a sequence of events, each handled to the end before
    the next arrives. *)
Fixpoint run (evs : list Event) (env : Env) (st : State) : State :=
  match evs with
  | [] => st
  | ev :: rest => run rest env (snd (handle ev env st))
  end.

(** The elements of the sidekick pane. *)
Definition isSidekick (i : Id.t) : bool :=
  match i with
  | Id.sidekickPane | Id.sidekickTopic | Id.sidekickTitle | Id.sidekickOutput
  | Id.chatBox | Id.chatInput | Id.postsList => true
  | _ => false
  end.

(** The events of the sidekick pane. *)
Definition isDialogueEvent (ev : Event) : bool :=
  match ev with
  | Typed i _ => isSidekick i
  | OpenSidekickClicked | StartSidekickClicked | ChatSendClicked
  | PostNoteClicked | ChatKeydown _ => true
  | _ => false
  end.

(** A request to an address under the [API] base of [frontend/app.js]. *)
Definition toBackend (rq : Request) : Prop :=
  exists path, url rq = App.API ++ path.

End Wiring.

(** ** The forms, read off the page *)

Module Forms.

(** What is typed in the field [i], trimmed. *)
Definition typed (i : Id.t) (d : Dom) : string :=
  Str.trim (value (Page.get i d)).

(** [Number(deckSelect.value)] *)
Definition deckNumber (d : Dom) : JsVal :=
  Js.Number (JStr (El.selectValue (Page.get Id.deckSelect d))).

(** The tag of a new card: the tag field, ["general"] when it is blank. *)
Definition tagOrGeneral (d : Dom) : JsVal :=
  Js.or (JStr (typed Id.tag d)) (JStr "general").

Definition createRequest (API name : string) : Request :=
  {| url := API ++ "/decks"; opts := postJson (JObj [("name", JStr name)]) |}.

Definition cardRequest (API : string) (deck tag q a : JsVal) : Request :=
  {| url := API ++ "/cards";
     opts := postJson (JObj [("deck_id", deck); ("tag", tag);
                             ("question", q); ("answer", a)]) |}.

Definition cleared (i : Id.t) (d : Dom) : Dom :=
  Page.set i (El.setValue "" (Page.get i d)) d.

End Forms.

(** ** The views, and what a run may and may not touch *)

(** The fields of the deck and card forms. *)
Definition isForm (i : Id.t) : bool :=
  match i with
  | Id.deckName | Id.tag | Id.question | Id.answer | Id.tagFilter => true
  | _ => false
  end.

(** The relative addresses [refreshCards] and [refreshStats] ask for, from
    the selected deck and the tag filter. *)
Definition cardsPath (d : Dom) : string :=
  "/cards?" ++
  Fmt.URLSearchParams
    (Fmt.entryIf "deck_id" (Forms.deckNumber d) ++
     Fmt.entryIf "tag" (JStr (Forms.typed Id.tagFilter d))).

Definition statsPath (d : Dom) : string :=
  "/reflect/stats?" ++
  Fmt.URLSearchParams (Fmt.entryIf "deck_id" (Forms.deckNumber d)).

(** The request [api(path)] sends when it is given no options. *)
Definition get (API path : string) : Request :=
  {| url := API ++ path; opts := GET |}.

(** [tr] is the row [cardRow] builds for the card [c]. *)
Definition rowFor (env : Env) (c : JsVal) (tr : Node) : Prop :=
  forall st, Script.cardRow c env st = (Ret tr, st).

(** The page once the nodes [l] have been appended to the element [i], and
    once the element [i] has been emptied through [innerHTML]. *)
Definition appended (i : Id.t) (l : list Node) (d : Dom) : Dom :=
  Page.set i (El.setNodes (nodes (Page.get i d) ++ l) (Page.get i d)) d.

Definition emptied (i : Id.t) (d : Dom) : Dom :=
  Page.set i (El.setInnerHTML "" (Page.get i d)) d.

(** Frames: every element, no request at all, the session token. *)
Definition everywhere (i : Id.t) : bool := true.

Definition silent (rq : Request) : Prop := False.

(** [m] has written nothing to the page when it throws. *)
Definition atomic {A} (m : M A) : Prop :=
  forall env st e st', m env st = (Throw e, st') -> dom st' = dom st.

Definition sameSession (st st' : State) : Prop :=
  SOC_SESSION st' = SOC_SESSION st.

(** Every element but the one a view writes to. *)
Definition notStats (i : Id.t) : bool :=
  match i with Id.stats => false | _ => true end.

Definition notPosts (i : Id.t) : bool :=
  match i with Id.postsList => false | _ => true end.

(** The option [refreshDecks] builds for the deck [d]. *)
Definition optionFor (d : JsVal) : Node :=
  Created "option" "" (Js.toString (field "id" d))
    (El.textNodes (Fmt.nullable (field "name" d))) None.


(** The upload of the file [f]. *)
Definition ingestRequest (API : string) (f : File) : Request :=
  {| url := API ++ "/ingest/pdf";
     opts := {| method := Some "POST"; headers := [];
                body := FormData [("file", f)] |} |}.

Definition notCards (i : Id.t) : bool :=
  match i with Id.cardsTbody => false | _ => true end.

Definition notViews (i : Id.t) : bool :=
  match i with Id.cardsTbody | Id.stats => false | _ => true end.

(** The page once [pane.style.display = disp]. *)
Definition shown (disp : string) (d : Dom) : Dom :=
  Page.set Id.sidekickPane (El.setDisplay disp (Page.get Id.sidekickPane d)) d.

(** The title [postNote] sends: the title field, ["My Learning Note"] when
    it is blank. *)
Definition noteTitle (d : Dom) : string :=
  if Str.is_empty (Forms.typed Id.sidekickTitle d) then "My Learning Note"
  else Forms.typed Id.sidekickTitle d.

(** The request [postNote] sends for the draft on the page. *)
Definition noteRequest (d : Dom) : Request :=
  {| url := App.API ++ "/posts";
     opts := postJson (JObj [("title", JStr (noteTitle d));
                             ("content", JStr (Forms.typed Id.sidekickOutput d))]) |}.

(** The title a completed dialogue leaves: the backend's, else the one the
    field holds, else ["My Learning Note"]. *)
Definition draftTitle (res : JsVal) (d : Dom) : string :=
  if Js.truthy (field "title" res) then Js.toString (field "title" res)
  else if Str.is_empty (value (Page.get Id.sidekickTitle d))
       then "My Learning Note"
       else value (Page.get Id.sidekickTitle d).

(** The request [startSidekick] sends for [topic]. *)
Definition startRequest (topic : string) : Request :=
  {| url := App.API ++ "/socratic/start";
     opts := postJson (JObj [("topic", JStr topic)]) |}.

(** ** A study session: sample data for the whole page *)

Module Scene.

Definition decks : list JsVal :=
  [JObj [("id", JNum (Int 1)); ("name", JStr "Maths")];
   JObj [("id", JNum (Int 2)); ("name", JStr "Physics")]].

Definition items : list JsVal :=
  [JObj [("q", JStr "What is a cell?"); ("a", JStr "The unit of life")];
   JObj [("q", JStr "What is DNA?"); ("a", JStr "A nucleic acid")]].

Definition post : JsVal :=
  JObj [("title", JStr "Cells"); ("created_at", JStr "2025-01-01T00:00:00");
        ("content", JStr "The unit of life")].

(** A due card the backend sends without a number of its own. *)
Definition unnumbered : JsVal :=
  JObj [("id", JNum (Int 0)); ("question", JStr "Unnumbered?");
        ("answer", JStr "Yes")].

(** What the extraction answers, under a status the script never reads. *)
Definition extracted : Response :=
  {| ok := false; contentType := Some "application/json"; text := "{...}";
     json := Some (JObj [("qa", JArr items)]) |}.

(** Two decks, two cards, one post, questions extracted from any file, and
    a sidekick that is content with the first answer and gives its draft no
    title. *)
Definition study : Env :=
  {| backend := fun _ => Sample.route
       [("/api/decks", Sample.jsonOk (JArr decks) "[...]");
        ("/api/cards",
         Sample.jsonOk (JArr [JObj Sample.shaky; Sample.card42]) "[...]");
        ("/api/reflect/stats", Sample.jsonOk Sample.stats "{...}");
        ("/api/ingest/pdf", extracted);
        ("/api/posts", Sample.jsonOk (JArr [post]) "[...]");
        ("/api/review/next", Sample.jsonOk unnumbered "{...}");
        ("/api/socratic/start",
         Sample.jsonOk (JObj [("session_id", JStr "s2"); ("question", JStr "Q1")])
                       "{...}");
        ("/api/socratic/reply",
         Sample.jsonOk (JObj [("done", JBool true); ("content", JStr "Draft")])
                       "{...}")];
     toLocaleString := fun iso => iso |}.

(** A backend whose lists hold a [null] and whose statistics lack their
    buckets. *)
Definition broken : Env :=
  {| backend := fun _ => Sample.route
       [("/api/decks",
         Sample.jsonOk (JArr [JObj [("id", JNum (Int 1)); ("name", JStr "Maths")];
                              JNull;
                              JObj [("id", JNum (Int 2)); ("name", JStr "Physics")]])
                       "[...]");
        ("/api/cards",
         Sample.jsonOk (JArr [Sample.card42; JNull; Sample.card43]) "[...]");
        ("/api/reflect/stats",
         Sample.jsonOk (JObj [("total", JNum (Int 1))]) "{...}");
        ("/api/posts", Sample.jsonOk (JArr [post; JNull]) "[...]")];
     toLocaleString := fun iso => iso |}.

(** A sidekick that asks a second question. *)
Definition curious : Env :=
  {| backend := fun _ => Sample.route
       [("/api/socratic/start",
         Sample.jsonOk (JObj [("session_id", JStr "s3"); ("question", JStr "Q1")])
                       "{...}");
        ("/api/socratic/reply",
         Sample.jsonOk (JObj [("done", JBool false); ("question", JStr "Q2")])
                       "{...}")];
     toLocaleString := fun iso => iso |}.

Definition notes : File := {| fileName := "notes.pdf"; fileData := "%PDF" |}.

Definition slides : File := {| fileName := "slides.pdf"; fileData := "%PDF" |}.

(** The card form filled in, deck 1 selected. *)
Definition filled : State :=
  Sample.type Id.deckName " Biology "
    (Sample.type Id.question " What is a cell? "
       (Sample.type Id.answer "The unit of life" Sample.fresh)).

(** Two files chosen at once. *)
Definition chosen : State :=
  withDom (Page.set Id.pdfFile
             (Wiring.setFiles [notes; slides] (Page.get Id.pdfFile Sample.page))
             Sample.page) Sample.fresh.

(** The page once it has loaded, the two decks listed. *)
Definition loaded : State := snd (App.refreshDecks study Sample.fresh).

(** The sidekick pane, hidden. *)
Definition hidden : State :=
  withDom (Page.set Id.sidekickPane
             (El.setDisplay "none" (Page.get Id.sidekickPane Sample.page))
             Sample.page) Sample.fresh.

(** A draft ready to be posted, without a title. *)
Definition drafted : State :=
  Sample.type Id.sidekickOutput " The unit of life " Sample.fresh.

End Scene.

(** * Properties *)

(** ** The page as a store *)

Lemma get_set_same i e d : Page.get i (Page.set i e d) = e.
Proof. destruct i; reflexivity. Qed.

Lemma get_set_other i j e d : i <> j -> Page.get j (Page.set i e d) = Page.get j d.
Proof. intros H; destruct i, j; solve [reflexivity | congruence]. Qed.

Lemma set_get i d : Page.set i (Page.get i d) d = d.
Proof. destruct d, i; reflexivity. Qed.

Lemma set_set i e e' d : Page.set i e' (Page.set i e d) = Page.set i e' d.
Proof. destruct i; reflexivity. Qed.

Lemma dom_ext d d' : (forall i, Page.get i d = Page.get i d') -> d = d'.
Proof.
  intros H. destruct d, d'.
  f_equal;
    [ exact (H Id.deckSelect) | exact (H Id.deckName) | exact (H Id.tag)
    | exact (H Id.question) | exact (H Id.answer) | exact (H Id.tagFilter)
    | exact (H Id.reviewQ) | exact (H Id.reviewA) | exact (H Id.pdfFile)
    | exact (H Id.qaList) | exact (H Id.cardsTbody) | exact (H Id.stats)
    | exact (H Id.sidekickPane) | exact (H Id.sidekickTopic)
    | exact (H Id.sidekickTitle) | exact (H Id.sidekickOutput)
    | exact (H Id.chatBox) | exact (H Id.chatInput)
    | exact (H Id.postsList) ].
Qed.

(** ** Trimming

    A white-space character takes at least one byte, so the length of a
    string bounds the characters to strip: any larger bound gives the same
    result. *)

Lemma afterWs_shorter s r :
  Str.afterWs s = Some r -> (String.length r < String.length s)%nat.
Proof.
  destruct s as [|a s]; [discriminate|]. unfold Str.afterWs.
  destruct (N_of_ascii a) as [|p]; [discriminate|].
  do 8 (try match goal with q : positive |- _ => destruct q as [q|q|] end;
        try discriminate);
    repeat match goal with
           | |- context [match ?x with EmptyString => _ | String _ _ => _ end] =>
               destruct x
           | |- context [if ?b then _ else _] => destruct b
           end;
    intros [= <-]; cbn [String.length]; lia.
Qed.

Lemma dropWs_fuel n m s :
  (String.length s <= n)%nat -> (String.length s <= m)%nat ->
  Str.dropWs n s = Str.dropWs m s.
Proof.
  revert m s. induction n as [|n IH]; intros m s Hn Hm.
  - destruct s; [|cbn in Hn; lia]. destruct m; reflexivity.
  - destruct m as [|m].
    + destruct s; [reflexivity|cbn in Hm; lia].
    + cbn [Str.dropWs]. destruct (Str.afterWs s) as [r|] eqn:E; [|reflexivity].
      apply afterWs_shorter in E. apply IH; lia.
Qed.

Lemma onlyWs_fuel n m s :
  (String.length s <= n)%nat -> (String.length s <= m)%nat ->
  Str.onlyWs n s = Str.onlyWs m s.
Proof.
  revert m s. induction n as [|n IH]; intros m s Hn Hm.
  - destruct s; [|cbn in Hn; lia]. destruct m; reflexivity.
  - destruct m as [|m].
    + destruct s; [reflexivity|cbn in Hm; lia].
    + destruct s as [|a s]; [reflexivity|]. cbn [Str.onlyWs].
      destruct (Str.afterWs (String a s)) as [r|] eqn:E; [|reflexivity].
      apply afterWs_shorter in E. apply IH; lia.
Qed.

Example trim_of_spaces :
  Str.trim (String "194" (String "160" " a b ") ++
            String "226" (String "128" (String "168" ""))) = "a b" /\
  Str.trim "  " = "" /\ Str.trim "" = "".
Proof. repeat split. Qed.

(** ** Numbers written to the page and read back *)

Lemma afterWs_plain c r : Str.leadsWs c = false -> Str.afterWs (String c r) = None.
Proof.
  unfold Str.leadsWs, Str.afterWs.
  destruct (N_of_ascii c) as [|p]; [reflexivity|].
  do 8 (destruct p as [p|p|]; try reflexivity; try discriminate).
Qed.

Lemma trimStart_plain c r : Str.leadsWs c = false -> Str.trimStart (String c r) = String c r.
Proof.
  intros H. unfold Str.trimStart. cbn [String.length Str.dropWs].
  rewrite (afterWs_plain c r H). reflexivity.
Qed.

Lemma trimEnd_solid s : solid s = true -> Str.trimEnd s = s.
Proof.
  induction s as [|c r IH]; [reflexivity|].
  cbn [solid]. intros [Hc Hr]%andb_true_iff. apply negb_true_iff in Hc.
  cbn [Str.trimEnd String.length Str.onlyWs].
  rewrite (afterWs_plain c r Hc), (IH Hr). reflexivity.
Qed.

Lemma trim_solid s : solid s = true -> Str.trim s = s.
Proof.
  intros H. unfold Str.trim. destruct s as [|c r]; [reflexivity|].
  pose proof H as H'. cbn [solid] in H'. apply andb_true_iff in H' as [Hc _].
  apply negb_true_iff in Hc. rewrite (trimStart_plain c r Hc).
  apply trimEnd_solid, H.
Qed.

Lemma digits_of_uint d : all_digits (NilEmpty.string_of_uint d) = true.
Proof. induction d; cbn; auto. Qed.

Lemma is_digit_plain c :
  is_digit c = true ->
  Str.leadsWs c = false /\ Ascii.eqb c "-" = false /\ Ascii.eqb c "+" = false.
Proof.
  destruct c as [[] [] [] [] [] [] [] []]; cbn; intros H; try discriminate H;
    repeat split.
Qed.

Lemma all_digits_solid s : all_digits s = true -> solid s = true.
Proof.
  induction s as [|c r IH]; cbn; [reflexivity|].
  intros [Hc Hr]%andb_true_iff.
  destruct (is_digit_plain c Hc) as (-> & _). cbn. auto.
Qed.

Lemma unsignedLit_to_uint p :
  Js.unsignedLit (NilEmpty.string_of_uint (Pos.to_uint p)) = Some (Z.pos p).
Proof.
  unfold Js.unsignedLit.
  pose proof (Unsigned.to_uint_nonnil p) as Hn.
  pose proof (NilZero.usu _ Hn) as Hu.
  unfold NilZero.string_of_uint in Hu.
  destruct (Pos.to_uint p) eqn:E; try congruence;
    rewrite Hu; cbn [option_map]; f_equal; unfold Z.of_uint;
    rewrite <- E, Unsigned.of_to; reflexivity.
Qed.

Lemma string_of_pos p :
  exists c r, NilEmpty.string_of_uint (Pos.to_uint p) = String c r /\
              is_digit c = true /\ all_digits r = true.
Proof.
  pose proof (digits_of_uint (Pos.to_uint p)) as Hd.
  pose proof (Unsigned.to_uint_nonnil p) as Hn.
  destruct (NilEmpty.string_of_uint (Pos.to_uint p)) as [|c r] eqn:E.
  - destruct (Pos.to_uint p); cbn in E; congruence.
  - cbn in Hd. apply andb_true_iff in Hd as [? ?]. eauto.
Qed.

Lemma stringToNumber_numToString z :
  Js.stringToNumber (Js.numToString (Int z)) = Int z.
Proof.
  destruct z as [|p|p]; [reflexivity| |]; unfold Js.numToString, Z.to_int;
    cbn [NilZero.string_of_int];
    pose proof (Unsigned.to_uint_nonnil p) as Hn;
    destruct (string_of_pos p) as (c & r & E & Hc & Hr);
    destruct (is_digit_plain c Hc) as (Hws & Hm & Hp);
    assert (Hs : NilZero.string_of_uint (Pos.to_uint p) = String c r)
      by (rewrite <- E; destruct (Pos.to_uint p); try reflexivity; congruence).
  - unfold Js.stringToNumber. rewrite Hs.
    rewrite trim_solid by (cbn; rewrite Hws, (all_digits_solid _ Hr); reflexivity).
    rewrite Hm, Hp, <- E, unsignedLit_to_uint. reflexivity.
  - unfold Js.stringToNumber. rewrite Hs.
    rewrite trim_solid by (cbn; rewrite Hws, (all_digits_solid _ Hr); reflexivity).
    cbn [Ascii.eqb Bool.eqb]. rewrite <- E, unsignedLit_to_uint. reflexivity.
Qed.

Example numbers_of_strings :
  Js.Number (JStr " 42 ") = JNum (Int 42) /\
  Js.Number (JStr "") = JNum (Int 0) /\
  Js.Number (JStr "-7") = JNum (Int (-7)) /\
  Js.Number (JStr "4x") = JNum NaN /\
  Js.Number (Script.datasetCardId El.blank) = JNum (Int 0).
Proof. repeat split. Qed.

Example query_of_filter :
  Fmt.URLSearchParams
    (("deck_id", "1") :: Fmt.entryIf "tag" (JStr "a b&c")) =
  "deck_id=1&tag=a+b%26c".
Proof. reflexivity. Qed.

(** ** What a run leaves alone *)

Section Frame.

Variable I : State -> State -> Prop.
Hypothesis I_refl : forall st, I st st.
Hypothesis I_trans : forall a b c, I a b -> I b c -> I a c.

Lemma within_ret {A} (a : A) : within I (ret a).
Proof. intros env st. apply I_refl. Qed.

Lemma within_throw {A} e : within I (@throw A e).
Proof. intros env st. apply I_refl. Qed.

Lemma within_bind {A B} (m : M A) (k : A -> M B) :
  within I m -> (forall a, within I (k a)) -> within I (bind m k).
Proof.
  intros Hm Hk env st. unfold bind. specialize (Hm env st).
  destruct (m env st) as [[a|e] st1]; cbn in *; [|exact Hm].
  eapply I_trans; [exact Hm|apply Hk].
Qed.

Lemma within_detach {A} (m : M A) : within I m -> within I (detach m).
Proof. intros Hm env st. apply Hm. Qed.

Lemma within_forEach {A} (l : list A) (f : A -> M unit) :
  (forall x, within I (f x)) -> within I (forEach l f).
Proof.
  intros Hf. induction l as [|x r IH]; cbn [forEach].
  - apply within_ret.
  - apply within_bind; [apply Hf|intros _; exact IH].
Qed.

Lemma within_byId i : within I (byId i).
Proof. intros env st. apply I_refl. Qed.

Lemma within_getSession : within I getSession.
Proof. intros env st. apply I_refl. Qed.

Lemma within_localeString s : within I (localeString s).
Proof. intros env st. apply I_refl. Qed.

Lemma within_prop v k : within I (prop v k).
Proof. destruct v; first [apply within_ret | apply within_throw]. Qed.

Lemma within_asArray v : within I (asArray v).
Proof. destruct v; first [apply within_ret | apply within_throw]. Qed.

Lemma within_resJson r : within I (resJson r).
Proof.
  unfold resJson. destruct (json r); first [apply within_ret | apply within_throw].
Qed.

End Frame.

Lemma grows_refl P st : grows P st st.
Proof. exists []. split; [symmetry; apply app_nil_r|constructor]. Qed.

Lemma grows_trans P a b c : grows P a b -> grows P b c -> grows P a c.
Proof.
  intros (l1 & E1 & F1) (l2 & E2 & F2). exists (l1 ++ l2)%list. split.
  - rewrite E2, E1, <- app_assoc. reflexivity.
  - apply Forall_app; auto.
Qed.

Lemma keeps_refl K st : keeps K st st.
Proof. intros i _. reflexivity. Qed.

Lemma keeps_trans K a b c : keeps K a b -> keeps K b c -> keeps K a c.
Proof. intros H1 H2 i Hi. rewrite (H2 i Hi). apply H1, Hi. Qed.

Lemma grows_quiet P st st' : sent st' = sent st -> grows P st st'.
Proof. intros E. exists []. rewrite E, app_nil_r. auto. Qed.

Lemma grows_update P i f : within (grows P) (update i f).
Proof. intros env st. apply grows_quiet. reflexivity. Qed.

Lemma grows_setSession P v : within (grows P) (setSession v).
Proof. intros env st. apply grows_quiet. reflexivity. Qed.

Lemma grows_fetch (P : Request -> Prop) u o :
  P {| url := u; opts := o |} -> within (grows P) (fetch u o).
Proof.
  intros HP env st. exists [{| url := u; opts := o |}]. unfold fetch.
  destruct (backend env _ _); cbn; auto.
Qed.

Lemma keeps_update K i f : K i = false -> within (keeps K) (update i f).
Proof.
  intros Hi env st j Hj. cbn. apply get_set_other. congruence.
Qed.

Lemma keeps_setSession K v : within (keeps K) (setSession v).
Proof. intros env st j Hj. reflexivity. Qed.

Lemma keeps_fetch K u o : within (keeps K) (fetch u o).
Proof. intros env st j Hj. unfold fetch. destruct (backend env _ _); reflexivity. Qed.

Create HintDb frame.
#[local] Hint Resolve grows_refl grows_trans keeps_refl keeps_trans : frame.

Ltac frame_step :=
  lazymatch goal with
  | |- within _ (bind _ _) => eapply within_bind; [eauto with frame | | intros ]
  | |- within _ (ret _) => eapply within_ret; eauto with frame
  | |- within _ (throw _) => eapply within_throw; eauto with frame
  | |- within _ (detach _) => eapply within_detach
  | |- within _ (forEach _ _) =>
      eapply within_forEach; [eauto with frame | eauto with frame | intros ]
  | |- within _ (byId _) => eapply within_byId; eauto with frame
  | |- within _ getSession => eapply within_getSession; eauto with frame
  | |- within _ (localeString _) => eapply within_localeString; eauto with frame
  | |- within _ (prop _ _) => eapply within_prop; eauto with frame
  | |- within _ (asArray _) => eapply within_asArray; eauto with frame
  | |- within _ (resJson _) => eapply within_resJson; eauto with frame
  | |- within (grows _) (update _ _) => apply grows_update
  | |- within (grows _) (setSession _) => apply grows_setSession
  | |- within (grows _) (fetch _ _) => apply grows_fetch; reflexivity
  | |- within (keeps _) (update _ _) => apply keeps_update; reflexivity
  | |- within (keeps _) (setSession _) => apply keeps_setSession
  | |- within (keeps _) (fetch _ _) => apply keeps_fetch
  | |- within _ (if ?b then _ else _) => destruct b
  | |- within _ (match ?x with _ => _ end) => destruct x
  end.

Ltac frame := cbv zeta; repeat (frame_step; cbv beta zeta).

(** ** The request layer *)

Lemma api_run API path o env st :
  Script.api API path o env st =
  let rq := {| url := API ++ path; opts := o |} in
  (match backend env (sent st) rq with
   | Unreachable => Throw TypeError
   | Responded r =>
       if ok r then
         if declaresJson r
         then match json r with Some v => Ret v | None => Throw SyntaxError end
         else Ret (JStr (text r))
       else Throw (Error (text r))
   end, sending rq st).
Proof.
  unfold Script.api, bind, fetch, declaresJson, resJson, ret, throw. cbn zeta.
  destruct (backend env (sent st) _) as [r|]; [|reflexivity].
  destruct (ok r); cbn; [|reflexivity].
  destruct (contentType r) as [ct|]; [|reflexivity].
  destruct (Str.includes _ ct); [|reflexivity].
  destruct (json r); reflexivity.
Qed.

Lemma api_state API path o env st :
  snd (Script.api API path o env st) = sending {| url := API ++ path; opts := o |} st.
Proof. rewrite api_run. reflexivity. Qed.

(** C7: [api] sends the one request; a successful response whose declared
    content type says JSON gives what [res.json()] gives, any other
    successful response gives the body text, and an unsuccessful response
    makes [api] throw an [Error] whose message is the body text. *)
Theorem api_parses_or_throws API path o env st r :
  backend env (sent st) {| url := API ++ path; opts := o |} = Responded r ->
  snd (Script.api API path o env st) = sending {| url := API ++ path; opts := o |} st /\
  (ok r = true -> declaresJson r = true ->
   fst (Script.api API path o env st) =
     match json r with Some v => Ret v | None => Throw SyntaxError end) /\
  (ok r = true -> declaresJson r = false ->
   fst (Script.api API path o env st) = Ret (JStr (text r))) /\
  (ok r = false ->
   fst (Script.api API path o env st) = Throw (Error (text r))).
Proof.
  intros Hr. rewrite api_run. cbn zeta. rewrite Hr. cbn.
  repeat split; intros; repeat match goal with H : _ = _ |- _ => rewrite H end; reflexivity.
Qed.

Lemma api_parses_or_throws_witness :
  (backend Sample.emptyDeck (sent Sample.fresh)
     {| url := App.API ++ "/review/next?deck_id=1"; opts := GET |} =
     Responded (Sample.jsonOk JNull "null") /\
   fst (App.api "/review/next?deck_id=1" GET Sample.emptyDeck Sample.fresh) =
     Ret JNull) /\
  (backend Sample.textOnly (sent Sample.fresh)
     {| url := App.API ++ "/decks"; opts := GET |} =
     Responded {| ok := true; contentType := Some "text/plain";
                  text := "pong"; json := None |} /\
   fst (App.api "/decks" GET Sample.textOnly Sample.fresh) = Ret (JStr "pong")) /\
  (backend Sample.down (sent Sample.fresh)
     {| url := App.API ++ "/decks"; opts := GET |} =
     Responded Sample.serverError /\
   fst (App.api "/decks" GET Sample.down Sample.fresh) =
     Throw (Error "Internal Server Error")).
Proof.
  split; [|split]; (split; [reflexivity|]).
  - apply (api_parses_or_throws App.API "/review/next?deck_id=1" GET
             Sample.emptyDeck Sample.fresh (Sample.jsonOk JNull "null") eq_refl);
      reflexivity.
  - apply (api_parses_or_throws App.API "/decks" GET Sample.textOnly Sample.fresh
             _ eq_refl); reflexivity.
  - apply (api_parses_or_throws App.API "/decks" GET Sample.down Sample.fresh
             Sample.serverError eq_refl); reflexivity.
Defined.

(** ** The cards table *)

Lemma rowClass_int w r :
  Script.rowClass (JNum (Int w)) (JNum (Int r)) =
  if w >? r then "hard"
  else if (w =? r)%Z && (r + w >? 0) then "medium"
  else if r >? w then "easy" else "".
Proof.
  unfold Script.rowClass, Js.gt, Js.strictEq, Js.add; cbn.
  rewrite !Z.gtb_ltb. reflexivity.
Qed.

(** C9: for counters that are non-negative integers the row of a card is
    ["hard"] exactly when wrong > right, ["medium"] exactly when they are
    equal and not both zero, ["easy"] exactly when right > wrong, and has
    no class exactly when both are zero; it is always one of the four. *)
Theorem row_class_by_counts env st fs w r :
  lookupField "wrong_count" fs = JNum (Int w) ->
  lookupField "right_count" fs = JNum (Int r) ->
  0 <= r -> 0 <= w ->
  exists cls kids,
    Script.cardRow (JObj fs) env st = (Ret (Created "tr" cls "" kids None), st) /\
    (cls = "hard" <-> w > r) /\
    (cls = "medium" <-> w = r /\ r + w > 0) /\
    (cls = "easy" <-> r > w) /\
    (cls = "" <-> r = 0 /\ w = 0) /\
    (cls = "hard" \/ cls = "medium" \/ cls = "easy" \/ cls = "").
Proof.
  intros Hw Hr Hr0 Hw0.
  unfold Script.cardRow, bind, prop, ret, localeString. cbn.
  rewrite Hw, Hr. rewrite rowClass_int.
  destruct (Js.truthy (lookupField "due_at" fs));
  (eexists; eexists; split; [reflexivity|]);
  destruct (Z.gtb_spec w r), (Z.eqb_spec w r), (Z.gtb_spec (r + w) 0), (Z.gtb_spec r w);
    cbn; repeat split; intros; try discriminate; try lia; auto.
Qed.

Lemma row_class_by_counts_witness :
  lookupField "wrong_count" Sample.shaky = JNum (Int 2) /\
  lookupField "right_count" Sample.shaky = JNum (Int 1) /\
  0 <= 1 /\ 0 <= 2 /\
  exists kids,
    Script.cardRow (JObj Sample.shaky) Sample.lastCard Sample.fresh =
      (Ret (Created "tr" "hard" "" kids None), Sample.fresh).
Proof.
  split; [reflexivity|]. split; [reflexivity|]. split; [lia|]. split; [lia|].
  destruct (row_class_by_counts Sample.lastCard Sample.fresh Sample.shaky 2 1
              eq_refl eq_refl ltac:(lia) ltac:(lia))
    as (cls & kids & Hrow & Hhard & _).
  exists kids. rewrite Hrow.
  assert (cls = "hard") as -> by (apply Hhard; lia). reflexivity.
Defined.

(** ** The review session *)

Lemma prop_present v k : nullish v = false -> prop v k = ret (field k v).
Proof. destruct v; cbn; try discriminate; reflexivity. Qed.

Lemma truthy_present v : Js.truthy v = true -> nullish v = false.
Proof. destruct v; cbn; try discriminate; reflexivity. Qed.

Lemma loadNext_run API env st :
  Script.loadNext API env st =
  match Script.api API (Review.nextPath (dom st)) GET env st with
  | (Ret card, st1) =>
      (Ret tt,
       withDom ((if Js.truthy card then Effect.showCard card
                 else Effect.showNothingDue) (dom st1)) st1)
  | (Throw e, st1) => (Throw e, st1)
  end.
Proof.
  unfold Script.loadNext, Script.deckId, Review.nextPath.
  unfold bind at 1 2 3. unfold byId at 1 2, ret at 1. cbn beta iota zeta.
  unfold bind at 1.
  destruct (Script.api API _ GET env st) as [[card|e] st1]; [|reflexivity].
  unfold Js.not. destruct (Js.truthy card) eqn:Ht; cbn [negb].
  - rewrite !(prop_present _ _ (truthy_present _ Ht)). reflexivity.
  - reflexivity.
Qed.

Lemma loadedCard_number d :
  Js.Number (Script.datasetCardId (Page.get Id.reviewQ d)) =
  match Review.loadedCard d with
  | Some id => JNum (Int id)
  | None => Js.Number (Script.datasetCardId (Page.get Id.reviewQ d))
  end /\
  Js.not (Js.Number (Script.datasetCardId (Page.get Id.reviewQ d))) =
  match Review.loadedCard d with Some _ => false | None => true end.
Proof.
  unfold Review.loadedCard, Js.Number, Js.not.
  destruct (Js.toNumber _) as [[|p|p]|]; cbn; auto.
Qed.

Lemma submitResult_run API result env st :
  Script.submitResult API result env st =
  match Review.loadedCard (dom st) with
  | None => (Ret tt, st)
  | Some id =>
      (Script.api API "/review/submit"
         (postJson (JObj [("card_id", JNum (Int id)); ("result", JStr result)])) ;;
       Script.loadNext API ;; Script.refreshCards API ;; Script.refreshStats API)
        env st
  end.
Proof.
  unfold Script.submitResult. unfold bind at 1. unfold byId at 1.
  cbn beta iota zeta.
  destruct (loadedCard_number (dom st)) as [Hn Hz].
  rewrite Hz. destruct (Review.loadedCard (dom st)) as [id|].
  - rewrite Hn. reflexivity.
  - reflexivity.
Qed.

Lemma noCard_empty d : Review.noCard d -> Review.state_of d = Review.Empty.
Proof.
  unfold Review.noCard, Review.state_of, Review.loadedCard, Script.datasetCardId.
  intros [-> | ->]; reflexivity.
Qed.

(** C6: with no card loaded, [submitResult] sends nothing and changes
    nothing, whatever the result string. *)
Theorem submit_without_card_is_noop API result env st :
  Review.noCard (dom st) ->
  Script.submitResult API result env st = (Ret tt, st).
Proof.
  intros H. apply noCard_empty in H. unfold Review.state_of in H.
  rewrite submitResult_run.
  destruct (Review.loadedCard (dom st)); [discriminate|reflexivity].
Qed.

Lemma submit_without_card_is_noop_witness :
  Review.noCard (dom Sample.fresh) /\
  App.submitResult "good" Sample.lastCard Sample.fresh = (Ret tt, Sample.fresh) /\
  (let st := snd (App.loadNext Sample.emptyDeck Sample.loaded42) in
   Review.noCard (dom st) /\
   App.submitResult "good" Sample.lastCard st = (Ret tt, st)).
Proof.
  split; [left; reflexivity|]. split.
  - apply (submit_without_card_is_noop App.API "good" Sample.lastCard Sample.fresh).
    left; reflexivity.
  - cbn zeta. split; [right; reflexivity|].
    apply (submit_without_card_is_noop App.API "good" Sample.lastCard).
    right; reflexivity.
Defined.

Lemma loadedCard_of_id d z s :
  cardId (Page.get Id.reviewQ d) = Some s ->
  s = Js.toString (JNum (Int z)) -> z <> 0 ->
  Review.loadedCard d = Some z.
Proof.
  intros Hc -> Hz. unfold Review.loadedCard, Script.datasetCardId. rewrite Hc.
  assert (Ht : Js.truthy (JStr (Js.toString (JNum (Int z)))) = true).
  { cbn [Js.toString]. destruct z as [|p|p]; [congruence| |].
    - destruct (string_of_pos p) as (c & r & E & _).
      unfold Js.numToString, Z.to_int. cbn [NilZero.string_of_int].
      pose proof (Unsigned.to_uint_nonnil p).
      unfold NilZero.string_of_uint. destruct (Pos.to_uint p) eqn:E'; try congruence;
        rewrite E; reflexivity.
    - reflexivity. }
  unfold Js.or. rewrite Ht. unfold Js.toNumber. cbn [Js.toPrimitive Js.toString].
  rewrite stringToNumber_numToString.
  destruct (Z.eqb_spec z 0); congruence.
Qed.

(** C3: when the call for the next due card comes back with nothing
    ([null], or any other value [!] takes for false), [loadNext] returns
    without throwing and leaves the session Empty: the stored identifier is
    the empty string and the answer is hidden.  When it comes back with a
    card, [loadNext] stores that card's identifier, hides the answer, and
    the session is Loaded for it. *)
Theorem loadNext_empty_or_loaded API env st card st1 :
  Script.api API (Review.nextPath (dom st)) GET env st = (Ret card, st1) ->
  exists st',
    Script.loadNext API env st = (Ret tt, st') /\
    (Js.truthy card = false ->
       Review.state_of (dom st') = Review.Empty /\
       Review.noCard (dom st') /\
       Review.answerHidden (dom st') = true) /\
    (Js.truthy card = true ->
       cardId (Page.get Id.reviewQ (dom st')) = Some (Js.toString (field "id" card)) /\
       Review.answerHidden (dom st') = true /\
       forall id, field "id" card = JNum (Int id) -> id <> 0 ->
                  Review.state_of (dom st') = Review.Loaded id true).
Proof.
  intros Hapi. rewrite loadNext_run, Hapi. eexists; split; [reflexivity|].
  split; intros Ht; rewrite Ht.
  - split; [reflexivity|]. split; [right; reflexivity|].
    unfold Review.answerHidden. cbn. apply bool_decide_eq_true_2. set_solver.
  - assert (Hh : Review.answerHidden (dom (withDom (Effect.showCard card (dom st1)) st1)) = true).
    { unfold Review.answerHidden. cbn. apply bool_decide_eq_true_2. set_solver. }
    repeat split; [exact Hh|].
    intros id Hid Hz. unfold Review.state_of. rewrite Hh.
    rewrite (loadedCard_of_id _ id (Js.toString (field "id" card)));
      [reflexivity|reflexivity|rewrite Hid; reflexivity|exact Hz].
Qed.

Lemma loadNext_empty_or_loaded_witness :
  (App.api (Review.nextPath (dom Sample.fresh)) GET Sample.lastCard Sample.fresh =
     (Ret Sample.card42,
      sending {| url := "/api/review/next?deck_id=1"; opts := GET |} Sample.fresh) /\
   fst (App.loadNext Sample.lastCard Sample.fresh) = Ret tt /\
   Review.state_of (dom (snd (App.loadNext Sample.lastCard Sample.fresh))) =
     Review.Loaded 42 true) /\
  (App.api (Review.nextPath (dom Sample.loaded42)) GET Sample.emptyDeck
       Sample.loaded42 =
     (Ret JNull,
      sending {| url := "/api/review/next?deck_id=1"; opts := GET |}
        Sample.loaded42) /\
   fst (App.loadNext Sample.emptyDeck Sample.loaded42) = Ret tt /\
   Review.state_of (dom (snd (App.loadNext Sample.emptyDeck Sample.loaded42))) =
     Review.Empty).
Proof.
  split.
  - assert (H : App.api (Review.nextPath (dom Sample.fresh)) GET Sample.lastCard
                  Sample.fresh =
                (Ret Sample.card42,
                 sending {| url := "/api/review/next?deck_id=1"; opts := GET |}
                   Sample.fresh)) by (vm_compute; reflexivity).
    split; [exact H|].
    destruct (loadNext_empty_or_loaded App.API Sample.lastCard Sample.fresh _ _ H)
      as (st' & Hrun & _ & Hl).
    unfold App.loadNext. rewrite Hrun. cbn [fst snd].
    split; [reflexivity|]. apply Hl; [reflexivity|reflexivity|discriminate].
  - assert (H : App.api (Review.nextPath (dom Sample.loaded42)) GET
                  Sample.emptyDeck Sample.loaded42 =
                (Ret JNull,
                 sending {| url := "/api/review/next?deck_id=1"; opts := GET |}
                   Sample.loaded42)) by (vm_compute; reflexivity).
    split; [exact H|].
    destruct (loadNext_empty_or_loaded App.API Sample.emptyDeck Sample.loaded42 _ _ H)
      as (st' & Hrun & He & _).
    unfold App.loadNext. rewrite Hrun. cbn [fst snd].
    split; [reflexivity|]. apply He. reflexivity.
Defined.

(** What [loadNext] and the two refreshes send, and what the refreshes
    leave alone. *)

Lemma api_get_only API path : within (grows isGet) (Script.api API path GET).
Proof. unfold Script.api. frame. Qed.

Lemma loadNext_get_only API : within (grows isGet) (Script.loadNext API).
Proof. unfold Script.loadNext, Script.deckId. frame; apply api_get_only. Qed.

Lemma refreshCards_get_only API : within (grows isGet) (Script.refreshCards API).
Proof.
  unfold Script.refreshCards, Script.cardRow, Script.deckId.
  frame; apply api_get_only.
Qed.

Lemma refreshStats_get_only API : within (grows isGet) (Script.refreshStats API).
Proof.
  unfold Script.refreshStats, Script.deckId. frame; apply api_get_only.
Qed.

Lemma api_keeps K API path o : within (keeps K) (Script.api API path o).
Proof. unfold Script.api. frame. Qed.

Lemma refreshCards_keeps_review API :
  within (keeps isReview) (Script.refreshCards API).
Proof.
  unfold Script.refreshCards, Script.cardRow, Script.deckId.
  frame; apply api_keeps.
Qed.

Lemma refreshStats_keeps_review API :
  within (keeps isReview) (Script.refreshStats API).
Proof.
  unfold Script.refreshStats, Script.deckId. frame; apply api_keeps.
Qed.

Lemma bind_run {A B} (m : M A) (k : A -> M B) env st :
  bind m k env st =
  match m env st with
  | (Ret a, st1) => k a env st1
  | (Throw e, st1) => (Throw e, st1)
  end.
Proof. reflexivity. Qed.

Lemma loadNext_first_request API env st :
  exists later,
    sent (snd (Script.loadNext API env st)) =
    (sent st ++ {| url := API ++ Review.nextPath (dom st); opts := GET |} :: later)%list.
Proof.
  rewrite loadNext_run.
  pose proof (api_state API (Review.nextPath (dom st)) GET env st) as Hs.
  destruct (Script.api API _ GET env st) as [[card|e] st1]; cbn in Hs; subst st1;
    exists []; reflexivity.
Qed.

(** C4, as the script has it: with card [id] loaded, [submitResult] sends
    exactly one POST [/review/submit], with body [{card_id: id, result}]:
    whatever else it sends is a GET.  Once that request has succeeded the
    next request is [loadNext]'s query for the next due card, and the
    review session ends as that [loadNext] leaves it. *)
Theorem submit_posts_once_then_requeries API env st id result :
  Review.loadedCard (dom st) = Some id ->
  let rq := Review.submitRequest API id result in
  let fin := snd (Script.submitResult API result env st) in
  (exists later,
     sent fin = (sent st ++ rq :: later)%list /\ Forall isGet later) /\
  (forall v st1,
     Script.api API "/review/submit" (opts rq) env st = (Ret v, st1) ->
     (exists later,
        sent fin =
        (sent st ++ rq :: {| url := API ++ Review.nextPath (dom st); opts := GET |}
                 :: later)%list) /\
     (forall i, isReview i = true ->
        Page.get i (dom fin) =
        Page.get i (dom (snd (Script.loadNext API env st1))))).
Proof.
  intros Hid rq fin. subst fin. rewrite submitResult_run, Hid.
  fold (opts rq). change (postJson _) with (opts rq).
  rewrite bind_run.
  pose proof (api_state API "/review/submit" (opts rq) env st) as Hs.
  change {| url := API ++ "/review/submit"; opts := opts rq |} with rq in Hs.
  destruct (Script.api API "/review/submit" (opts rq) env st) as [[v|e] st1];
    cbn [snd] in Hs; subst st1.
  - assert (Hrest : within (grows isGet)
                      (Script.loadNext API ;; Script.refreshCards API ;;
                       Script.refreshStats API)).
    { frame; [apply loadNext_get_only|apply refreshCards_get_only
             |apply refreshStats_get_only]. }
    split.
    + destruct (Hrest env (sending rq st)) as (later & E & F).
      exists later. split; [|exact F]. rewrite E. cbn. rewrite <- app_assoc. reflexivity.
    + intros v' st1 [= <- <-]. rewrite bind_run.
      destruct (loadNext_first_request API env (sending rq st)) as (l1 & E1).
      pose proof (fun H => within_bind (keeps isReview) (keeps_trans isReview)
                    (Script.refreshCards API) (fun _ => Script.refreshStats API)
                    (refreshCards_keeps_review API) H) as Hk.
      specialize (Hk (fun _ => refreshStats_keeps_review API)).
      pose proof (fun H => within_bind (grows isGet) (grows_trans isGet)
                    (Script.refreshCards API) (fun _ => Script.refreshStats API)
                    (refreshCards_get_only API) H) as Hg.
      specialize (Hg (fun _ => refreshStats_get_only API)).
      destruct (Script.loadNext API env (sending rq st)) as [[[]|e] st2]; cbn [snd] in *.
      * split.
        -- destruct (Hg env st2) as (l2 & E2 & _). exists (l1 ++ l2)%list.
           rewrite E2, E1. cbn. rewrite <- !app_assoc. reflexivity.
        -- intros i Hi. apply Hk, Hi.
      * split; [|reflexivity].
        exists l1. rewrite E1. cbn. rewrite <- app_assoc. reflexivity.
  - split; [|intros v st1 [=]].
    exists []. split; [reflexivity|constructor].
Qed.

Lemma submit_posts_once_then_requeries_witness :
  Review.loadedCard (dom Sample.loaded42) = Some 42 /\
  (exists later,
     sent (snd (App.submitResult "hard" Sample.lastCard Sample.loaded42)) =
       (sent Sample.loaded42 ++ Review.submitRequest App.API 42 "hard" :: later)%list /\
     Forall isGet later) /\
  Script.api App.API "/review/submit"
    (opts (Review.submitRequest App.API 42 "hard")) Sample.lastCard Sample.loaded42 =
    (Ret (JObj [("ok", JBool true)]),
     sending (Review.submitRequest App.API 42 "hard") Sample.loaded42) /\
  (forall i, isReview i = true ->
     Page.get i (dom (snd (App.submitResult "hard" Sample.lastCard Sample.loaded42))) =
     Page.get i (dom (snd (App.loadNext Sample.lastCard
                             (sending (Review.submitRequest App.API 42 "hard")
                                Sample.loaded42))))).
Proof.
  pose proof (submit_posts_once_then_requeries App.API Sample.lastCard
                Sample.loaded42 42 "hard" eq_refl) as [Hone Hthen].
  cbn zeta in Hone, Hthen.
  split; [reflexivity|]. split; [exact Hone|]. split; [reflexivity|].
  apply (Hthen _ _ eq_refl).
Defined.

(** C4, as stated, fails: the graded card stays loaded when the backend
    hands it out again, and when the query that follows the grading
    fails. *)
Lemma submit_can_leave_the_graded_card_loaded :
  Review.state_of (dom Sample.loaded42) = Review.Loaded 42 true /\
  (let run := App.submitResult "hard" Sample.oneCardDue Sample.loaded42 in
   fst run = Ret tt /\
   Review.state_of (dom (snd run)) = Review.Loaded 42 true) /\
  (let run := App.submitResult "hard" Sample.failsAfterGrading Sample.loaded42 in
   fst (App.api "/review/submit"
          (opts (Review.submitRequest App.API 42 "hard"))
          Sample.failsAfterGrading Sample.loaded42) =
     Ret (JObj [("ok", JBool true)]) /\
   Review.state_of (dom (snd run)) = Review.Loaded 42 true).
Proof. vm_compute. repeat split. Qed.

Lemma api_withDom API path o env d st :
  Script.api API path o env (withDom d st) =
  (fst (Script.api API path o env st),
   withDom d (snd (Script.api API path o env st))).
Proof. rewrite !api_run. reflexivity. Qed.

Lemma add_after_remove (c : string) (C : gset string) :
  (C ∖ {[c]}) ∪ {[c]} = C ∪ {[c]}.
Proof.
  apply set_eq. intros x.
  rewrite !elem_of_union, elem_of_difference, elem_of_singleton.
  destruct (decide (x = c)); tauto.
Qed.

Lemma showCard_reveal card d :
  Effect.showCard card (Effect.reveal d) = Effect.showCard card d.
Proof.
  apply dom_ext. intros i. unfold Effect.showCard, Effect.reveal.
  destruct i; cbn; try reflexivity.
  unfold El.classAdd, El.setClassList; cbn. f_equal. apply add_after_remove.
Qed.

Lemma showNothingDue_reveal d :
  Effect.showNothingDue (Effect.reveal d) = Effect.showNothingDue d.
Proof.
  apply dom_ext. intros i. unfold Effect.showNothingDue, Effect.reveal.
  destruct i; cbn; try reflexivity.
  unfold El.setTextContent, El.setNodes; cbn. f_equal. apply add_after_remove.
Qed.

Ltac conjs := repeat match goal with |- _ /\ _ => split end; try reflexivity.

Lemma showAnswer_run env st :
  Script.showAnswer env st = (Ret tt, withDom (Effect.reveal (dom st)) st).
Proof. reflexivity. Qed.

(** [loadNext] ends in one state whether or not the answer was showing when
    its call succeeds, and leaves the page as it found it when it fails. *)
Lemma loadNext_after_reveal API env st :
  let a := Script.loadNext API env (withDom (Effect.reveal (dom st)) st) in
  let b := Script.loadNext API env st in
  fst a = fst b /\
  match fst b with
  | Ret _ => snd a = snd b
  | Throw _ => snd a = withDom (Effect.reveal (dom st)) (snd b) /\
               dom (snd b) = dom st
  end.
Proof.
  cbn zeta. rewrite !loadNext_run.
  change (Review.nextPath (dom (withDom (Effect.reveal (dom st)) st)))
    with (Review.nextPath (dom st)).
  rewrite api_withDom.
  pose proof (api_state API (Review.nextPath (dom st)) GET env st) as Hs.
  destruct (Script.api API _ GET env st) as [[card|e] st1]; cbn [fst snd] in *.
  - split; [reflexivity|]. subst st1. cbn.
    destruct (Js.truthy card);
      [rewrite showCard_reveal|rewrite showNothingDue_reveal]; reflexivity.
  - subst st1. repeat split.
Qed.

(** C5, as the script has it: [showAnswer] followed by [submitResult] and
    [submitResult] alone have the same outcome and send the same requests,
    and the pages they end in differ in the answer element at most.  With a
    card loaded, once the grading request and [loadNext]'s query have both
    succeeded they end in the same state, which is the review state that
    [loadNext] produced, answer hidden. *)
Theorem reveal_does_not_alter_grading API env st result :
  let a := Script.submitResult API result env (snd (Script.showAnswer env st)) in
  let b := Script.submitResult API result env st in
  fst a = fst b /\
  sent (snd a) = sent (snd b) /\
  (forall i, i <> Id.reviewA ->
     Page.get i (dom (snd a)) = Page.get i (dom (snd b))) /\
  (forall id v st1 st2,
     Review.loadedCard (dom st) = Some id ->
     Script.api API "/review/submit"
       (opts (Review.submitRequest API id result)) env st = (Ret v, st1) ->
     Script.loadNext API env st1 = (Ret tt, st2) ->
     snd a = snd b /\
     Review.state_of (dom (snd b)) = Review.state_of (dom st2) /\
     Review.answerHidden (dom st2) = true).
Proof.
  cbn zeta. rewrite showAnswer_run. cbn [snd].
  rewrite !submitResult_run.
  change (Review.loadedCard (dom (withDom (Effect.reveal (dom st)) st)))
    with (Review.loadedCard (dom st)).
  assert (Hoff : forall s i, i <> Id.reviewA ->
            Page.get i (dom (withDom (Effect.reveal (dom s)) s)) = Page.get i (dom s)).
  { intros s i Hi. cbn. unfold Effect.reveal. apply get_set_other. congruence. }
  destruct (Review.loadedCard (dom st)) as [id|].
  2:{ cbn [fst snd]. conjs; [exact (Hoff st)|intros; discriminate]. }
  rewrite !bind_run, api_withDom.
  destruct (Script.api API "/review/submit" _ env st) as [[v|e] st1] eqn:Hpost;
    cbn [fst snd].
  2:{ pose proof (api_state API "/review/submit"
                    (opts (Review.submitRequest API id result)) env st) as Hs.
      unfold Review.submitRequest in Hs at 1. cbn [opts] in Hs.
      rewrite Hpost in Hs. cbn [snd] in Hs. subst st1.
      conjs; [exact (Hoff st)|].
      intros id' v st1 st2 [= <-]. unfold Review.submitRequest. cbn [opts].
      rewrite Hpost. discriminate. }
  assert (Hdom1 : dom st1 = dom st).
  { pose proof (api_state API "/review/submit"
                  (opts (Review.submitRequest API id result)) env st) as Hs.
    unfold Review.submitRequest in Hs at 1. cbn [opts] in Hs.
    rewrite Hpost in Hs. cbn [snd] in Hs. subst st1. reflexivity. }
  rewrite <- Hdom1. rewrite !bind_run.
  destruct (loadNext_after_reveal API env st1) as [Ho Hst]. cbn zeta in Ho, Hst.
  destruct (Script.loadNext API env (withDom (Effect.reveal (dom st1)) st1))
    as [oa sa]. 
  destruct (Script.loadNext API env st1) as [ob sb] eqn:Hnext.
  cbn [fst snd] in Ho, Hst. subst oa. destruct ob as [[]|e].
  - subst sa. conjs.
    intros id' v' st1' st2 [= <-]. unfold Review.submitRequest. cbn [opts].
    rewrite Hpost. intros [= <- <-]. rewrite Hnext. intros [= <-].
    pose proof (fun H => within_bind (keeps isReview) (keeps_trans isReview)
                  (Script.refreshCards API) (fun _ => Script.refreshStats API)
                  (refreshCards_keeps_review API) H) as Hk.
    specialize (Hk (fun _ => refreshStats_keeps_review API) env sb).
    change (bind (Script.refreshCards API) (fun _ => Script.refreshStats API) env sb)
      with ((Script.refreshCards API ;; Script.refreshStats API) env sb) in Hk.
    set (fin := (Script.refreshCards API ;; Script.refreshStats API) env sb) in *.
    assert (Hq : Page.get Id.reviewQ (dom (snd fin)) = Page.get Id.reviewQ (dom sb))
      by (apply Hk; reflexivity).
    assert (Ha : Page.get Id.reviewA (dom (snd fin)) = Page.get Id.reviewA (dom sb))
      by (apply Hk; reflexivity).
    split; [reflexivity|]. split.
    + unfold Review.state_of, Review.loadedCard, Review.answerHidden.
      rewrite Hq, Ha. reflexivity.
    + rewrite loadNext_run in Hnext.
      destruct (Script.api API _ GET env st1) as [[card|e] s2]; [|discriminate].
      injection Hnext as <-. unfold Review.answerHidden.
      destruct (Js.truthy card); cbn; apply bool_decide_eq_true_2;
        set_solver.
  - destruct Hst as [-> Hd]. cbn [fst snd]. conjs.
    + intros i Hi. cbn. unfold Effect.reveal. rewrite Hd.
      apply get_set_other. congruence.
    + intros id' v' st1' st2 [= <-]. unfold Review.submitRequest. cbn [opts].
      rewrite Hpost. intros [= <- <-]. rewrite Hnext. discriminate.
Qed.

Lemma reveal_does_not_alter_grading_witness :
  let env := Sample.twoCards App.API in
  let a := App.submitResult "good" env (snd (App.showAnswer env Sample.loaded42)) in
  let b := App.submitResult "good" env Sample.loaded42 in
  Review.state_of (dom (snd (App.showAnswer env Sample.loaded42))) =
    Review.Loaded 42 false /\
  Review.loadedCard (dom Sample.loaded42) = Some 42 /\
  fst a = fst b /\ sent (snd a) = sent (snd b) /\
  Id.reviewQ <> Id.reviewA /\
  Page.get Id.reviewQ (dom (snd a)) = Page.get Id.reviewQ (dom (snd b)) /\
  snd a = snd b /\
  Review.state_of (dom (snd b)) = Review.Loaded 43 true.
Proof.
  cbn zeta.
  pose proof (reveal_does_not_alter_grading App.API (Sample.twoCards App.API)
                Sample.loaded42 "good") as (Ho & Hs & Hoff & Hsame).
  cbn zeta in Ho, Hs, Hoff, Hsame.
  split; [reflexivity|]. split; [reflexivity|]. split; [exact Ho|].
  split; [exact Hs|]. split; [discriminate|].
  split; [apply Hoff; discriminate|].
  destruct (Hsame 42 (JObj [("ok", JBool true)])
              (sending (Review.submitRequest App.API 42 "good") Sample.loaded42)
              (snd (App.loadNext (Sample.twoCards App.API)
                      (sending (Review.submitRequest App.API 42 "good")
                         Sample.loaded42)))
              eq_refl eq_refl eq_refl) as (He & Hst & _).
  split; [exact He|]. unfold App.submitResult. rewrite Hst. reflexivity.
Defined.

(** C5, as stated, fails: with a second card due both sequences end
    Loaded, not Empty; and when the grading request fails the answer is
    showing after one sequence and hidden after the other. *)
Lemma reveal_then_submit_need_not_end_empty :
  (let a := Script.submitResult App.API "good" (Sample.twoCards App.API)
              (snd (Script.showAnswer (Sample.twoCards App.API) Sample.loaded42)) in
   let b := Script.submitResult App.API "good" (Sample.twoCards App.API)
              Sample.loaded42 in
   Review.state_of (dom (snd a)) = Review.Loaded 43 true /\
   Review.state_of (dom (snd b)) = Review.Loaded 43 true) /\
  (let a := Script.submitResult App.API "good" Sample.down
              (snd (Script.showAnswer Sample.down Sample.loaded42)) in
   let b := Script.submitResult App.API "good" Sample.down Sample.loaded42 in
   Review.state_of (dom (snd a)) = Review.Loaded 42 false /\
   Review.state_of (dom (snd b)) = Review.Loaded 42 true).
Proof. vm_compute. repeat split. Qed.

(** ** The dialogue session *)

Lemma is_empty_spec s : Str.is_empty s = true <-> s = "".
Proof. destruct s; cbn; split; congruence. Qed.

Lemma startSidekick_run env st :
  App.startSidekick env st =
  if Str.is_empty (Dialogue.topic st) then (Ret tt, st)
  else
    match App.api "/socratic/start"
            (postJson (JObj [("topic", JStr (Dialogue.topic st))])) env st with
    | (Ret res, st1) =>
        if nullish res then (Throw TypeError, st1)
        else (Ret tt,
              withSession (field "session_id" res)
                (withDom (Effect.openDialogue (Dialogue.topic st) res (dom st1)) st1))
    | (Throw e, st1) => (Throw e, st1)
    end.
Proof.
  unfold App.startSidekick, Dialogue.topic.
  unfold bind at 1. unfold byId at 1. cbn beta iota zeta.
  destruct (Str.is_empty _); [reflexivity|].
  unfold bind at 1.
  destruct (App.api _ _ env st) as [[res|e] st1]; [|reflexivity].
  destruct res; reflexivity.
Qed.

(** C8: with an empty topic (after trimming) [startSidekick] sends nothing
    and changes nothing.  With a topic, once the backend has answered, the
    session token is the answer's [session_id] and the transcript is the
    backend's first question and nothing else, whatever it held before. *)
Theorem start_replaces_dialogue env st :
  (Dialogue.topic st = "" -> App.startSidekick env st = (Ret tt, st)) /\
  (forall res st1,
     Dialogue.topic st <> "" ->
     App.api "/socratic/start"
       (postJson (JObj [("topic", JStr (Dialogue.topic st))])) env st
       = (Ret res, st1) ->
     nullish res = false ->
     exists st',
       App.startSidekick env st = (Ret tt, st') /\
       SOC_SESSION st' = field "session_id" res /\
       Dialogue.transcript st' =
         [Markup (App.gemini (Js.toString (field "question" res)))]).
Proof.
  rewrite startSidekick_run. split.
  - intros ->. reflexivity.
  - intros res st1 Ht Hapi Hres.
    destruct (Str.is_empty (Dialogue.topic st)) eqn:E.
    { apply is_empty_spec in E. contradiction. }
    rewrite Hapi, Hres. eexists. split; [reflexivity|]. split; reflexivity.
Qed.

Lemma start_replaces_dialogue_witness :
  (Dialogue.topic Sample.fresh = "" /\
   App.startSidekick Sample.tutor Sample.fresh = (Ret tt, Sample.fresh)) /\
  (let st := Sample.type Id.chatInput "again"
               (Sample.type Id.sidekickTopic "Respiration" Sample.completed) in
   let res := JObj [("session_id", JStr "s1"); ("question", JStr "Q1")] in
   Dialogue.topic st <> "" /\
   App.api "/socratic/start"
     (postJson (JObj [("topic", JStr (Dialogue.topic st))])) Sample.tutor st =
     (Ret res,
      sending {| url := "/api/socratic/start";
                 opts := postJson (JObj [("topic", JStr "Respiration")]) |} st) /\
   nullish res = false /\
   length (Dialogue.transcript st) = 3%nat /\
   exists st',
     App.startSidekick Sample.tutor st = (Ret tt, st') /\
     SOC_SESSION st' = JStr "s1" /\
     Dialogue.transcript st' = [Markup (App.gemini "Q1")]).
Proof.
  split.
  - split; [reflexivity|].
    apply (proj1 (start_replaces_dialogue Sample.tutor Sample.fresh)). reflexivity.
  - cbn zeta. split; [vm_compute; discriminate|].
    split; [vm_compute; reflexivity|]. split; [reflexivity|].
    split; [vm_compute; reflexivity|].
    apply (proj2 (start_replaces_dialogue Sample.tutor _)
             (JObj [("session_id", JStr "s1"); ("question", JStr "Q1")])
             (sending {| url := "/api/socratic/start";
                         opts := postJson (JObj [("topic", JStr "Respiration")]) |}
                (Sample.type Id.chatInput "again"
                   (Sample.type Id.sidekickTopic "Respiration" Sample.completed)))).
    + vm_compute; discriminate.
    + vm_compute; reflexivity.
    + reflexivity.
Defined.

Lemma sendSidekickAnswer_run env st :
  App.sendSidekickAnswer env st =
  if Js.not (SOC_SESSION st) then (Ret tt, st)
  else
    let ans := Str.trim (Dialogue.pending st) in
    if Str.is_empty ans then (Ret tt, st)
    else
      match App.api "/socratic/reply"
              (opts (Dialogue.replyRequest (SOC_SESSION st) ans)) env
              (withDom (Effect.sayYou ans (dom st)) st) with
      | (Ret res, st1) =>
          if nullish res then (Throw TypeError, st1)
          else (Ret tt, withDom (Effect.showReply res (dom st1)) st1)
      | (Throw e, st1) => (Throw e, st1)
      end.
Proof.
  unfold App.sendSidekickAnswer at 1, Dialogue.pending.
  unfold bind at 1. unfold getSession at 1. cbn beta iota zeta.
  destruct (Js.not (SOC_SESSION st)) eqn:Hs; [reflexivity|].
  unfold bind at 1. unfold byId at 1. cbn beta iota zeta.
  destruct (Str.is_empty _) eqn:Ha; [reflexivity|].
  unfold bind at 1 2 3 4. unfold update at 1 2. cbn beta iota zeta.
  unfold getSession at 1. cbn beta iota zeta.
  change (withDom _ (withDom _ st)) with
    (withDom (Effect.sayYou (Str.trim (value (Page.get Id.chatInput (dom st)))) (dom st)) st).
  cbn [SOC_SESSION withDom Dialogue.replyRequest opts].
  destruct (App.api _ _ env _) as [[res|e] st1]; [|reflexivity].
  unfold Effect.showReply.
  destruct res; try reflexivity; cbn [prop nullish field];
    unfold bind at 1; unfold ret at 1; cbn beta iota;
    match goal with |- context [Js.not ?d] => destruct (Js.not d) end;
    reflexivity.
Qed.

(** C1, as the script has it: [sendSidekickAnswer] sends nothing and
    changes nothing when there is no session token, and when the input is
    empty after trimming.  With a token and some text it sends one
    [/socratic/reply] request and keeps the token, whatever the backend
    answers: the script keeps no record of a dialogue being complete. *)
Theorem reply_needs_session_and_text env st :
  (Dialogue.noSession st -> App.sendSidekickAnswer env st = (Ret tt, st)) /\
  (Str.trim (Dialogue.pending st) = "" ->
   App.sendSidekickAnswer env st = (Ret tt, st)) /\
  (~ Dialogue.noSession st -> Str.trim (Dialogue.pending st) <> "" ->
   sent (snd (App.sendSidekickAnswer env st)) =
     (sent st ++ [Dialogue.replyRequest (SOC_SESSION st)
                    (Str.trim (Dialogue.pending st))])%list /\
   SOC_SESSION (snd (App.sendSidekickAnswer env st)) = SOC_SESSION st).
Proof.
  rewrite sendSidekickAnswer_run. unfold Dialogue.noSession, Js.not. conjs.
  - intros ->. reflexivity.
  - intros ->. destruct (negb _); reflexivity.
  - intros Hs Ht. destruct (Js.truthy (SOC_SESSION st)); [|congruence]. cbn [negb].
    cbn zeta. destruct (Str.is_empty _) eqn:E.
    { apply is_empty_spec in E. contradiction. }
    set (ans := Str.trim (Dialogue.pending st)).
    pose proof (api_state App.API "/socratic/reply"
                  (opts (Dialogue.replyRequest (SOC_SESSION st) ans)) env
                  (withDom (Effect.sayYou ans (dom st)) st)) as Hst.
    unfold App.api.
    destruct (Script.api App.API _ _ env _) as [[res|e] st1]; cbn [snd] in Hst;
      subst st1; [destruct (nullish res)|]; split; reflexivity.
Qed.

Lemma reply_needs_session_and_text_witness :
  (Dialogue.noSession (Sample.type Id.chatInput "Hello" Sample.fresh) /\
   App.sendSidekickAnswer Sample.tutor (Sample.type Id.chatInput "Hello" Sample.fresh) =
     (Ret tt, Sample.type Id.chatInput "Hello" Sample.fresh)) /\
  (Str.trim (Dialogue.pending Sample.started) = "" /\
   App.sendSidekickAnswer Sample.tutor Sample.started = (Ret tt, Sample.started)) /\
  (let st := Sample.type Id.chatInput " More detail " Sample.completed in
   ~ Dialogue.noSession st /\
   Str.trim (Dialogue.pending st) <> "" /\
   sent (snd (App.sendSidekickAnswer Sample.tutor st)) =
     (sent st ++ [Dialogue.replyRequest (JStr "s1") "More detail"])%list /\
   SOC_SESSION (snd (App.sendSidekickAnswer Sample.tutor st)) = JStr "s1").
Proof.
  split; [|split].
  - split; [reflexivity|].
    apply (proj1 (reply_needs_session_and_text Sample.tutor _)). reflexivity.
  - split; [reflexivity|].
    apply (proj1 (proj2 (reply_needs_session_and_text Sample.tutor _))). reflexivity.
  - cbn zeta. split; [vm_compute; discriminate|]. split; [vm_compute; discriminate|].
    apply (proj2 (proj2 (reply_needs_session_and_text Sample.tutor
             (Sample.type Id.chatInput " More detail " Sample.completed))));
      vm_compute; discriminate.
Defined.

(** C1, as stated, fails: after the reply that completed the dialogue
    (the draft is in place) a further reply is sent to the backend. *)
Lemma reply_after_completion_reaches_backend :
  SOC_SESSION Sample.completed = JStr "s1" /\
  value (Page.get Id.sidekickOutput (dom Sample.completed)) = "Notes" /\
  (let st := Sample.type Id.chatInput "More detail" Sample.completed in
   sent (snd (App.sendSidekickAnswer Sample.tutor st)) =
     (sent st ++ [Dialogue.replyRequest (JStr "s1") "More detail"])%list).
Proof. vm_compute. repeat split. Qed.

(** C2, as the script has it: when [loadNext] or [startSidekick] throws,
    and when [submitResult] throws because its grading request or the
    query that follows it failed, the page and the session token are as
    they were.  When [sendSidekickAnswer] throws, the token is as it was
    and the page differs by the user's turn, already in the transcript,
    and by the input, already cleared. *)
Theorem failed_call_leaves_state env st e st' :
  (forall API,
     Script.loadNext API env st = (Throw e, st') ->
     dom st' = dom st /\ SOC_SESSION st' = SOC_SESSION st) /\
  (App.startSidekick env st = (Throw e, st') ->
     dom st' = dom st /\ SOC_SESSION st' = SOC_SESSION st) /\
  (forall API result id,
     Review.loadedCard (dom st) = Some id ->
     Script.submitResult API result env st = (Throw e, st') ->
     (fst (Script.api API "/review/submit"
             (opts (Review.submitRequest API id result)) env st) = Throw e \/
      exists v st1,
        Script.api API "/review/submit"
          (opts (Review.submitRequest API id result)) env st = (Ret v, st1) /\
        fst (Script.loadNext API env st1) = Throw e) ->
     dom st' = dom st /\ SOC_SESSION st' = SOC_SESSION st) /\
  (App.sendSidekickAnswer env st = (Throw e, st') ->
     SOC_SESSION st' = SOC_SESSION st /\
     dom st' = Effect.sayYou (Str.trim (Dialogue.pending st)) (dom st)).
Proof.
  conjs.
  - intros API. rewrite loadNext_run.
    pose proof (api_state API (Review.nextPath (dom st)) GET env st) as Hs.
    destruct (Script.api API _ GET env st) as [[card|e'] st1]; [discriminate|].
    cbn [snd] in Hs. intros [= <- <-]. subst st1. split; reflexivity.
  - rewrite startSidekick_run. destruct (Str.is_empty _); [discriminate|].
    pose proof (api_state App.API "/socratic/start"
                  (postJson (JObj [("topic", JStr (Dialogue.topic st))])) env st) as Hs.
    unfold App.api.
    destruct (Script.api App.API _ _ env st) as [[res|e'] st1]; cbn [snd] in Hs;
      subst st1; [destruct (nullish res); [|discriminate]|];
      intros [= <- <-]; split; reflexivity.
  - intros API result id Hid. rewrite submitResult_run, Hid, bind_run.
    unfold Review.submitRequest. cbn [opts].
    pose proof (api_state API "/review/submit"
                  (postJson (JObj [("card_id", JNum (Int id)); ("result", JStr result)]))
                  env st) as Hs.
    destruct (Script.api API "/review/submit" _ env st) as [[v|e'] st1];
      cbn [snd fst] in *; subst st1.
    + rewrite bind_run. intros Hrun [Hf|(v' & st1 & [= <- <-] & Hn)]; [discriminate|].
      rewrite loadNext_run in Hrun, Hn.
      pose proof (api_state API (Review.nextPath (dom st)) GET env
                    (sending {| url := API ++ "/review/submit";
                                opts := postJson (JObj [("card_id", JNum (Int id));
                                                        ("result", JStr result)]) |} st)) as Hs.
      cbn [dom sending] in Hrun, Hn.
      destruct (Script.api API _ GET env _) as [[card|e'] st1];
        cbn [fst snd] in *; [discriminate|].
      injection Hrun as <- <-. subst st1. split; reflexivity.
    + intros [= <- <-] _. split; reflexivity.
  - rewrite sendSidekickAnswer_run. destruct (Js.not _); [discriminate|].
    cbn zeta. destruct (Str.is_empty _); [discriminate|].
    set (ans := Str.trim (Dialogue.pending st)).
    pose proof (api_state App.API "/socratic/reply"
                  (opts (Dialogue.replyRequest (SOC_SESSION st) ans)) env
                  (withDom (Effect.sayYou ans (dom st)) st)) as Hst.
    unfold App.api.
    destruct (Script.api App.API _ _ env _) as [[res|e'] st1]; cbn [snd] in Hst;
      subst st1; [destruct (nullish res); [|discriminate]|];
      intros [= <- <-]; split; reflexivity.
Qed.

Lemma failed_call_leaves_state_witness :
  (let run := App.loadNext Sample.down Sample.loaded42 in
   fst run = Throw (Error "Internal Server Error") /\
   dom (snd run) = dom Sample.loaded42 /\
   SOC_SESSION (snd run) = SOC_SESSION Sample.loaded42) /\
  (let st := Sample.type Id.sidekickTopic "Respiration" Sample.completed in
   let run := App.startSidekick Sample.down st in
   fst run = Throw (Error "Internal Server Error") /\
   dom (snd run) = dom st /\ SOC_SESSION (snd run) = SOC_SESSION st) /\
  (let run := App.submitResult "good" Sample.failsAfterGrading Sample.loaded42 in
   Review.loadedCard (dom Sample.loaded42) = Some 42 /\
   fst run = Throw (Error "Internal Server Error") /\
   dom (snd run) = dom Sample.loaded42 /\
   SOC_SESSION (snd run) = SOC_SESSION Sample.loaded42) /\
  (let st := Sample.type Id.chatInput "Because sunlight" Sample.started in
   let run := App.sendSidekickAnswer Sample.down st in
   fst run = Throw (Error "Internal Server Error") /\
   SOC_SESSION (snd run) = SOC_SESSION st /\
   dom (snd run) = Effect.sayYou "Because sunlight" (dom st)).
Proof.
  split; [|split; [|split]]; cbn zeta.
  - split; [reflexivity|].
    apply (proj1 (failed_call_leaves_state Sample.down Sample.loaded42
                    (Error "Internal Server Error")
                    (snd (App.loadNext Sample.down Sample.loaded42))) App.API).
    reflexivity.
  - split; [reflexivity|].
    apply (proj1 (proj2 (failed_call_leaves_state Sample.down
                    (Sample.type Id.sidekickTopic "Respiration" Sample.completed)
                    (Error "Internal Server Error")
                    (snd (App.startSidekick Sample.down
                            (Sample.type Id.sidekickTopic "Respiration"
                               Sample.completed)))))).
    reflexivity.
  - split; [reflexivity|]. split; [reflexivity|].
    apply (proj1 (proj2 (proj2 (failed_call_leaves_state Sample.failsAfterGrading
                    Sample.loaded42 (Error "Internal Server Error")
                    (snd (App.submitResult "good" Sample.failsAfterGrading
                            Sample.loaded42)))))
             App.API "good" 42 eq_refl eq_refl).
    right. eexists _, _. split; reflexivity.
  - split; [reflexivity|].
    apply (proj2 (proj2 (proj2 (failed_call_leaves_state Sample.down
                    (Sample.type Id.chatInput "Because sunlight" Sample.started)
                    (Error "Internal Server Error")
                    (snd (App.sendSidekickAnswer Sample.down
                            (Sample.type Id.chatInput "Because sunlight"
                               Sample.started))))))).
    reflexivity.
Defined.

(** C2, as stated, fails: a reply that the backend rejects leaves the
    user's turn in the transcript and the input empty. *)
Lemma failed_reply_keeps_the_user_turn :
  let st := Sample.type Id.chatInput "Because sunlight" Sample.started in
  let run := App.sendSidekickAnswer Sample.down st in
  fst run = Throw (Error "Internal Server Error") /\
  Dialogue.transcript st = [Markup (App.gemini "Q1")] /\
  Dialogue.transcript (snd run) =
    [Markup (App.gemini "Q1"); Markup (App.you "Because sunlight")] /\
  Dialogue.pending st = "Because sunlight" /\
  Dialogue.pending (snd run) = "".
Proof. vm_compute. repeat split. Qed.

(** ** The two scripts side by side *)

Section Simulation.

Variables (b1 b2 : string) (e1 e2 : Env).
Hypothesis Halike : Twins.alike b1 b2 e1 e2.

#[local] Abbreviation agree := (Twins.agree b1 b2 e1 e2).

Lemma agree_ret {A} (a : A) : agree (ret a) (ret a).
Proof. intros s1 s2 H. split; [reflexivity|exact H]. Qed.

Lemma agree_throw {A} e : agree (@throw A e) (throw e).
Proof. intros s1 s2 H. split; [reflexivity|exact H]. Qed.

Lemma agree_bind {A B} (m1 m2 : M A) (k1 k2 : A -> M B) :
  agree m1 m2 -> (forall a, agree (k1 a) (k2 a)) ->
  agree (bind m1 k1) (bind m2 k2).
Proof.
  intros Hm Hk s1 s2 H. unfold bind. destruct (Hm s1 s2 H) as [Ho Hs].
  destruct (m1 e1 s1) as [o1 t1], (m2 e2 s2) as [o2 t2]. cbn [fst snd] in *.
  subst o2. destruct o1 as [a|e]; [apply Hk, Hs|split; [reflexivity|exact Hs]].
Qed.

Lemma agree_detach {A} (m1 m2 : M A) :
  agree m1 m2 -> agree (detach m1) (detach m2).
Proof. intros Hm s1 s2 H. split; [reflexivity|apply (Hm s1 s2 H)]. Qed.

Lemma agree_forEach {A} (l : list A) (f1 f2 : A -> M unit) :
  (forall x, agree (f1 x) (f2 x)) -> agree (forEach l f1) (forEach l f2).
Proof.
  intros Hf. induction l as [|x r IH]; cbn [forEach].
  - apply agree_ret.
  - apply agree_bind; [apply Hf|intros _; exact IH].
Qed.

Lemma agree_byId i : agree (byId i) (byId i).
Proof.
  intros s1 s2 H. unfold byId. cbn. split; [|exact H].
  destruct H as (-> & _). reflexivity.
Qed.

Lemma agree_update i f : agree (update i f) (update i f).
Proof.
  intros s1 s2 (Hd & Hs & Ht). unfold update. cbn. split; [reflexivity|].
  split; [|split]; cbn; [rewrite Hd; reflexivity|exact Hs|exact Ht].
Qed.

Lemma agree_getSession : agree getSession getSession.
Proof.
  intros s1 s2 H. unfold getSession. cbn. split; [|exact H].
  destruct H as (_ & -> & _). reflexivity.
Qed.

Lemma agree_setSession v : agree (setSession v) (setSession v).
Proof.
  intros s1 s2 (Hd & Hs & Ht). split; [reflexivity|].
  split; [|split]; cbn; [exact Hd|reflexivity|exact Ht].
Qed.

Lemma agree_localeString iso : agree (localeString iso) (localeString iso).
Proof.
  intros s1 s2 H. unfold localeString. cbn. split; [|exact H].
  destruct Halike as [_ Hl]. rewrite Hl. reflexivity.
Qed.

Lemma agree_prop v k : agree (prop v k) (prop v k).
Proof. destruct v; first [apply agree_ret | apply agree_throw]. Qed.

Lemma agree_asArray v : agree (asArray v) (asArray v).
Proof. destruct v; first [apply agree_ret | apply agree_throw]. Qed.

Lemma agree_resJson r : agree (resJson r) (resJson r).
Proof.
  unfold resJson. destruct (json r); first [apply agree_ret | apply agree_throw].
Qed.

Lemma agree_fetch path o : agree (fetch (b1 ++ path) o) (fetch (b2 ++ path) o).
Proof.
  intros s1 s2 (Hd & Hs & hist & H1 & H2). unfold fetch.
  destruct Halike as [Hb _].
  specialize (Hb hist {| url := path; opts := o |}).
  unfold Twins.under in Hb at 2 4. cbn [url opts] in Hb.
  rewrite H1, H2, Hb.
  assert (Hp : Twins.paired b1 b2
                 (sending {| url := b1 ++ path; opts := o |} s1)
                 (sending {| url := b2 ++ path; opts := o |} s2)).
  { split; [exact Hd|]. split; [exact Hs|].
    exists (hist ++ [{| url := path; opts := o |}])%list. cbn.
    rewrite H1, H2, !map_app. split; reflexivity. }
  destruct (backend e2 _ _); (split; [reflexivity|exact Hp]).
Qed.

Ltac twin_step :=
  lazymatch goal with
  | |- Twins.agree _ _ _ _ (bind _ _) (bind _ _) => apply agree_bind; [|intros]
  | |- Twins.agree _ _ _ _ (ret _) (ret _) => apply agree_ret
  | |- Twins.agree _ _ _ _ (throw _) (throw _) => apply agree_throw
  | |- Twins.agree _ _ _ _ (detach _) (detach _) => apply agree_detach
  | |- Twins.agree _ _ _ _ (forEach _ _) (forEach _ _) =>
      apply agree_forEach; intros
  | |- Twins.agree _ _ _ _ (byId _) (byId _) => apply agree_byId
  | |- Twins.agree _ _ _ _ (update _ _) (update _ _) => apply agree_update
  | |- Twins.agree _ _ _ _ getSession getSession => apply agree_getSession
  | |- Twins.agree _ _ _ _ (setSession _) (setSession _) => apply agree_setSession
  | |- Twins.agree _ _ _ _ (localeString _) (localeString _) =>
      apply agree_localeString
  | |- Twins.agree _ _ _ _ (prop _ _) (prop _ _) => apply agree_prop
  | |- Twins.agree _ _ _ _ (asArray _) (asArray _) => apply agree_asArray
  | |- Twins.agree _ _ _ _ (resJson _) (resJson _) => apply agree_resJson
  | |- Twins.agree _ _ _ _ (fetch _ _) (fetch _ _) => apply agree_fetch
  | |- Twins.agree _ _ _ _ (if ?b then _ else _) (if ?b then _ else _) =>
      destruct b
  | |- Twins.agree _ _ _ _ (match ?x with _ => _ end) (match ?x with _ => _ end) =>
      destruct x
  end.

Ltac twin := cbv zeta; repeat (twin_step; cbv beta zeta).

Lemma agree_api path o : agree (Script.api b1 path o) (Script.api b2 path o).
Proof. unfold Script.api. twin. Qed.

Lemma agree_refreshCards : agree (Script.refreshCards b1) (Script.refreshCards b2).
Proof.
  unfold Script.refreshCards, Script.cardRow, Script.deckId.
  twin; apply agree_api.
Qed.

Lemma agree_refreshStats : agree (Script.refreshStats b1) (Script.refreshStats b2).
Proof.
  unfold Script.refreshStats, Script.deckId. twin; apply agree_api.
Qed.

Lemma agree_refreshDecks : agree (Script.refreshDecks b1) (Script.refreshDecks b2).
Proof.
  unfold Script.refreshDecks. twin;
    first [apply agree_api | apply agree_refreshCards | apply agree_refreshStats].
Qed.

Lemma agree_createDeck : agree (Script.createDeck b1) (Script.createDeck b2).
Proof.
  unfold Script.createDeck. twin; first [apply agree_api | apply agree_refreshDecks].
Qed.

Lemma agree_addCard : agree (Script.addCard b1) (Script.addCard b2).
Proof.
  unfold Script.addCard, Script.deckId, Script.tagOrGeneral. twin;
    first [apply agree_api | apply agree_refreshCards | apply agree_refreshStats].
Qed.

Lemma agree_loadNext : agree (Script.loadNext b1) (Script.loadNext b2).
Proof. unfold Script.loadNext, Script.deckId. twin; apply agree_api. Qed.

Lemma agree_submitResult result :
  agree (Script.submitResult b1 result) (Script.submitResult b2 result).
Proof.
  unfold Script.submitResult. twin;
    first [apply agree_api | apply agree_loadNext | apply agree_refreshCards
          | apply agree_refreshStats].
Qed.

Lemma agree_showAnswer : agree Script.showAnswer Script.showAnswer.
Proof. unfold Script.showAnswer. twin. Qed.

Lemma agree_ingestPdf : agree (Script.ingestPdf b1) (Script.ingestPdf b2).
Proof. unfold Script.ingestPdf. twin. Qed.

Lemma agree_addAsCard item :
  agree (Script.addAsCard b1 item) (Script.addAsCard b2 item).
Proof.
  unfold Script.addAsCard, Script.deckId, Script.tagOrGeneral. twin;
    first [apply agree_api | apply agree_refreshCards | apply agree_refreshStats].
Qed.

End Simulation.

Lemma prefix_under (b p u : string) :
  String.prefix (b ++ p) (b ++ u) = String.prefix p u.
Proof.
  induction b as [|c b IH]; simpl; [reflexivity|].
  destruct (ascii_dec c c); [exact IH|congruence].
Qed.

Lemma wasGraded_under b hist :
  Sample.wasGraded b (map (Twins.under b) hist) =
  existsb (fun rq => String.prefix "/review/submit" (url rq)) hist.
Proof.
  unfold Sample.wasGraded. induction hist as [|rq r IH]; cbn; [reflexivity|].
  rewrite prefix_under. f_equal. exact IH.
Qed.

Lemma twoCards_alike b1 b2 :
  Twins.alike b1 b2 (Sample.twoCards b1) (Sample.twoCards b2).
Proof.
  split; [|reflexivity]. intros hist rq.
  unfold Sample.twoCards, Sample.views, Twins.under.
  cbn [backend Sample.route url opts].
  rewrite !prefix_under, !wasGraded_under. reflexivity.
Qed.

(** C10: each of the ten functions of the twin script does what the
    function of the same name in [frontend/app.js] does.  Run in
    surroundings that differ in the base address of the backend only, from
    states that differ in the base address of the requests already sent
    only, the two return or throw alike and end in states that again
    differ in the base address of the requests sent only: same page, same
    requests relative to the base. *)
Theorem twin_scripts_agree c e1 e2 s1 s2 :
  Twins.alike App.API Twin.API e1 e2 ->
  Twins.paired App.API Twin.API s1 s2 ->
  fst (Twins.inApp c e1 s1) = fst (Twins.inTwin c e2 s2) /\
  Twins.paired App.API Twin.API
    (snd (Twins.inApp c e1 s1)) (snd (Twins.inTwin c e2 s2)).
Proof.
  intros Ha Hp.
  assert (H : Twins.agree App.API Twin.API e1 e2 (Twins.inApp c) (Twins.inTwin c)).
  { destruct c; cbn [Twins.inApp Twins.inTwin];
      [apply agree_api; exact Ha|..];
      (apply agree_bind; [|intros; apply agree_ret]).
    - apply agree_refreshDecks, Ha.
    - apply agree_createDeck, Ha.
    - apply agree_addCard, Ha.
    - apply agree_loadNext, Ha.
    - apply agree_submitResult, Ha.
    - apply agree_showAnswer.
    - apply agree_ingestPdf, Ha.
    - apply agree_refreshCards, Ha.
    - apply agree_refreshStats, Ha. }
  exact (H s1 s2 Hp).
Qed.

Lemma twin_scripts_agree_witness :
  let e1 := Sample.twoCards App.API in
  let e2 := Sample.twoCards Twin.API in
  let c := CallSubmitResult "good" in
  Twins.alike App.API Twin.API e1 e2 /\
  Twins.paired App.API Twin.API Sample.loaded42 Sample.loaded42twin /\
  fst (Twins.inApp c e1 Sample.loaded42) = fst (Twins.inTwin c e2 Sample.loaded42twin) /\
  dom (snd (Twins.inApp c e1 Sample.loaded42)) =
    dom (snd (Twins.inTwin c e2 Sample.loaded42twin)) /\
  map url (sent (snd (Twins.inApp c e1 Sample.loaded42))) =
    ["/api/review/next?deck_id=1"; "/api/review/submit";
     "/api/review/next?deck_id=1"; "/api/cards?deck_id=1";
     "/api/reflect/stats?deck_id=1"] /\
  map url (sent (snd (Twins.inTwin c e2 Sample.loaded42twin))) =
    ["http://localhost:8000/review/next?deck_id=1";
     "http://localhost:8000/review/submit";
     "http://localhost:8000/review/next?deck_id=1";
     "http://localhost:8000/cards?deck_id=1";
     "http://localhost:8000/reflect/stats?deck_id=1"].
Proof.
  cbn zeta.
  assert (Hp : Twins.paired App.API Twin.API Sample.loaded42 Sample.loaded42twin).
  { split; [vm_compute; reflexivity|]. split; [vm_compute; reflexivity|].
    exists [{| url := "/review/next?deck_id=1"; opts := GET |}].
    split; vm_compute; reflexivity. }
  destruct (twin_scripts_agree (CallSubmitResult "good") _ _ _ _
              (twoCards_alike App.API Twin.API) Hp) as (Ho & Hd & _).
  split; [apply twoCards_alike|]. split; [exact Hp|]. split; [exact Ho|].
  split; [exact Hd|]. split; vm_compute; reflexivity.
Defined.

(** * Further properties *)

Ltac by_running := vm_compute; first [reflexivity | discriminate | congruence].

(** ** The deck and card forms *)

Lemma refreshDecks_get_only API : within (grows isGet) (Script.refreshDecks API).
Proof.
  unfold Script.refreshDecks. frame;
    first [apply api_get_only | apply refreshCards_get_only
          | apply refreshStats_get_only].
Qed.

Lemma refreshCards_keeps_forms API : within (keeps isForm) (Script.refreshCards API).
Proof.
  unfold Script.refreshCards, Script.cardRow, Script.deckId. frame; apply api_keeps.
Qed.

Lemma refreshStats_keeps_forms API : within (keeps isForm) (Script.refreshStats API).
Proof. unfold Script.refreshStats, Script.deckId. frame; apply api_keeps. Qed.

Lemma refreshDecks_keeps_forms API : within (keeps isForm) (Script.refreshDecks API).
Proof.
  unfold Script.refreshDecks. frame;
    first [apply api_keeps | apply refreshCards_keeps_forms
          | apply refreshStats_keeps_forms].
Qed.

Lemma createDeck_run API env st :
  Script.createDeck API env st =
  let name := Forms.typed Id.deckName (dom st) in
  if Str.is_empty name then (Ret tt, st)
  else
    match Script.api API "/decks" (opts (Forms.createRequest API name)) env st with
    | (Ret _, st1) =>
        (Ret tt,
         snd (Script.refreshDecks API env
                (withDom (Forms.cleared Id.deckName (dom st1)) st1)))
    | (Throw e, st1) => (Throw e, st1)
    end.
Proof.
  unfold Script.createDeck, Forms.typed. unfold bind at 1. unfold byId at 1.
  cbn beta iota zeta. destruct (Str.is_empty _); [reflexivity|].
  unfold bind at 1. cbn [Forms.createRequest opts].
  destruct (Script.api API "/decks" _ env st) as [[v|e] st1]; reflexivity.
Qed.

(** X1: [createDeck] with a blank name sends nothing and changes nothing.
    With a name it sends one POST [/decks] carrying the trimmed name, and
    GETs besides; when that POST fails it throws with the field as typed,
    and when it succeeds it returns normally, whatever becomes of the
    refresh it starts, with the field cleared. *)
Theorem createDeck_blank_or_post API env st :
  let name := Forms.typed Id.deckName (dom st) in
  let rq := Forms.createRequest API name in
  let run := Script.createDeck API env st in
  (name = "" -> run = (Ret tt, st)) /\
  (name <> "" ->
   (exists later,
      sent (snd run) = (sent st ++ rq :: later)%list /\ Forall isGet later) /\
   (forall e, fst (Script.api API "/decks" (opts rq) env st) = Throw e ->
      run = (Throw e, sending rq st)) /\
   (forall v, fst (Script.api API "/decks" (opts rq) env st) = Ret v ->
      fst run = Ret tt /\
      value (Page.get Id.deckName (dom (snd run))) = "")).
Proof.
  cbn zeta. rewrite createDeck_run. cbn zeta. split.
  - intros ->. reflexivity.
  - intros Hn. destruct (Str.is_empty _) eqn:E.
    { apply is_empty_spec in E. contradiction. }
    set (rq := Forms.createRequest API (Forms.typed Id.deckName (dom st))).
    pose proof (api_state API "/decks" (opts rq) env st) as Hs.
    change {| url := API ++ "/decks"; opts := opts rq |} with rq in Hs.
    destruct (Script.api API "/decks" (opts rq) env st) as [[v|e] st1];
      cbn [fst snd] in *; subst st1.
    + split; [|split; [intros e; discriminate|intros v' _]].
      * destruct (refreshDecks_get_only API env
                    (withDom (Forms.cleared Id.deckName (dom (sending rq st)))
                       (sending rq st))) as (later & E1 & F).
        exists later. split; [|exact F]. rewrite E1. cbn.
        rewrite <- app_assoc. reflexivity.
      * split; [reflexivity|].
        rewrite (refreshDecks_keeps_forms API env _ Id.deckName eq_refl).
        reflexivity.
    + split; [|split; [intros e' [= <-]; reflexivity|intros v; discriminate]].
      exists []. split; [reflexivity|constructor].
Qed.

Lemma createDeck_blank_or_post_witness :
  Script.createDeck App.API Scene.study Sample.fresh = (Ret tt, Sample.fresh) /\
  Forms.typed Id.deckName (dom Scene.filled) = "Biology" /\
  value (Page.get Id.deckName
           (dom (snd (Script.createDeck App.API Scene.study Scene.filled)))) = "" /\
  Script.createDeck App.API Sample.down Scene.filled =
    (Throw (Error "Internal Server Error"),
     sending (Forms.createRequest App.API "Biology") Scene.filled).
Proof.
  split; [|split; [|split]].
  - apply (proj1 (createDeck_blank_or_post App.API Scene.study Sample.fresh)). by_running.
  - by_running.
  - pose proof (proj2 (createDeck_blank_or_post App.API Scene.study Scene.filled)) as H.
    cbn zeta in H. destruct H as (_ & _ & H); [by_running|].
    apply (H (JArr Scene.decks)). by_running.
  - pose proof (proj2 (createDeck_blank_or_post App.API Sample.down Scene.filled)) as H.
    cbn zeta in H. destruct H as (_ & H & _); [by_running|].
    apply (H (Error "Internal Server Error")). by_running.
Defined.

Lemma addCard_run API env st :
  Script.addCard API env st =
  let d := dom st in
  let q := Forms.typed Id.question d in
  let a := Forms.typed Id.answer d in
  if Js.not (Forms.deckNumber d) || Str.is_empty q || Str.is_empty a
  then (Ret tt, st)
  else
    match Script.api API "/cards"
            (opts (Forms.cardRequest API (Forms.deckNumber d)
                     (Forms.tagOrGeneral d) (JStr q) (JStr a))) env st with
    | (Ret _, st1) =>
        (Ret tt,
         snd ((detach (Script.refreshCards API) ;; detach (Script.refreshStats API))
                env
                (withDom (Forms.cleared Id.answer
                            (Forms.cleared Id.question (dom st1))) st1)))
    | (Throw e, st1) => (Throw e, st1)
    end.
Proof.
  unfold Script.addCard, Script.deckId, Script.tagOrGeneral, Forms.typed,
    Forms.deckNumber, Forms.tagOrGeneral.
  unfold bind at 1 2 3 4 5 6. unfold byId at 1 2 3 4, ret at 1 2.
  cbn beta iota zeta.
  destruct (_ || _ || _); [reflexivity|].
  unfold bind at 1. cbn [Forms.cardRequest opts].
  destruct (Script.api API "/cards" _ env st) as [[v|e] st1]; [|reflexivity].
  unfold bind at 1 2 3. unfold update at 1 2. cbn beta iota zeta.
  unfold detach at 1 2. cbn [snd fst]. unfold bind. cbn.
  reflexivity.
Qed.

(** X2: [addCard] sends nothing and changes nothing when no deck is
    selected (the deck's number is zero or not a number), when the question
    is blank, and when the answer is blank. *)
Theorem addCard_validates API env st :
  Js.truthy (Forms.deckNumber (dom st)) = false \/
  Forms.typed Id.question (dom st) = "" \/
  Forms.typed Id.answer (dom st) = "" ->
  Script.addCard API env st = (Ret tt, st).
Proof.
  intros H. rewrite addCard_run. cbn zeta. unfold Js.not.
  destruct H as [-> | [-> | ->]]; cbn [negb orb Str.is_empty];
    rewrite ?orb_true_r; reflexivity.
Qed.

Lemma addCard_validates_witness :
  Forms.typed Id.question (dom Sample.fresh) = "" /\
  Script.addCard App.API Scene.study Sample.fresh = (Ret tt, Sample.fresh) /\
  (let st := withDom (Page.set Id.deckSelect El.blank (dom Scene.filled)) Scene.filled in
   Forms.deckNumber (dom st) = JNum (Int 0) /\
   Script.addCard App.API Scene.study st = (Ret tt, st)).
Proof.
  split; [by_running|]. split.
  - apply (addCard_validates App.API Scene.study Sample.fresh). right. left. by_running.
  - cbn zeta. split; [by_running|].
    apply (addCard_validates App.API Scene.study). left. by_running.
Defined.

Lemma refreshes_get_only API :
  within (grows isGet)
    (detach (Script.refreshCards API) ;; detach (Script.refreshStats API)).
Proof. frame; [apply refreshCards_get_only|apply refreshStats_get_only]. Qed.

Lemma refreshes_keep_forms API :
  within (keeps isForm)
    (detach (Script.refreshCards API) ;; detach (Script.refreshStats API)).
Proof. frame; [apply refreshCards_keeps_forms|apply refreshStats_keeps_forms]. Qed.

(** X3: with a deck, a question and an answer, [addCard] sends one POST
    [/cards] carrying the deck's number, the tag (["general"] when the tag
    field is blank) and the trimmed question and answer, and GETs besides.
    When the POST fails it throws with the form as typed; when it succeeds
    it returns normally with question and answer cleared and the tag field
    kept. *)
Theorem addCard_posts_and_clears API env st :
  let d := dom st in
  let rq := Forms.cardRequest API (Forms.deckNumber d) (Forms.tagOrGeneral d)
              (JStr (Forms.typed Id.question d)) (JStr (Forms.typed Id.answer d)) in
  let run := Script.addCard API env st in
  Js.truthy (Forms.deckNumber d) = true ->
  Forms.typed Id.question d <> "" ->
  Forms.typed Id.answer d <> "" ->
  (exists later,
     sent (snd run) = (sent st ++ rq :: later)%list /\ Forall isGet later) /\
  (forall e, fst (Script.api API "/cards" (opts rq) env st) = Throw e ->
     run = (Throw e, sending rq st)) /\
  (forall v, fst (Script.api API "/cards" (opts rq) env st) = Ret v ->
     fst run = Ret tt /\
     value (Page.get Id.question (dom (snd run))) = "" /\
     value (Page.get Id.answer (dom (snd run))) = "" /\
     Page.get Id.tag (dom (snd run)) = Page.get Id.tag d).
Proof.
  cbn zeta. intros Hd Hq Ha. rewrite addCard_run. cbn zeta. unfold Js.not.
  rewrite Hd. cbn [negb orb].
  destruct (Str.is_empty (Forms.typed Id.question _)) eqn:Eq.
  { apply is_empty_spec in Eq. contradiction. }
  destruct (Str.is_empty (Forms.typed Id.answer _)) eqn:Ea.
  { apply is_empty_spec in Ea. contradiction. }
  cbn [orb].
  set (rq := Forms.cardRequest API _ _ _ _).
  pose proof (api_state API "/cards" (opts rq) env st) as Hs.
  change {| url := API ++ "/cards"; opts := opts rq |} with rq in Hs.
  destruct (Script.api API "/cards" (opts rq) env st) as [[v|e] st1];
    cbn [fst snd] in *; subst st1.
  - split; [|split; [intros e; discriminate|intros v' _]].
    + destruct (refreshes_get_only API env
                  (withDom (Forms.cleared Id.answer
                              (Forms.cleared Id.question (dom (sending rq st))))
                     (sending rq st))) as (later & E1 & F).
      exists later. split; [|exact F]. rewrite E1. cbn.
      rewrite <- app_assoc. reflexivity.
    + split; [reflexivity|].
      rewrite (refreshes_keep_forms API env _ Id.question eq_refl),
        (refreshes_keep_forms API env _ Id.answer eq_refl),
        (refreshes_keep_forms API env _ Id.tag eq_refl).
      repeat split.
  - split; [|split; [intros e' [= <-]; reflexivity|intros v; discriminate]].
    exists []. split; [reflexivity|constructor].
Qed.

Lemma addCard_posts_and_clears_witness :
  let rq := Forms.cardRequest App.API (JNum (Int 1)) (JStr "general")
              (JStr "What is a cell?") (JStr "The unit of life") in
  let run := Script.addCard App.API Scene.study Scene.filled in
  (exists later,
     sent (snd run) = (sent Scene.filled ++ rq :: later)%list /\ Forall isGet later) /\
  fst run = Ret tt /\
  value (Page.get Id.question (dom (snd run))) = "" /\
  value (Page.get Id.answer (dom (snd run))) = "" /\
  Script.addCard App.API Sample.down Scene.filled =
    (Throw (Error "Internal Server Error"), sending rq Scene.filled).
Proof.
  cbn zeta.
  pose proof (addCard_posts_and_clears App.API Scene.study Scene.filled) as H.
  cbn zeta in H. destruct H as (H1 & _ & H3); [by_running|by_running|by_running|].
  pose proof (addCard_posts_and_clears App.API Sample.down Scene.filled) as H'.
  cbn zeta in H'. destruct H' as (_ & H2 & _); [by_running|by_running|by_running|].
  split; [exact H1|].
  destruct (H3 (JArr [JObj Sample.shaky; Sample.card42])) as (Ha & Hb & Hc & _); [by_running|].
  split; [exact Ha|]. split; [exact Hb|]. split; [exact Hc|].
  apply (H2 (Error "Internal Server Error")). by_running.
Defined.

Lemma addAsCard_run API item env st :
  nullish item = false ->
  Script.addAsCard API item env st =
  match Script.api API "/cards"
          (opts (Forms.cardRequest API (Forms.deckNumber (dom st))
                   (Forms.tagOrGeneral (dom st)) (field "q" item) (field "a" item)))
          env st with
  | (Ret _, st1) =>
      (Ret tt,
       snd ((detach (Script.refreshCards API) ;; detach (Script.refreshStats API))
              env st1))
  | (Throw e, st1) => (Throw e, st1)
  end.
Proof.
  intros Hi.
  unfold Script.addAsCard, Script.deckId, Script.tagOrGeneral, Forms.typed,
    Forms.deckNumber, Forms.tagOrGeneral.
  rewrite !(prop_present _ _ Hi).
  unfold bind at 1 2 3 4 5 6. unfold byId at 1 2, ret at 1 2 3 4.
  cbn beta iota zeta. unfold bind at 1. cbn [Forms.cardRequest opts].
  destruct (Script.api API "/cards" _ env st) as [[v|e] st1]; [|reflexivity].
  unfold bind, detach. cbn. reflexivity.
Qed.

(** X4: the handler of an extracted question's button checks nothing: for
    any item it sends one POST [/cards] with the deck's number as it is,
    zero or not a number included, and the item's [q] and [a]; it leaves the
    form fields alone and throws exactly when that POST fails. *)
Theorem addAsCard_posts_unchecked API item env st :
  nullish item = false ->
  let rq := Forms.cardRequest API (Forms.deckNumber (dom st))
              (Forms.tagOrGeneral (dom st)) (field "q" item) (field "a" item) in
  let run := Script.addAsCard API item env st in
  (exists later,
     sent (snd run) = (sent st ++ rq :: later)%list /\ Forall isGet later) /\
  (forall i, isForm i = true -> Page.get i (dom (snd run)) = Page.get i (dom st)) /\
  (forall e, fst run = Throw e <->
             fst (Script.api API "/cards" (opts rq) env st) = Throw e).
Proof.
  intros Hi. cbn zeta. rewrite (addAsCard_run API item env st Hi).
  set (rq := Forms.cardRequest API _ _ _ _).
  pose proof (api_state API "/cards" (opts rq) env st) as Hs.
  change {| url := API ++ "/cards"; opts := opts rq |} with rq in Hs.
  destruct (Script.api API "/cards" (opts rq) env st) as [[v|e] st1];
    cbn [fst snd] in *; subst st1.
  - split; [|split].
    + destruct (refreshes_get_only API env (sending rq st)) as (later & E1 & F).
      exists later. split; [|exact F]. rewrite E1. cbn.
      rewrite <- app_assoc. reflexivity.
    + intros i Hk. rewrite (refreshes_keep_forms API env _ i Hk). reflexivity.
    + intros e. split; discriminate.
  - split; [|split].
    + exists []. split; [reflexivity|constructor].
    + reflexivity.
    + intros e'. split; intros [= <-]; reflexivity.
Qed.

Lemma addAsCard_posts_unchecked_witness :
  let item := JObj [("q", JStr "What is DNA?"); ("a", JStr "A nucleic acid")] in
  let st := withDom Page.blank Sample.fresh in
  let rq := Forms.cardRequest App.API (JNum (Int 0)) (JStr "general")
              (JStr "What is DNA?") (JStr "A nucleic acid") in
  nullish item = false /\
  (exists later,
     sent (snd (Script.addAsCard App.API item Scene.study st)) =
       (sent st ++ rq :: later)%list /\ Forall isGet later) /\
  fst (Script.addAsCard App.API item Sample.down st) =
    Throw (Error "Internal Server Error").
Proof.
  cbn zeta. split; [reflexivity|].
  pose proof (addAsCard_posts_unchecked App.API
                (JObj [("q", JStr "What is DNA?"); ("a", JStr "A nucleic acid")])
                Scene.study (withDom Page.blank Sample.fresh) eq_refl) as H.
  cbn zeta in H. destruct H as (H1 & _).
  split; [exact H1|].
  pose proof (addAsCard_posts_unchecked App.API
                (JObj [("q", JStr "What is DNA?"); ("a", JStr "A nucleic acid")])
                Sample.down (withDom Page.blank Sample.fresh) eq_refl) as H.
  cbn zeta in H. destruct H as (_ & _ & H3).
  apply (proj2 (H3 (Error "Internal Server Error"))). by_running.
Defined.

(** ** The cards table, the statistics and the posts *)

Lemma cardRow_present c env :
  nullish c = false -> exists tr, rowFor env c tr.
Proof.
  intros Hc. unfold rowFor, Script.cardRow.
  rewrite !(prop_present _ _ Hc). unfold bind, ret, localeString. cbn.
  destruct (Js.truthy (field "due_at" c)); eexists; intros st; reflexivity.
Qed.

Lemma cardRow_nullish c env st :
  nullish c = true -> Script.cardRow c env st = (Throw TypeError, st).
Proof. destruct c; try discriminate; reflexivity. Qed.

Lemma appended_nil i d : appended i [] d = d.
Proof.
  unfold appended. rewrite app_nil_r.
  replace (El.setNodes (nodes (Page.get i d)) (Page.get i d)) with (Page.get i d)
    by (destruct (Page.get i d); reflexivity).
  apply set_get.
Qed.

Lemma appended_app i l1 l2 d :
  appended i l2 (appended i l1 d) = appended i (l1 ++ l2) d.
Proof.
  unfold appended. rewrite get_set_same, set_set. cbn [El.setNodes nodes].
  rewrite <- app_assoc. reflexivity.
Qed.

Lemma forEach_app {A} (l1 l2 : list A) (f : A -> M unit) env st :
  forEach (l1 ++ l2) f env st = (forEach l1 f ;; forEach l2 f) env st.
Proof.
  revert st. induction l1 as [|x r IH]; intros st; cbn [forEach app].
  - reflexivity.
  - unfold bind in *. destruct (f x env st) as [[[]|e] st1]; [|reflexivity].
    apply IH.
Qed.

Lemma rows_appended env cs : forall st,
  Forall (fun c => nullish c = false) cs ->
  exists rows,
    Forall2 (rowFor env) cs rows /\
    forEach cs (fun c => let* tr := Script.cardRow c in
                         update Id.cardsTbody (El.appendChild tr)) env st =
    (Ret tt, withDom (appended Id.cardsTbody rows (dom st)) st).
Proof.
  induction cs as [|c cs IH]; intros st Hcs.
  - exists []. split; [constructor|]. cbn. rewrite appended_nil.
    destruct st; reflexivity.
  - inversion Hcs as [|? ? Hc Hr]; subst.
    destruct (cardRow_present c env Hc) as (tr & Htr).
    destruct (IH (withDom (appended Id.cardsTbody [tr] (dom st)) st) Hr)
      as (rows & Hrows & Hrun).
    exists (tr :: rows). split; [constructor; assumption|].
    cbn [forEach]. unfold bind at 1 2. rewrite Htr.
    unfold update at 1. cbn beta iota.
    change (withDom (Page.set Id.cardsTbody _ (dom st)) st)
      with (withDom (appended Id.cardsTbody [tr] (dom st)) st).
    rewrite Hrun. cbn [dom withDom]. rewrite appended_app. reflexivity.
Qed.

Lemma rendered_nodes i rows d :
  nodes (Page.get i (appended i rows (emptied i d))) = rows.
Proof. unfold appended, emptied. rewrite !get_set_same. reflexivity. Qed.

Lemma rendered_other i j rows d :
  i <> j -> Page.get j (appended i rows (emptied i d)) = Page.get j d.
Proof.
  intros H. unfold appended, emptied. rewrite !get_set_other by exact H.
  reflexivity.
Qed.

Lemma refreshCards_run API env st :
  Script.refreshCards API env st =
  match Script.api API (cardsPath (dom st)) GET env st with
  | (Ret cards, st1) =>
      (let* cs := asArray cards in
       forEach cs (fun c => let* tr := Script.cardRow c in
                            update Id.cardsTbody (El.appendChild tr)))
        env (withDom (emptied Id.cardsTbody (dom st1)) st1)
  | (Throw e, st1) => (Throw e, st1)
  end.
Proof.
  unfold Script.refreshCards, Script.deckId, cardsPath, Forms.deckNumber,
    Forms.typed.
  unfold bind at 1 2 3. unfold byId at 1 2, ret at 1. cbn beta iota zeta.
  unfold bind at 1.
  destruct (Script.api API _ GET env st) as [[cards|e] st1]; reflexivity.
Qed.

(** X5: when the backend answers [refreshCards] with a list of cards, the
    table ends up with one row per card, in the order of the list, each the
    row [cardRow] builds for its card; the rows it held before are gone,
    one request was sent and no other element changed. *)
Theorem refreshCards_renders_every_card API env st cs st1 :
  Script.api API (cardsPath (dom st)) GET env st = (Ret (JArr cs), st1) ->
  Forall (fun c => nullish c = false) cs ->
  exists rows st',
    Script.refreshCards API env st = (Ret tt, st') /\
    Forall2 (rowFor env) cs rows /\
    nodes (Page.get Id.cardsTbody (dom st')) = rows /\
    sent st' = (sent st ++ [get API (cardsPath (dom st))])%list /\
    (forall i, i <> Id.cardsTbody -> Page.get i (dom st') = Page.get i (dom st)).
Proof.
  intros Hapi Hcs. rewrite refreshCards_run, Hapi.
  pose proof (api_state API (cardsPath (dom st)) GET env st) as Hs.
  rewrite Hapi in Hs. cbn [snd] in Hs.
  unfold bind at 1. cbn [asArray]. unfold ret at 1. cbn beta iota.
  destruct (rows_appended env cs
              (withDom (emptied Id.cardsTbody (dom st1)) st1) Hcs)
    as (rows & Hrows & Hrun).
  exists rows. eexists. split; [exact Hrun|]. split; [exact Hrows|].
  cbn [dom withDom sent]. split; [apply rendered_nodes|]. split.
  - rewrite Hs. reflexivity.
  - intros i Hi. rewrite rendered_other by congruence. rewrite Hs. reflexivity.
Qed.

Lemma refreshCards_renders_every_card_witness :
  let fin := snd (Script.refreshCards App.API Scene.study Scene.loaded) in
  Script.api App.API (cardsPath (dom Scene.loaded)) GET Scene.study Scene.loaded =
    (Ret (JArr [JObj Sample.shaky; Sample.card42]),
     sending (get App.API "/cards?deck_id=1") Scene.loaded) /\
  fst (Script.refreshCards App.API Scene.study Scene.loaded) = Ret tt /\
  length (nodes (Page.get Id.cardsTbody (dom fin))) = 2%nat /\
  Page.get Id.deckSelect (dom fin) = Page.get Id.deckSelect (dom Scene.loaded).
Proof.
  cbn zeta.
  assert (H : Script.api App.API (cardsPath (dom Scene.loaded)) GET Scene.study
                Scene.loaded =
              (Ret (JArr [JObj Sample.shaky; Sample.card42]),
               sending (get App.API "/cards?deck_id=1") Scene.loaded)) by by_running.
  split; [exact H|].
  destruct (refreshCards_renders_every_card App.API Scene.study Scene.loaded _ _ H)
    as (rows & st' & Hrun & Hrows & Hn & _ & Hk).
  { repeat constructor. }
  rewrite Hrun. cbn [fst snd]. split; [reflexivity|]. split.
  - rewrite Hn, <- (Forall2_length _ _ _ Hrows). reflexivity.
  - apply Hk. discriminate.
Defined.

(** X6: how [refreshCards] fails.  When its request fails the table is
    kept; when the answer is not a list the table is left empty; when the
    list holds a [null] the table is left with the rows of the cards before
    it.  In the last two cases it throws a type error. *)
Theorem refreshCards_failure_modes API env st :
  let run := Script.refreshCards API env st in
  let rq := get API (cardsPath (dom st)) in
  (forall e, fst (Script.api API (cardsPath (dom st)) GET env st) = Throw e ->
     run = (Throw e, sending rq st)) /\
  (forall v, fst (Script.api API (cardsPath (dom st)) GET env st) = Ret v ->
     (forall l, v <> JArr l) ->
     run = (Throw TypeError, withDom (emptied Id.cardsTbody (dom st)) (sending rq st))) /\
  (forall pre c post,
     fst (Script.api API (cardsPath (dom st)) GET env st)
       = Ret (JArr (pre ++ c :: post)) ->
     Forall (fun c => nullish c = false) pre -> nullish c = true ->
     exists rows,
       Forall2 (rowFor env) pre rows /\
       fst run = Throw TypeError /\
       nodes (Page.get Id.cardsTbody (dom (snd run))) = rows).
Proof.
  cbn zeta. rewrite refreshCards_run.
  pose proof (api_state API (cardsPath (dom st)) GET env st) as Hs.
  fold (get API (cardsPath (dom st))) in Hs.
  destruct (Script.api API _ GET env st) as [[cards|e] st1];
    cbn [fst snd] in *; (split; [|split]).
  - intros e; discriminate.
  - intros v [= <-] Hv. destruct cards; try (rewrite Hs; reflexivity).
    exfalso. eapply Hv; reflexivity.
  - intros pre c post [= ->] Hpre Hc.
    destruct (rows_appended env pre
                (withDom (emptied Id.cardsTbody (dom st1)) st1) Hpre)
      as (rows & Hrows & Hrun).
    exists rows. split; [exact Hrows|].
    assert (E : (let* cs := asArray (JArr (pre ++ c :: post)) in
                 forEach cs (fun c => let* tr := Script.cardRow c in
                                      update Id.cardsTbody (El.appendChild tr)))
                  env (withDom (emptied Id.cardsTbody (dom st1)) st1) =
                (Throw TypeError,
                 withDom (appended Id.cardsTbody rows (emptied Id.cardsTbody (dom st1)))
                   st1)).
    { unfold bind at 1. cbn [asArray]. unfold ret at 1. cbn beta iota.
      rewrite forEach_app. unfold bind at 1. rewrite Hrun.
      cbn [forEach]. unfold bind at 1 2. rewrite (cardRow_nullish _ _ _ Hc).
      reflexivity. }
    rewrite E. cbn [fst snd dom withDom]. split; [reflexivity|].
    apply rendered_nodes.
  - intros e' [= <-]. rewrite Hs. reflexivity.
  - intros v; discriminate.
  - intros pre c post; discriminate.
Qed.

Lemma refreshCards_failure_modes_witness :
  Script.refreshCards App.API Sample.down Scene.loaded =
    (Throw (Error "Internal Server Error"),
     sending (get App.API "/cards?deck_id=1") Scene.loaded) /\
  Script.refreshCards App.API Sample.textOnly Scene.loaded =
    (Throw TypeError,
     withDom (emptied Id.cardsTbody (dom Scene.loaded))
       (sending (get App.API "/cards?deck_id=1") Scene.loaded)) /\
  fst (Script.refreshCards App.API Scene.broken Scene.loaded) = Throw TypeError /\
  length (nodes (Page.get Id.cardsTbody
                   (dom (snd (Script.refreshCards App.API Scene.broken Scene.loaded)))))
    = 1%nat.
Proof.
  split; [|split].
  - pose proof (refreshCards_failure_modes App.API Sample.down Scene.loaded) as H.
    cbn zeta in H. destruct H as (H & _).
    apply (H (Error "Internal Server Error")). by_running.
  - pose proof (refreshCards_failure_modes App.API Sample.textOnly Scene.loaded) as H.
    cbn zeta in H. destruct H as (_ & H & _).
    apply (H (JStr "pong")); [by_running|discriminate].
  - pose proof (refreshCards_failure_modes App.API Scene.broken Scene.loaded) as H.
    cbn zeta in H. destruct H as (_ & _ & H).
    destruct (H [Sample.card42] JNull [Sample.card43]) as (rows & Hrows & Ht & Hn);
      [by_running|repeat constructor|reflexivity|].
    split; [exact Ht|].
    rewrite Hn, <- (Forall2_length _ _ _ Hrows). reflexivity.
Defined.

Lemma keeps_everywhere st st' : keeps everywhere st st' -> dom st' = dom st.
Proof. intros H. apply dom_ext. intros i. apply H. reflexivity. Qed.

Lemma silent_sent st st' : grows silent st st' -> sent st' = sent st.
Proof.
  intros (later & E & F). destruct later as [|rq r].
  - rewrite E. apply app_nil_r.
  - inversion F as [|? ? []].
Qed.

Lemma atomic_ret {A} (a : A) : atomic (ret a).
Proof. intros env st e st' [=]. Qed.

Lemma atomic_throw {A} e : atomic (@throw A e).
Proof. intros env st e' st' [= _ <-]. reflexivity. Qed.

Lemma atomic_update i f : atomic (update i f).
Proof. intros env st e st' [=]. Qed.

Lemma atomic_after_reading {A B} (m : M A) (k : A -> M B) :
  within (keeps everywhere) m -> (forall a, atomic (k a)) -> atomic (bind m k).
Proof.
  intros Hm Hk env st e st'. unfold bind.
  pose proof (keeps_everywhere _ _ (Hm env st)) as Hd.
  destruct (m env st) as [[a|e1] st1]; cbn [snd] in Hd.
  - intros H. rewrite <- Hd. eapply Hk, H.
  - intros [= _ <-]. exact Hd.
Qed.

Lemma within_mapM I (I_refl : forall st, I st st)
      (I_trans : forall a b c, I a b -> I b c -> I a c)
      {A B} (f : A -> M B) (l : list A) :
  (forall x, within I (f x)) -> within I (App.mapM f l).
Proof.
  intros Hf. induction l as [|x r IH]; cbn [App.mapM].
  - apply within_ret, I_refl.
  - apply within_bind; [exact I_trans|apply Hf|intros y].
    apply within_bind; [exact I_trans|exact IH|intros ys].
    apply within_ret, I_refl.
Qed.

Lemma one_request API path {B} (k : JsVal -> M B) env st :
  (forall a, within (grows silent) (k a)) ->
  sent (snd ((let* a := Script.api API path GET in k a) env st)) =
  (sent st ++ [get API path])%list.
Proof.
  intros Hk. rewrite bind_run.
  pose proof (api_state API path GET env st) as Hs.
  destruct (Script.api API path GET env st) as [[a|e] st1]; cbn [snd] in *;
    subst st1; [|reflexivity].
  rewrite (silent_sent _ _ (Hk a env _)). reflexivity.
Qed.

Lemma session_refl st : sameSession st st.
Proof. reflexivity. Qed.

Lemma session_trans a b c : sameSession a b -> sameSession b c -> sameSession a c.
Proof. unfold sameSession. congruence. Qed.

Lemma session_update i f : within sameSession (update i f).
Proof. intros env st. reflexivity. Qed.

Lemma session_fetch u o : within sameSession (fetch u o).
Proof. intros env st. unfold fetch. destruct (backend env _ _); reflexivity. Qed.

#[local] Hint Resolve session_refl session_trans : frame.

Ltac session_step :=
  lazymatch goal with
  | |- within sameSession (update _ _) => apply session_update
  | |- within sameSession (fetch _ _) => apply session_fetch
  end.

Ltac frames := cbv zeta; repeat (first [frame_step | session_step]; cbv beta zeta).

(** X7: [refreshStats] sends one request, writes to the statistics box only,
    and when it throws (a failed request, an answer without [buckets]) it
    has written nothing. *)
Theorem refreshStats_all_or_nothing API env st :
  let run := Script.refreshStats API env st in
  sent (snd run) = (sent st ++ [get API (statsPath (dom st))])%list /\
  (forall e, fst run = Throw e -> dom (snd run) = dom st) /\
  (forall i, i <> Id.stats -> Page.get i (dom (snd run)) = Page.get i (dom st)).
Proof.
  cbn zeta. split; [|split].
  - unfold Script.refreshStats, Script.deckId.
    unfold bind at 1 2. unfold byId at 1, ret at 1. cbn beta iota zeta.
    apply one_request. intros s. frame.
  - intros e He.
    assert (Ha : atomic (Script.refreshStats API)).
    { unfold Script.refreshStats, Script.deckId. cbv zeta.
      repeat (apply atomic_after_reading; [frame; apply api_keeps|intros]).
      apply atomic_update. }
    destruct (Script.refreshStats API env st) as [o st'] eqn:E.
    cbn [fst snd] in *. subst o. eapply Ha, E.
  - intros i Hi.
    assert (Hk : within (keeps notStats) (Script.refreshStats API)).
    { unfold Script.refreshStats, Script.deckId. frame; apply api_keeps. }
    apply Hk. destruct i; try reflexivity. congruence.
Qed.

Lemma refreshStats_all_or_nothing_witness :
  fst (Script.refreshStats App.API Scene.broken Scene.loaded) = Throw TypeError /\
  dom (snd (Script.refreshStats App.API Scene.broken Scene.loaded)) = dom Scene.loaded /\
  sent (snd (Script.refreshStats App.API Scene.study Scene.loaded)) =
    (sent Scene.loaded ++ [get App.API "/reflect/stats?deck_id=1"])%list /\
  Page.get Id.cardsTbody (dom (snd (Script.refreshStats App.API Scene.study Scene.loaded)))
    = Page.get Id.cardsTbody (dom Scene.loaded).
Proof.
  assert (Ht : fst (Script.refreshStats App.API Scene.broken Scene.loaded) =
               Throw TypeError) by by_running.
  split; [exact Ht|]. split.
  - pose proof (refreshStats_all_or_nothing App.API Scene.broken Scene.loaded) as H.
    cbn zeta in H. destruct H as (_ & H & _). apply (H TypeError Ht).
  - pose proof (refreshStats_all_or_nothing App.API Scene.study Scene.loaded) as H.
    cbn zeta in H. destruct H as (H1 & _ & H3). split.
    + rewrite H1. by_running.
    + apply H3. discriminate.
Defined.

(** X8: [refreshPosts] sends one request, writes to the list of posts
    only, keeps the session token, and when it throws (a failed request, an
    answer that is not a list, a [null] post) it has written nothing. *)
Theorem refreshPosts_all_or_nothing env st :
  let run := App.refreshPosts env st in
  sent (snd run) = (sent st ++ [get App.API "/posts"])%list /\
  (forall e, fst run = Throw e -> dom (snd run) = dom st) /\
  (forall i, i <> Id.postsList -> Page.get i (dom (snd run)) = Page.get i (dom st)) /\
  SOC_SESSION (snd run) = SOC_SESSION st.
Proof.
  cbn zeta. split; [|split; [|split]].
  - unfold App.refreshPosts, App.api. apply one_request. intros s.
    frame. apply within_mapM; [apply grows_refl|apply grows_trans|].
    intros p. frame.
  - intros e He.
    assert (Ha : atomic App.refreshPosts).
    { unfold App.refreshPosts, App.api.
      apply atomic_after_reading; [apply api_keeps|intros posts].
      apply atomic_after_reading; [frame|intros ps].
      apply atomic_after_reading; [|intros; apply atomic_update].
      apply within_mapM; [apply keeps_refl|apply keeps_trans|].
      intros p. frame. }
    destruct (App.refreshPosts env st) as [o st'] eqn:E.
    cbn [fst snd] in *. subst o. eapply Ha, E.
  - intros i Hi.
    assert (Hk : within (keeps notPosts) App.refreshPosts).
    { unfold App.refreshPosts, App.api. frame; try apply api_keeps.
      apply within_mapM; [apply keeps_refl|apply keeps_trans|].
      intros p. frame. }
    apply Hk. destruct i; try reflexivity. congruence.
  - assert (Hk : within sameSession App.refreshPosts).
    { unfold App.refreshPosts, App.api, Script.api. frames.
      apply within_mapM; [apply session_refl|apply session_trans|].
      intros p. frames. }
    apply Hk.
Qed.

Lemma refreshPosts_all_or_nothing_witness :
  fst (App.refreshPosts Scene.broken Sample.started) = Throw TypeError /\
  dom (snd (App.refreshPosts Scene.broken Sample.started)) = dom Sample.started /\
  Page.get Id.chatBox (dom (snd (App.refreshPosts Scene.study Sample.started))) =
    Page.get Id.chatBox (dom Sample.started) /\
  SOC_SESSION (snd (App.refreshPosts Scene.study Sample.started)) = JStr "s1".
Proof.
  assert (Ht : fst (App.refreshPosts Scene.broken Sample.started) = Throw TypeError)
    by by_running.
  split; [exact Ht|]. split.
  - pose proof (refreshPosts_all_or_nothing Scene.broken Sample.started) as H.
    cbn zeta in H. destruct H as (_ & H & _). apply (H TypeError Ht).
  - pose proof (refreshPosts_all_or_nothing Scene.study Sample.started) as H.
    cbn zeta in H. destruct H as (_ & _ & H3 & H4). split.
    + apply H3. discriminate.
    + rewrite H4. by_running.
Defined.

(** ** The deck selector and the extracted questions *)

Lemma each_appended i (build : JsVal -> Node) (f : JsVal -> M unit) env l :
  (forall x, nullish x = false -> f x = update i (El.appendChild (build x))) ->
  Forall (fun x => nullish x = false) l ->
  forall st,
    forEach l f env st = (Ret tt, withDom (appended i (map build l) (dom st)) st).
Proof.
  intros Hf. induction 1 as [|x r Hx Hr IH]; intros st.
  - cbn. rewrite appended_nil. destruct st; reflexivity.
  - cbn [forEach map]. unfold bind at 1. rewrite (Hf x Hx).
    unfold update at 1. cbn beta iota.
    change (withDom (Page.set i _ (dom st)) st)
      with (withDom (appended i [build x] (dom st)) st).
    rewrite IH. cbn [dom withDom]. rewrite appended_app. reflexivity.
Qed.

Lemma each_stops i (build : JsVal -> Node) (f : JsVal -> M unit) env pre c post :
  (forall x, nullish x = false -> f x = update i (El.appendChild (build x))) ->
  (forall st, f c env st = (Throw TypeError, st)) ->
  Forall (fun x => nullish x = false) pre ->
  forall st,
    forEach (pre ++ c :: post) f env st =
    (Throw TypeError, withDom (appended i (map build pre) (dom st)) st).
Proof.
  intros Hf Hc Hpre st. rewrite forEach_app. unfold bind at 1.
  rewrite (each_appended i build f env pre Hf Hpre).
  cbn [forEach]. unfold bind at 1. rewrite Hc. reflexivity.
Qed.

Lemma option_appended d :
  nullish d = false ->
  (let* id := prop d "id" in
   let* name := prop d "name" in
   update Id.deckSelect
     (El.appendChild
        (Created "option" "" (Js.toString id)
           (El.textNodes (Fmt.nullable name)) None))) =
  update Id.deckSelect (El.appendChild (optionFor d)).
Proof. intros H. rewrite !(prop_present _ _ H). reflexivity. Qed.

Lemma refreshDecks_run API env st :
  Script.refreshDecks API env st =
  match Script.api API "/decks" GET env st with
  | (Ret decks, st1) =>
      (let* ds := asArray decks in
       forEach ds (fun d =>
         let* id := prop d "id" in
         let* name := prop d "name" in
         update Id.deckSelect
           (El.appendChild
              (Created "option" "" (Js.toString id)
                 (El.textNodes (Fmt.nullable name)) None))) ;;
       match ds with
       | [] => ret tt
       | _ :: _ => detach (Script.refreshCards API) ;; detach (Script.refreshStats API)
       end) env (withDom (emptied Id.deckSelect (dom st1)) st1)
  | (Throw e, st1) => (Throw e, st1)
  end.
Proof.
  unfold Script.refreshDecks. unfold bind at 1.
  destruct (Script.api API "/decks" GET env st) as [[decks|e] st1]; reflexivity.
Qed.

Lemma refreshCards_sent API env st :
  sent (snd (Script.refreshCards API env st)) =
  (sent st ++ [get API (cardsPath (dom st))])%list.
Proof.
  unfold Script.refreshCards, Script.deckId, cardsPath, Forms.deckNumber,
    Forms.typed.
  unfold bind at 1 2 3. unfold byId at 1 2, ret at 1. cbn beta iota zeta.
  apply one_request. intros cards. unfold Script.cardRow. frame.
Qed.

Lemma refreshStats_sent API env st :
  sent (snd (Script.refreshStats API env st)) =
  (sent st ++ [get API (statsPath (dom st))])%list.
Proof.
  unfold Script.refreshStats, Script.deckId.
  unfold bind at 1 2. unfold byId at 1, ret at 1. cbn beta iota zeta.
  apply one_request. intros s. frame.
Qed.

Lemma refreshCards_keeps_rest API : within (keeps notCards) (Script.refreshCards API).
Proof.
  unfold Script.refreshCards, Script.cardRow, Script.deckId, Script.tagOrGeneral.
  frame; apply api_keeps.
Qed.

Lemma refreshStats_keeps_rest API : within (keeps notStats) (Script.refreshStats API).
Proof. unfold Script.refreshStats, Script.deckId. frame; apply api_keeps. Qed.

(** The two requests the refresh of the table and of the statistics sends
    read the deck and the tag filter as the page has them at the start. *)
Lemma refreshes_sent API env st :
  let fin := snd ((detach (Script.refreshCards API) ;;
                   detach (Script.refreshStats API)) env st) in
  sent fin = (sent st ++ [get API (cardsPath (dom st)); get API (statsPath (dom st))])%list /\
  (forall i, notViews i = true -> Page.get i (dom fin) = Page.get i (dom st)).
Proof.
  cbn zeta. unfold bind, detach. cbn [snd].
  pose proof (refreshCards_sent API env st) as Hc.
  pose proof (refreshCards_keeps_rest API env st) as Kc.
  set (st1 := snd (Script.refreshCards API env st)) in *.
  pose proof (refreshStats_sent API env st1) as Hs.
  pose proof (refreshStats_keeps_rest API env st1) as Ks.
  split.
  - rewrite Hs, Hc, <- app_assoc. cbn [app].
    unfold statsPath, Forms.deckNumber. rewrite (Kc Id.deckSelect eq_refl).
    reflexivity.
  - intros i Hi. rewrite Ks, Kc; [reflexivity| |]; destruct i; try reflexivity;
      discriminate.
Qed.

(** X9: when the backend answers [refreshDecks] with a list of decks, the
    selector ends up with one option per deck, in the order of the list,
    its value the deck's [id] and its text the deck's [name], and the first
    one selected.  For an empty list this one request is all: table and
    statistics are not refreshed.  Otherwise two more requests follow, for
    the cards and for the statistics of the deck now selected, and nothing
    but the selector, the table and the statistics has changed. *)
Theorem refreshDecks_lists_every_deck API env st ds :
  fst (Script.api API "/decks" GET env st) = Ret (JArr ds) ->
  Forall (fun d => nullish d = false) ds ->
  let run := Script.refreshDecks API env st in
  let listed := appended Id.deckSelect (map optionFor ds)
                  (emptied Id.deckSelect (dom st)) in
  fst run = Ret tt /\
  nodes (Page.get Id.deckSelect (dom (snd run))) = map optionFor ds /\
  selectedIndex (Page.get Id.deckSelect (dom (snd run))) = 0%nat /\
  sent (snd run) =
    (sent st ++ get API "/decks" ::
       match ds with
       | [] => []
       | _ :: _ => [get API (cardsPath listed); get API (statsPath listed)]
       end)%list /\
  (forall i, i <> Id.deckSelect -> notViews i = true ->
     Page.get i (dom (snd run)) = Page.get i (dom st)).
Proof.
  intros Hapi Hds. cbn zeta.
  pose proof (api_state API "/decks" GET env st) as Hs.
  fold (get API "/decks") in Hs.
  set (d1 := appended Id.deckSelect (map optionFor ds) (emptied Id.deckSelect (dom st))).
  set (st1 := withDom d1 (sending (get API "/decks") st)).
  assert (E : Script.refreshDecks API env st =
              match ds with
              | [] => (Ret tt, st1)
              | _ :: _ => (detach (Script.refreshCards API) ;;
                           detach (Script.refreshStats API)) env st1
              end).
  { rewrite refreshDecks_run.
    destruct (Script.api API "/decks" GET env st) as [[decks|e] st0];
      cbn [fst snd] in *; [|discriminate].
    injection Hapi as ->. subst st0.
    unfold bind at 1. cbn [asArray]. unfold ret at 1. cbn beta iota.
    unfold bind at 1.
    rewrite (each_appended Id.deckSelect optionFor _ env ds option_appended Hds).
    cbn [dom withDom sending]. destruct ds; reflexivity. }
  rewrite E. clear E.
  assert (Hn : nodes (Page.get Id.deckSelect d1) = map optionFor ds)
    by apply rendered_nodes.
  assert (Hi : selectedIndex (Page.get Id.deckSelect d1) = 0%nat).
  { unfold d1, appended, emptied. rewrite !get_set_same. reflexivity. }
  assert (Ho : forall i, i <> Id.deckSelect -> Page.get i d1 = Page.get i (dom st)).
  { intros i H. apply rendered_other. congruence. }
  destruct ds as [|d ds'].
  - cbn [fst snd]. conjs; try assumption.
    intros i H _. apply Ho, H.
  - destruct (refreshes_sent API env st1) as [Hsent Hkeep].
    split; [reflexivity|].
    rewrite !(Hkeep Id.deckSelect eq_refl).
    split; [exact Hn|]. split; [exact Hi|]. split.
    + rewrite Hsent. cbn [sent sending withDom st1 dom]. rewrite <- app_assoc.
      reflexivity.
    + intros i H Hv. rewrite (Hkeep i Hv). apply Ho, H.
Qed.

Lemma refreshDecks_lists_every_deck_witness :
  let run := Script.refreshDecks App.API Scene.study Sample.fresh in
  fst run = Ret tt /\
  nodes (Page.get Id.deckSelect (dom (snd run))) =
    [Created "option" "" "1" [Text "Maths"] None;
     Created "option" "" "2" [Text "Physics"] None] /\
  sent (snd run) =
    [get App.API "/decks"; get App.API "/cards?deck_id=1";
     get App.API "/reflect/stats?deck_id=1"] /\
  sent (snd (Script.refreshDecks App.API Sample.emptyDeck Sample.fresh)) =
    [get App.API "/decks"; get App.API "/cards?deck_id=1";
     get App.API "/reflect/stats?deck_id=1"].
Proof.
  cbn zeta.
  pose proof (refreshDecks_lists_every_deck App.API Scene.study Sample.fresh Scene.decks)
    as H.
  cbn zeta in H. destruct H as (H1 & H2 & _ & H4 & _); [by_running|repeat constructor|].
  split; [exact H1|]. split; [rewrite H2; by_running|]. split; [rewrite H4; by_running|].
  pose proof (refreshDecks_lists_every_deck App.API Sample.emptyDeck Sample.fresh
                [JObj [("id", JNum (Int 1)); ("name", JStr "Maths")]]) as H.
  cbn zeta in H. destruct H as (_ & _ & _ & H4' & _); [by_running|repeat constructor|].
  rewrite H4'. by_running.
Defined.

(** X10: how [refreshDecks] fails.  When its request fails the selector is
    kept.  When the answer is not a list the selector is left without
    options, so that the deck number the forms read is zero; when the list
    holds a [null] the selector is left with the options of the decks
    before it.  In each case nothing more is requested. *)
Theorem refreshDecks_failure_modes API env st :
  let run := Script.refreshDecks API env st in
  let rq := get API "/decks" in
  (forall e, fst (Script.api API "/decks" GET env st) = Throw e ->
     run = (Throw e, sending rq st)) /\
  (forall v, fst (Script.api API "/decks" GET env st) = Ret v ->
     (forall l, v <> JArr l) ->
     run = (Throw TypeError, withDom (emptied Id.deckSelect (dom st)) (sending rq st)) /\
     Forms.deckNumber (dom (snd run)) = JNum (Int 0)) /\
  (forall pre d post,
     fst (Script.api API "/decks" GET env st) = Ret (JArr (pre ++ d :: post)) ->
     Forall (fun d => nullish d = false) pre -> nullish d = true ->
     run = (Throw TypeError,
            withDom (appended Id.deckSelect (map optionFor pre)
                       (emptied Id.deckSelect (dom st))) (sending rq st))).
Proof.
  cbn zeta. rewrite refreshDecks_run.
  pose proof (api_state API "/decks" GET env st) as Hs.
  fold (get API "/decks") in Hs.
  destruct (Script.api API _ GET env st) as [[decks|e] st1];
    cbn [fst snd] in *; subst st1; (split; [|split]).
  - intros e; discriminate.
  - intros v [= <-] Hv.
    assert (E : forall k : list JsVal -> M unit,
              (let* ds := asArray decks in k ds) env
                (withDom (emptied Id.deckSelect (dom st)) (sending (get API "/decks") st)) =
              (Throw TypeError,
               withDom (emptied Id.deckSelect (dom st)) (sending (get API "/decks") st))).
    { intros k. destruct decks; try reflexivity. exfalso. eapply Hv; reflexivity. }
    rewrite E. split; [reflexivity|].
    unfold Forms.deckNumber, emptied. cbn [snd dom withDom].
    rewrite get_set_same. reflexivity.
  - intros pre d post [= ->] Hpre Hd.
    unfold bind at 1. cbn [asArray]. unfold ret at 1. cbn beta iota.
    unfold bind at 1.
    rewrite (each_stops Id.deckSelect optionFor _ env pre d post option_appended);
      [reflexivity| |exact Hpre].
    intros st0. destruct d; try discriminate; reflexivity.
  - intros e' [= <-]. reflexivity.
  - intros v; discriminate.
  - intros pre d post; discriminate.
Qed.

Lemma refreshDecks_failure_modes_witness :
  Script.refreshDecks App.API Sample.down Sample.fresh =
    (Throw (Error "Internal Server Error"),
     sending (get App.API "/decks") Sample.fresh) /\
  fst (Script.refreshDecks App.API Sample.textOnly Sample.fresh) = Throw TypeError /\
  Forms.deckNumber (dom Sample.fresh) = JNum (Int 1) /\
  Forms.deckNumber (dom (snd (Script.refreshDecks App.API Sample.textOnly Sample.fresh)))
    = JNum (Int 0) /\
  Script.refreshDecks App.API Scene.broken Sample.fresh =
    (Throw TypeError,
     withDom (appended Id.deckSelect [Created "option" "" "1" [Text "Maths"] None]
                (emptied Id.deckSelect (dom Sample.fresh)))
       (sending (get App.API "/decks") Sample.fresh)).
Proof.
  pose proof (refreshDecks_failure_modes App.API Sample.down Sample.fresh) as Hd.
  pose proof (refreshDecks_failure_modes App.API Sample.textOnly Sample.fresh) as Ht.
  pose proof (refreshDecks_failure_modes App.API Scene.broken Sample.fresh) as Hb.
  cbn zeta in Hd, Ht, Hb.
  destruct Hd as (Hd & _). destruct Ht as (_ & Ht & _). destruct Hb as (_ & _ & Hb).
  split; [apply (Hd (Error "Internal Server Error")); by_running|].
  destruct (Ht (JStr "pong")) as (Ht1 & Ht2); [by_running|discriminate|].
  split; [rewrite Ht1; reflexivity|]. split; [by_running|]. split; [exact Ht2|].
  apply (Hb [JObj [("id", JNum (Int 1)); ("name", JStr "Maths")]] JNull
            [JObj [("id", JNum (Int 2)); ("name", JStr "Physics")]]);
    [by_running|repeat constructor|reflexivity].
Defined.


Lemma ingestPdf_run API env st :
  Script.ingestPdf API env st =
  match files (Page.get Id.pdfFile (dom st)) with
  | [] => (Ret tt, st)
  | f :: _ =>
      match backend env (sent st) (ingestRequest API f) with
      | Unreachable => (Throw TypeError, sending (ingestRequest API f) st)
      | Responded res =>
          match json res with
          | None => (Throw SyntaxError, sending (ingestRequest API f) st)
          | Some data =>
              (let* qa := prop data "qa" in
               let* items := asArray qa in
               forEach items (fun item =>
                 let* q := prop item "q" in
                 let* a := prop item "a" in
                 update Id.qaList
                   (El.appendChild
                      (Created "div" "box" ""
                         [Markup (Script.qaMarkup q a)] (Some item)))))
                env (withDom (emptied Id.qaList (dom st))
                       (sending (ingestRequest API f) st))
          end
      end
  end.
Proof.
  unfold Script.ingestPdf. unfold bind at 1. unfold byId at 1. cbn beta iota.
  destruct (files (Page.get Id.pdfFile (dom st))) as [|f fs]; [reflexivity|].
  unfold bind at 1. unfold fetch at 1. cbn beta iota zeta.
  fold (ingestRequest API f).
  destruct (backend env (sent st) (ingestRequest API f)) as [res|]; [|reflexivity].
  unfold bind at 1. unfold resJson at 1.
  destruct (json res) as [data|]; reflexivity.
Qed.

(** X11: without a chosen file [ingestPdf] does nothing.  With files
    chosen it sends exactly one request, the upload of the first file, and
    writes to the list of extracted questions only; when the backend cannot
    be reached, or its answer is not JSON, it throws with the page as it
    was. *)
Theorem ingestPdf_uploads_first_file API env st :
  let run := Script.ingestPdf API env st in
  (files (Page.get Id.pdfFile (dom st)) = [] -> run = (Ret tt, st)) /\
  (forall f fs, files (Page.get Id.pdfFile (dom st)) = f :: fs ->
     sent (snd run) = (sent st ++ [ingestRequest API f])%list /\
     (forall i, i <> Id.qaList -> Page.get i (dom (snd run)) = Page.get i (dom st)) /\
     (backend env (sent st) (ingestRequest API f) = Unreachable ->
        run = (Throw TypeError, sending (ingestRequest API f) st)) /\
     (forall res, backend env (sent st) (ingestRequest API f) = Responded res ->
        json res = None ->
        run = (Throw SyntaxError, sending (ingestRequest API f) st))).
Proof.
  cbn zeta. rewrite ingestPdf_run.
  split; [intros ->; reflexivity|]. intros f fs ->.
  set (rq := ingestRequest API f).
  destruct (backend env (sent st) rq) as [res|].
  - destruct (json res) as [data|] eqn:Hj.
    + set (k := (let* qa := prop data "qa" in _)).
      assert (Hg : within (grows silent) k) by (unfold k; frame).
      assert (Hk : within (keeps (fun i => negb (bool_decide (i = Id.qaList)))) k).
      { unfold k. frame. }
      set (st1 := withDom (emptied Id.qaList (dom st)) (sending rq st)).
      split; [|split; [|split]].
      * rewrite (silent_sent _ _ (Hg env st1)). reflexivity.
      * intros i Hi. rewrite (Hk env st1 i).
        -- unfold st1, emptied. cbn [dom withDom sending].
           apply get_set_other. congruence.
        -- apply negb_true_iff, bool_decide_eq_false_2, Hi.
      * discriminate.
      * intros res' [= <-]. congruence.
    + cbn [snd sent sending dom]. conjs; try discriminate; reflexivity.
  - cbn [snd sent sending dom]. conjs; try discriminate; reflexivity.
Qed.

Lemma ingestPdf_uploads_first_file_witness :
  Script.ingestPdf App.API Scene.study Sample.fresh = (Ret tt, Sample.fresh) /\
  files (Page.get Id.pdfFile (dom Scene.chosen)) = [Scene.notes; Scene.slides] /\
  sent (snd (Script.ingestPdf App.API Scene.study Scene.chosen)) =
    [ingestRequest App.API Scene.notes] /\
  Script.ingestPdf App.API Sample.textOnly Scene.chosen =
    (Throw SyntaxError, sending (ingestRequest App.API Scene.notes) Scene.chosen) /\
  Script.ingestPdf App.API
    {| backend := fun _ _ => Unreachable; toLocaleString := fun iso => iso |}
    Scene.chosen =
    (Throw TypeError, sending (ingestRequest App.API Scene.notes) Scene.chosen).
Proof.
  split; [|split; [by_running|]].
  - apply (proj1 (ingestPdf_uploads_first_file App.API Scene.study Sample.fresh)). by_running.
  - pose proof (proj2 (ingestPdf_uploads_first_file App.API Scene.study Scene.chosen)
                  Scene.notes [Scene.slides]) as H1.
    pose proof (proj2 (ingestPdf_uploads_first_file App.API Sample.textOnly Scene.chosen)
                  Scene.notes [Scene.slides]) as H2.
    pose proof (proj2 (ingestPdf_uploads_first_file App.API
                         {| backend := fun _ _ => Unreachable;
                            toLocaleString := fun iso => iso |} Scene.chosen)
                  Scene.notes [Scene.slides]) as H3.
    cbn zeta in H1, H2, H3.
    destruct H1 as (H1 & _); [by_running|]. destruct H2 as (_ & _ & _ & H2); [by_running|].
    destruct H3 as (_ & _ & H3 & _); [by_running|].
    split; [rewrite H1; by_running|]. split.
    + eapply H2; by_running.
    + apply H3. by_running.
Defined.




(** ** The page as a whole: sequences of events *)

Lemma backend_fetch path o : within (grows Wiring.toBackend) (fetch (App.API ++ path) o).
Proof. apply grows_fetch. exists path. reflexivity. Qed.

Ltac backend_step :=
  lazymatch goal with
  | |- within (grows Wiring.toBackend) (fetch _ _) => apply backend_fetch
  | |- within _ (App.mapM _ _) =>
      apply within_mapM; [eauto with frame | eauto with frame | intros ]
  end.

Ltac opened :=
  unfold Wiring.onDeckChange, Wiring.onChatKeydown, Wiring.onAddAsCard,
    App.refreshDecks, App.createDeck, App.addCard, App.loadNext,
    App.submitResult, App.showAnswer, App.ingestPdf, App.refreshCards,
    App.refreshStats, App.openSidekick, App.startSidekick,
    App.sendSidekickAnswer, App.postNote, App.refreshPosts, App.api,
    Script.refreshDecks, Script.createDeck, Script.addCard, Script.loadNext,
    Script.submitResult, Script.showAnswer, Script.ingestPdf, Script.addAsCard,
    Script.refreshCards, Script.refreshStats, Script.cardRow, Script.deckId,
    Script.tagOrGeneral, Script.api.

Ltac framed :=
  repeat first [progress opened | progress cbv beta zeta
               | backend_step | frame_step | session_step].

Lemma handle_to_backend ev : within (grows Wiring.toBackend) (Wiring.handle ev).
Proof. destruct ev; cbn [Wiring.handle]; framed. Qed.

Lemma handle_keeps_session ev :
  ev <> Wiring.StartSidekickClicked -> within sameSession (Wiring.handle ev).
Proof. intros H. destruct ev; try congruence; cbn [Wiring.handle]; framed. Qed.

Lemma handle_keeps_page ev :
  within (keeps (fun i => negb (Wiring.isSidekick i)))
    (if Wiring.isDialogueEvent ev then Wiring.handle ev else ret tt) /\
  within (keeps Wiring.isSidekick)
    (if Wiring.isDialogueEvent ev then ret tt else Wiring.handle ev).
Proof.
  split; destruct ev as [i s| | | | | | | | | | | | | | |];
    cbn [Wiring.handle Wiring.isDialogueEvent]; try destruct i;
    cbn [Wiring.isSidekick]; framed.
Qed.

Lemma run_within (I : State -> State -> Prop) (ok : Wiring.Event -> Prop) :
  (forall st, I st st) -> (forall a b c, I a b -> I b c -> I a c) ->
  (forall ev, ok ev -> within I (Wiring.handle ev)) ->
  forall evs env st, Forall ok evs -> I st (Wiring.run evs env st).
Proof.
  intros Hrefl Htrans Hstep evs env. induction evs as [|ev evs IH]; intros st Hok.
  - apply Hrefl.
  - inversion Hok as [|? ? Hev Hrest]; subst. cbn [Wiring.run].
    eapply Htrans; [apply (Hstep ev Hev env st)|apply IH, Hrest].
Qed.

(** X13: whatever the user does, in whatever order, every request the page
    sends goes to an address under the [API] base. *)
Theorem requests_go_to_backend evs env st :
  exists later,
    sent (Wiring.run evs env st) = (sent st ++ later)%list /\
    Forall Wiring.toBackend later.
Proof.
  apply (run_within (grows Wiring.toBackend) (fun _ => True)).
  - apply grows_refl.
  - apply grows_trans.
  - intros ev _. apply handle_to_backend.
  - clear. induction evs; constructor; auto.
Qed.

(** X14: the session token changes in [startSidekick] and nowhere else:
    any sequence of events without a click on the start button leaves it
    as it was, replies that complete a dialogue and posted notes
    included. *)
Theorem session_set_by_start_only evs env st :
  Forall (fun ev => ev <> Wiring.StartSidekickClicked) evs ->
  SOC_SESSION (Wiring.run evs env st) = SOC_SESSION st.
Proof.
  apply (run_within sameSession).
  - apply session_refl.
  - apply session_trans.
  - apply handle_keeps_session.
Qed.

Lemma session_set_by_start_only_witness :
  let evs := [Wiring.Typed Id.chatInput "Because sunlight"; Wiring.ChatSendClicked;
              Wiring.PostNoteClicked; Wiring.OpenSidekickClicked;
              Wiring.LoadNextClicked; Wiring.ResultClicked "good"] in
  Forall (fun ev => ev <> Wiring.StartSidekickClicked) evs /\
  value (Page.get Id.sidekickOutput (dom (Wiring.run evs Sample.tutor Sample.started)))
    = "Notes" /\
  SOC_SESSION (Wiring.run evs Sample.tutor Sample.started) = JStr "s1".
Proof.
  cbn zeta.
  assert (H : Forall (fun ev => ev <> Wiring.StartSidekickClicked)
                [Wiring.Typed Id.chatInput "Because sunlight"; Wiring.ChatSendClicked;
                 Wiring.PostNoteClicked; Wiring.OpenSidekickClicked;
                 Wiring.LoadNextClicked; Wiring.ResultClicked "good"])
    by (repeat constructor; discriminate).
  split; [exact H|]. split; [by_running|].
  rewrite (session_set_by_start_only _ Sample.tutor Sample.started H). by_running.
Defined.

(** X15: the two halves of the page do not touch each other.  Events of
    the sidekick pane leave every element outside the pane as it was: the
    forms, the deck selector, the review boxes, the table and the
    statistics.  All other events leave the elements of the pane as they
    were. *)
Theorem panes_are_independent evs env st :
  (Forall (fun ev => Wiring.isDialogueEvent ev = true) evs ->
   forall i, Wiring.isSidekick i = false ->
     Page.get i (dom (Wiring.run evs env st)) = Page.get i (dom st)) /\
  (Forall (fun ev => Wiring.isDialogueEvent ev = false) evs ->
   forall i, Wiring.isSidekick i = true ->
     Page.get i (dom (Wiring.run evs env st)) = Page.get i (dom st)).
Proof.
  split; intros Hevs i Hi.
  - apply (run_within (keeps (fun i => negb (Wiring.isSidekick i)))
             (fun ev => Wiring.isDialogueEvent ev = true));
      [apply keeps_refl|apply keeps_trans| |exact Hevs|rewrite Hi; reflexivity].
    intros ev Hev. pose proof (proj1 (handle_keeps_page ev)) as H.
    rewrite Hev in H. exact H.
  - apply (run_within (keeps Wiring.isSidekick)
             (fun ev => Wiring.isDialogueEvent ev = false));
      [apply keeps_refl|apply keeps_trans| |exact Hevs|exact Hi].
    intros ev Hev. pose proof (proj2 (handle_keeps_page ev)) as H.
    rewrite Hev in H. exact H.
Qed.

Lemma panes_are_independent_witness :
  let talk := [Wiring.Typed Id.sidekickTopic "Photosynthesis";
               Wiring.StartSidekickClicked;
               Wiring.Typed Id.chatInput "Because sunlight";
               Wiring.ChatKeydown "Enter"; Wiring.PostNoteClicked] in
  let study := [Wiring.DOMContentLoaded; Wiring.Typed Id.question "What is a cell?";
                Wiring.Typed Id.answer "The unit of life"; Wiring.AddCardClicked;
                Wiring.LoadNextClicked; Wiring.ShowAnswerClicked;
                Wiring.ResultClicked "good"] in
  (Forall (fun ev => Wiring.isDialogueEvent ev = true) talk /\
   length (sent (Wiring.run talk Sample.tutor Sample.loaded42)) = 4%nat /\
   Page.get Id.reviewQ (dom (Wiring.run talk Sample.tutor Sample.loaded42)) =
     Page.get Id.reviewQ (dom Sample.loaded42)) /\
  (Forall (fun ev => Wiring.isDialogueEvent ev = false) study /\
   length (sent (Wiring.run study Sample.lastCard Sample.started)) = 12%nat /\
   Page.get Id.chatBox (dom (Wiring.run study Sample.lastCard Sample.started)) =
     Page.get Id.chatBox (dom Sample.started)).
Proof.
  cbn zeta. split.
  - assert (H : Forall (fun ev => Wiring.isDialogueEvent ev = true)
                  [Wiring.Typed Id.sidekickTopic "Photosynthesis";
                   Wiring.StartSidekickClicked;
                   Wiring.Typed Id.chatInput "Because sunlight";
                   Wiring.ChatKeydown "Enter"; Wiring.PostNoteClicked])
      by (repeat constructor).
    split; [exact H|]. split; [by_running|].
    apply (proj1 (panes_are_independent _ Sample.tutor Sample.loaded42) H). reflexivity.
  - assert (H : Forall (fun ev => Wiring.isDialogueEvent ev = false)
                  [Wiring.DOMContentLoaded; Wiring.Typed Id.question "What is a cell?";
                   Wiring.Typed Id.answer "The unit of life"; Wiring.AddCardClicked;
                   Wiring.LoadNextClicked; Wiring.ShowAnswerClicked;
                   Wiring.ResultClicked "good"])
      by (repeat constructor).
    split; [exact H|]. split; [by_running|].
    apply (proj2 (panes_are_independent _ Sample.lastCard Sample.started) H). reflexivity.
Defined.

(** ** The deck picked, the card shown, the sidekick pane *)

(** The values of the options [refreshDecks] lists for the decks [ds]. *)
Lemma optionValues_listed e ds :
  nodes e = map optionFor ds ->
  El.optionValues e = map (fun d => Js.toString (field "id" d)) ds.
Proof.
  unfold El.optionValues. intros ->. induction ds as [|d ds IH]; [reflexivity|].
  cbn [map flat_map optionFor app]. rewrite IH. reflexivity.
Qed.

Lemma number_of_numeral z : Js.Number (JStr (Js.toString (JNum (Int z)))) = JNum (Int z).
Proof.
  unfold Js.Number, Js.toNumber. cbn [Js.toPrimitive Js.toString].
  rewrite stringToNumber_numToString. reflexivity.
Qed.

Lemma deckNumber_listed d ds n dk z :
  nodes (Page.get Id.deckSelect d) = map optionFor ds ->
  selectedIndex (Page.get Id.deckSelect d) = n ->
  nth_error ds n = Some dk -> field "id" dk = JNum (Int z) ->
  Forms.deckNumber d = JNum (Int z).
Proof.
  intros Hn Hi Hk Hz. unfold Forms.deckNumber, El.selectValue.
  rewrite (optionValues_listed _ ds Hn), Hi.
  rewrite (nth_error_nth _ n "" (x := Js.toString (field "id" dk))).
  - rewrite Hz. apply number_of_numeral.
  - rewrite nth_error_map, Hk. reflexivity.
Qed.

(** X16: the deck's number survives the trip through the option's value.
    On a selector listing the decks [ds], picking the [n]-th option makes
    the deck number the forms read the [id] of the [n]-th deck, and sends
    two requests, for the cards and for the statistics of that deck. *)
Theorem picking_a_deck_queries_it env st ds n dk z :
  nodes (Page.get Id.deckSelect (dom st)) = map optionFor ds ->
  nth_error ds n = Some dk -> field "id" dk = JNum (Int z) ->
  let fin := snd (Wiring.handle (Wiring.DeckPicked n) env st) in
  let deck := Fmt.entryIf "deck_id" (JNum (Int z)) in
  Forms.deckNumber (dom fin) = JNum (Int z) /\
  sent fin =
    (sent st ++
     [get App.API
        ("/cards?" ++
         Fmt.URLSearchParams
           (deck ++ Fmt.entryIf "tag" (JStr (Forms.typed Id.tagFilter (dom st)))));
      get App.API ("/reflect/stats?" ++ Fmt.URLSearchParams deck)])%list.
Proof.
  intros Hn Hk Hz. cbn zeta.
  set (st1 := withDom (Page.set Id.deckSelect
                         (Wiring.setSelectedIndex n (Page.get Id.deckSelect (dom st)))
                         (dom st)) st).
  assert (E : Wiring.handle (Wiring.DeckPicked n) env st =
              (detach (Script.refreshCards App.API) ;;
               detach (Script.refreshStats App.API)) env st1) by reflexivity.
  rewrite E. clear E.
  assert (Hd : Forms.deckNumber (dom st1) = JNum (Int z)).
  { apply (deckNumber_listed _ ds n dk z); [| |exact Hk|exact Hz];
      unfold st1; cbn [dom withDom]; rewrite get_set_same; [exact Hn|reflexivity]. }
  assert (Ht : Forms.typed Id.tagFilter (dom st1) = Forms.typed Id.tagFilter (dom st)).
  { unfold Forms.typed, st1. cbn [dom withDom].
    rewrite get_set_other by discriminate. reflexivity. }
  destruct (refreshes_sent App.API env st1) as [Hsent Hkeep].
  split.
  - unfold Forms.deckNumber in *. rewrite (Hkeep Id.deckSelect eq_refl). exact Hd.
  - rewrite Hsent. unfold cardsPath, statsPath. rewrite Hd, Ht. reflexivity.
Qed.

Lemma picking_a_deck_queries_it_witness :
  let fin := snd (Wiring.handle (Wiring.DeckPicked 1) Scene.study Scene.loaded) in
  nodes (Page.get Id.deckSelect (dom Scene.loaded)) = map optionFor Scene.decks /\
  Forms.deckNumber (dom Scene.loaded) = JNum (Int 1) /\
  Forms.deckNumber (dom fin) = JNum (Int 2) /\
  sent fin =
    (sent Scene.loaded ++
     [get App.API "/cards?deck_id=2"; get App.API "/reflect/stats?deck_id=2"])%list.
Proof.
  cbn zeta.
  assert (H : nodes (Page.get Id.deckSelect (dom Scene.loaded)) =
              map optionFor Scene.decks) by by_running.
  split; [exact H|]. split; [by_running|].
  pose proof (picking_a_deck_queries_it Scene.study Scene.loaded Scene.decks 1
                (JObj [("id", JNum (Int 2)); ("name", JStr "Physics")]) 2
                H eq_refl eq_refl) as P.
  cbn zeta in P. destruct P as (P1 & P2).
  split; [exact P1|]. rewrite P2. by_running.
Defined.

Lemma loadNext_sent API env st :
  sent (snd (Script.loadNext API env st)) =
  (sent st ++ [get API (Review.nextPath (dom st))])%list.
Proof.
  rewrite loadNext_run.
  pose proof (api_state API (Review.nextPath (dom st)) GET env st) as Hs.
  destruct (Script.api API _ GET env st) as [[card|e] st1]; cbn [snd] in *;
    subst st1; reflexivity.
Qed.

(** X17: with nothing selected in the deck selector the three queries
    differ: [loadNext] asks for deck [0], while [refreshCards] and
    [refreshStats] leave the deck out of the query. *)
Theorem without_a_deck API env st :
  El.selectValue (Page.get Id.deckSelect (dom st)) = "" ->
  let tag := Fmt.entryIf "tag" (JStr (Forms.typed Id.tagFilter (dom st))) in
  sent (snd (Script.loadNext API env st)) =
    (sent st ++
     [get API ("/review/next?" ++ Fmt.URLSearchParams (("deck_id", "0") :: tag))])%list /\
  sent (snd (Script.refreshCards API env st)) =
    (sent st ++ [get API ("/cards?" ++ Fmt.URLSearchParams tag)])%list /\
  sent (snd (Script.refreshStats API env st)) =
    (sent st ++ [get API "/reflect/stats?"])%list.
Proof.
  intros Hv. cbn zeta.
  rewrite loadNext_sent, refreshCards_sent, refreshStats_sent.
  unfold Review.nextPath, cardsPath, statsPath, Forms.deckNumber, Forms.typed.
  rewrite Hv. conjs.
Qed.

Lemma without_a_deck_witness :
  let st := Sample.type Id.tagFilter "cell biology" (withDom Page.blank Sample.fresh) in
  El.selectValue (Page.get Id.deckSelect (dom st)) = "" /\
  sent (snd (Script.loadNext App.API Scene.study st)) =
    [get App.API "/review/next?deck_id=0&tag=cell+biology"] /\
  sent (snd (Script.refreshCards App.API Scene.study st)) =
    [get App.API "/cards?tag=cell+biology"] /\
  sent (snd (Script.refreshStats App.API Scene.study st)) =
    [get App.API "/reflect/stats?"].
Proof.
  cbn zeta. split; [by_running|].
  pose proof (without_a_deck App.API Scene.study
                (Sample.type Id.tagFilter "cell biology"
                   (withDom Page.blank Sample.fresh))) as H.
  cbn zeta in H. destruct H as (H1 & H2 & H3); [by_running|].
  split; [rewrite H1; by_running|]. split; [rewrite H2; by_running|]. rewrite H3; by_running.
Defined.

(** What [submitResult] makes of a stored identifier that is not the
    numeral of a number other than zero. *)
Lemma loadedCard_of_text d s :
  cardId (Page.get Id.reviewQ d) = Some s ->
  Js.truthy (Js.Number (Js.or (JStr s) (JNum (Int 0)))) = false ->
  Review.loadedCard d = None.
Proof.
  intros Hc Hs. unfold Review.loadedCard, Script.datasetCardId. rewrite Hc.
  unfold Js.Number in Hs.
  destruct (Js.toNumber _) as [[|p|p]|]; try reflexivity; discriminate.
Qed.

(** X18: a due card whose [id] is missing, [null] or [0] is shown by
    [loadNext] like any other, but [submitResult] then does nothing,
    whatever the result clicked. *)
Theorem card_without_number_cannot_be_graded API env st card st1 :
  Script.api API (Review.nextPath (dom st)) GET env st = (Ret card, st1) ->
  Js.truthy card = true ->
  field "id" card = JUndefined \/ field "id" card = JNull \/
  field "id" card = JNum (Int 0) ->
  exists st',
    Script.loadNext API env st = (Ret tt, st') /\
    nodes (Page.get Id.reviewQ (dom st')) =
      El.textNodes (Fmt.nullable (field "question" card)) /\
    forall result env', Script.submitResult API result env' st' = (Ret tt, st').
Proof.
  intros Hapi Ht Hid. rewrite loadNext_run, Hapi, Ht.
  eexists. split; [reflexivity|]. cbn [dom withDom]. split.
  - unfold Effect.showCard. rewrite get_set_same. reflexivity.
  - intros result env'. rewrite submitResult_run. cbn [dom withDom].
    rewrite (loadedCard_of_text _ (Js.toString (field "id" card))); [reflexivity| |].
    + unfold Effect.showCard. rewrite get_set_same. reflexivity.
    + destruct Hid as [-> | [-> | ->]]; reflexivity.
Qed.

Lemma card_without_number_cannot_be_graded_witness :
  field "id" Scene.unnumbered = JNum (Int 0) /\
  exists st',
    Script.loadNext App.API Scene.study Sample.fresh = (Ret tt, st') /\
    nodes (Page.get Id.reviewQ (dom st')) = [Text "Unnumbered?"] /\
    Script.submitResult App.API "good" Scene.study st' = (Ret tt, st').
Proof.
  split; [reflexivity|].
  destruct (card_without_number_cannot_be_graded App.API Scene.study Sample.fresh
              Scene.unnumbered
              (sending (get App.API "/review/next?deck_id=1") Sample.fresh))
    as (st' & Hrun & Hq & Hs); [by_running|by_running|right; right; reflexivity|].
  exists st'. split; [exact Hrun|]. split; [rewrite Hq; reflexivity|].
  apply Hs.
Defined.

Lemma refreshPosts_sent env st :
  sent (snd (App.refreshPosts env st)) = (sent st ++ [get App.API "/posts"])%list.
Proof.
  unfold App.refreshPosts, App.api. apply one_request. intros s.
  frame. apply within_mapM; [apply grows_refl|apply grows_trans|].
  intros p. frame.
Qed.

Lemma refreshPosts_keeps_rest : within (keeps notPosts) App.refreshPosts.
Proof.
  unfold App.refreshPosts, App.api. frame; try apply api_keeps.
  apply within_mapM; [apply keeps_refl|apply keeps_trans|].
  intros p. frame.
Qed.

Lemma refreshPosts_keeps_session : within sameSession App.refreshPosts.
Proof.
  unfold App.refreshPosts, App.api, Script.api. frames.
  apply within_mapM; [apply session_refl|apply session_trans|].
  intros p. frames.
Qed.

Lemma openSidekick_run env st :
  App.openSidekick env st =
  if String.eqb (display (Page.get Id.sidekickPane (dom st))) "none"
  then (Ret tt, snd (App.refreshPosts env (withDom (shown "block" (dom st)) st)))
  else (Ret tt, withDom (shown "none" (dom st)) st).
Proof.
  unfold App.openSidekick. unfold bind at 1. unfold byId at 1. cbn beta iota.
  unfold bind at 1. unfold update at 1. cbn beta iota.
  unfold bind at 1. unfold byId at 1. cbn beta iota. cbn [dom withDom].
  rewrite get_set_same.
  destruct (String.eqb (display (Page.get Id.sidekickPane (dom st))) "none");
    reflexivity.
Qed.

(** X19: the button of the sidekick pane.  A pane whose display is
    ["none"] is shown, and the posts are requested; a pane with any other
    display, the empty one of a page that never set it included, is hidden
    and nothing is requested.  Nothing but the pane and the list of posts is
    written, and the handler never throws. *)
Theorem openSidekick_toggles env st :
  let pane d := display (Page.get Id.sidekickPane d) in
  let fin := snd (App.openSidekick env st) in
  fst (App.openSidekick env st) = Ret tt /\
  (pane (dom st) = "none" ->
     pane (dom fin) = "block" /\
     sent fin = (sent st ++ [get App.API "/posts"])%list) /\
  (pane (dom st) <> "none" ->
     fin = withDom (shown "none" (dom st)) st) /\
  (forall i, i <> Id.sidekickPane -> i <> Id.postsList ->
     Page.get i (dom fin) = Page.get i (dom st)) /\
  SOC_SESSION fin = SOC_SESSION st.
Proof.
  cbn zeta. rewrite openSidekick_run.
  destruct (String.eqb_spec (display (Page.get Id.sidekickPane (dom st))) "none")
    as [E|E]; cbn [fst snd].
  - set (st1 := withDom (shown "block" (dom st)) st).
    split; [reflexivity|]. split; [|split; [|split]].
    + intros _. split.
      * rewrite (refreshPosts_keeps_rest env st1 Id.sidekickPane eq_refl).
        unfold st1, shown. cbn [dom withDom]. rewrite get_set_same. reflexivity.
      * rewrite refreshPosts_sent. reflexivity.
    + intros H. contradiction.
    + intros i H1 H2. rewrite (refreshPosts_keeps_rest env st1 i).
      * unfold st1, shown. cbn [dom withDom]. apply get_set_other. congruence.
      * destruct i; try reflexivity. congruence.
    + rewrite (refreshPosts_keeps_session env st1). reflexivity.
  - split; [reflexivity|]. split; [|split; [|split]].
    + intros H. contradiction.
    + reflexivity.
    + intros i H1 H2. unfold shown. cbn [dom withDom]. apply get_set_other. congruence.
    + reflexivity.
Qed.

Lemma openSidekick_toggles_witness :
  display (Page.get Id.sidekickPane (dom Scene.hidden)) = "none" /\
  display (Page.get Id.sidekickPane (dom (snd (App.openSidekick Scene.study Scene.hidden))))
    = "block" /\
  sent (snd (App.openSidekick Scene.study Scene.hidden)) = [get App.API "/posts"] /\
  display (Page.get Id.sidekickPane (dom Sample.fresh)) = "" /\
  snd (App.openSidekick Scene.study Sample.fresh) =
    withDom (shown "none" (dom Sample.fresh)) Sample.fresh.
Proof.
  pose proof (openSidekick_toggles Scene.study Scene.hidden) as H.
  pose proof (openSidekick_toggles Scene.study Sample.fresh) as H'.
  cbn zeta in H, H'.
  destruct H as (_ & H & _). destruct H' as (_ & _ & H' & _).
  destruct H as (H1 & H2); [by_running|].
  split; [by_running|]. split; [exact H1|]. split; [rewrite H2; by_running|]. split; [by_running|].
  apply H'. by_running.
Defined.

Lemma postNote_run env st :
  App.postNote env st =
  if Str.is_empty (Forms.typed Id.sidekickOutput (dom st)) then (Ret tt, st)
  else
    match App.api "/posts" (opts (noteRequest (dom st))) env st with
    | (Ret _, st1) => App.refreshPosts env st1
    | (Throw e, st1) => (Throw e, st1)
    end.
Proof.
  unfold App.postNote, noteRequest, noteTitle, Forms.typed.
  unfold bind at 1. unfold byId at 1. cbn beta iota zeta.
  unfold bind at 1. unfold byId at 1. cbn beta iota zeta.
  destruct (Str.is_empty (Str.trim (value (Page.get Id.sidekickOutput (dom st)))));
    [reflexivity|].
  unfold bind at 1. cbn [opts].
  replace (Js.or (JStr (Str.trim (value (Page.get Id.sidekickTitle (dom st)))))
             (JStr "My Learning Note"))
    with (JStr (if Str.is_empty (Str.trim (value (Page.get Id.sidekickTitle (dom st))))
                then "My Learning Note"
                else Str.trim (value (Page.get Id.sidekickTitle (dom st)))))
    by (destruct (Str.trim _); reflexivity).
  destruct (App.api "/posts" _ env st) as [[v|e] st1]; reflexivity.
Qed.

(** X20: [postNote] does nothing when the draft is blank.  Otherwise it
    sends the POST [/posts] with the trimmed draft and the trimmed title,
    ["My Learning Note"] for a blank one; when that fails it throws and
    nothing more is sent, when it succeeds the posts are requested next.
    The draft and the title stay in their fields, and the session token is
    kept. *)
Theorem postNote_posts_then_lists env st :
  let run := App.postNote env st in
  let rq := noteRequest (dom st) in
  (Forms.typed Id.sidekickOutput (dom st) = "" -> run = (Ret tt, st)) /\
  (Forms.typed Id.sidekickOutput (dom st) <> "" ->
     (forall e, fst (App.api "/posts" (opts rq) env st) = Throw e ->
        run = (Throw e, sending rq st)) /\
     (forall v, fst (App.api "/posts" (opts rq) env st) = Ret v ->
        sent (snd run) = (sent st ++ [rq; get App.API "/posts"])%list)) /\
  (forall i, i <> Id.postsList -> Page.get i (dom (snd run)) = Page.get i (dom st)) /\
  SOC_SESSION (snd run) = SOC_SESSION st.
Proof.
  cbn zeta. rewrite postNote_run.
  pose proof (api_state App.API "/posts" (opts (noteRequest (dom st))) env st) as Hs.
  change {| url := App.API ++ "/posts"; opts := opts (noteRequest (dom st)) |}
    with (noteRequest (dom st)) in Hs.
  fold App.api in Hs.
  destruct (Str.is_empty (Forms.typed Id.sidekickOutput (dom st))) eqn:E.
  - apply is_empty_spec in E. conjs. intros H. contradiction.
  - assert (E' : Forms.typed Id.sidekickOutput (dom st) <> "").
    { intros H. apply is_empty_spec in H. congruence. }
    destruct (App.api "/posts" _ env st) as [[v|e] st1]; cbn [fst snd] in *; subst st1.
    + set (st1 := sending (noteRequest (dom st)) st).
      split; [intros H; contradiction|]. split; [|split].
      * intros _. split; [intros e; discriminate|].
        intros v' _. rewrite refreshPosts_sent. unfold st1. cbn [sent sending].
        rewrite <- app_assoc. reflexivity.
      * intros i Hi. rewrite (refreshPosts_keeps_rest env st1 i); [reflexivity|].
        destruct i; try reflexivity. congruence.
      * rewrite (refreshPosts_keeps_session env st1). reflexivity.
    + split; [intros H; contradiction|]. split; [|split]; try reflexivity.
      intros _. split; [intros e' [= <-]; reflexivity|intros v; discriminate].
Qed.

Lemma postNote_posts_then_lists_witness :
  let rq := {| url := "/api/posts";
               opts := postJson (JObj [("title", JStr "My Learning Note");
                                       ("content", JStr "The unit of life")]) |} in
  App.postNote Scene.study Sample.fresh = (Ret tt, Sample.fresh) /\
  noteRequest (dom Scene.drafted) = rq /\
  sent (snd (App.postNote Scene.study Scene.drafted)) = [rq; get App.API "/posts"] /\
  value (Page.get Id.sidekickOutput (dom (snd (App.postNote Scene.study Scene.drafted))))
    = " The unit of life " /\
  App.postNote Sample.down Scene.drafted =
    (Throw (Error "Internal Server Error"), sending rq Scene.drafted).
Proof.
  cbn zeta.
  pose proof (postNote_posts_then_lists Scene.study Sample.fresh) as H0.
  pose proof (postNote_posts_then_lists Scene.study Scene.drafted) as H1.
  pose proof (postNote_posts_then_lists Sample.down Scene.drafted) as H2.
  cbn zeta in H0, H1, H2.
  destruct H0 as (H0 & _). destruct H1 as (_ & H1 & H1' & _).
  destruct H2 as (_ & H2 & _).
  destruct H1 as (_ & H1); [by_running|]. destruct H2 as (H2 & _); [by_running|].
  split; [apply H0; by_running|]. split; [by_running|]. split.
  - rewrite (H1 (JArr [Scene.post])); by_running.
  - split; [rewrite H1'; [by_running|discriminate]|].
    apply (H2 (Error "Internal Server Error")). by_running.
Defined.

Lemma append_markup h e :
  Str.is_empty h = false ->
  nodes (El.appendInnerHTML h e) = (nodes e ++ [Markup h])%list.
Proof. intros H. unfold El.appendInnerHTML. rewrite H. reflexivity. Qed.

(** X21: a reply the backend answers adds exactly two turns to the
    transcript, the user's and the sidekick's, after those it held, and
    empties the input.  While the dialogue goes on the draft and its title
    are left alone; the answer that completes it puts its [content] in the
    draft and gives the title: its own [title], else the one in the field,
    else ["My Learning Note"]. *)
Theorem reply_appends_two_turns env st res :
  let ans := Str.trim (Dialogue.pending st) in
  ~ Dialogue.noSession st -> ans <> "" ->
  fst (App.api "/socratic/reply"
         (opts (Dialogue.replyRequest (SOC_SESSION st) ans)) env st) = Ret res ->
  nullish res = false ->
  exists st',
    App.sendSidekickAnswer env st = (Ret tt, st') /\
    Dialogue.pending st' = "" /\
    Dialogue.transcript st' =
      (Dialogue.transcript st ++
       [Markup (App.you ans);
        Markup (App.gemini (if Js.truthy (field "done" res) then App.greatWork
                            else Js.toString (field "question" res)))])%list /\
    (forall i, i <> Id.chatBox -> i <> Id.chatInput ->
       i <> Id.sidekickTitle -> i <> Id.sidekickOutput ->
       Page.get i (dom st') = Page.get i (dom st)) /\
    (if Js.truthy (field "done" res) then
       value (Page.get Id.sidekickOutput (dom st')) =
         Fmt.inputValue (field "content" res) /\
       value (Page.get Id.sidekickTitle (dom st')) = draftTitle res (dom st)
     else
       Page.get Id.sidekickOutput (dom st') = Page.get Id.sidekickOutput (dom st) /\
       Page.get Id.sidekickTitle (dom st') = Page.get Id.sidekickTitle (dom st)).
Proof.
  cbn zeta. intros Hs Ha Hapi Hres.
  rewrite sendSidekickAnswer_run. cbn zeta.
  unfold Dialogue.noSession in Hs. unfold Js.not at 1.
  destruct (Js.truthy (SOC_SESSION st)); [|congruence]. cbn [negb].
  destruct (Str.is_empty (Str.trim (Dialogue.pending st))) eqn:E.
  { apply is_empty_spec in E. contradiction. }
  set (ans := Str.trim (Dialogue.pending st)) in *.
  unfold App.api in *. rewrite api_withDom.
  pose proof (api_state App.API "/socratic/reply"
                (opts (Dialogue.replyRequest (SOC_SESSION st) ans)) env st) as Hst.
  destruct (Script.api App.API "/socratic/reply" _ env st) as [o st1];
    cbn [fst snd] in *. subst o st1. rewrite Hres.
  eexists. split; [reflexivity|].
  unfold Dialogue.pending, Dialogue.transcript. cbn [dom withDom sending].
  unfold Effect.showReply, Effect.sayYou, Js.not, draftTitle.
  destruct (Js.truthy (field "done" res)); cbn [negb].
  - rewrite !get_set_same.
    rewrite !(get_set_other _ Id.chatInput), !get_set_same by discriminate.
    rewrite !(get_set_other _ Id.sidekickTitle), !(get_set_other _ Id.sidekickOutput)
      by discriminate.
    rewrite !(get_set_other _ Id.chatBox), !get_set_same by discriminate.
    split; [reflexivity|]. split; [|split; [|split]].
    + rewrite !append_markup by reflexivity. cbn [nodes El.setValue].
      symmetry. apply (List.app_assoc _ [_] [_]).
    + intros i H1 H2 H3 H4. rewrite !get_set_other by congruence. reflexivity.
    + reflexivity.
    + cbn [value El.setValue]. unfold Js.or.
      destruct (Js.truthy (field "title" res)) eqn:Ht.
      * destruct (field "title" res); try reflexivity; discriminate.
      * destruct (value (Page.get Id.sidekickTitle (dom st))); reflexivity.
  - rewrite !get_set_same.
    rewrite !(get_set_other _ Id.chatInput), !get_set_same by discriminate.
    split; [reflexivity|]. split; [|split; [|split]].
    + rewrite !append_markup by reflexivity. cbn [nodes El.setValue].
      symmetry. apply (List.app_assoc _ [_] [_]).
    + intros i H1 H2 H3 H4. rewrite !get_set_other by congruence. reflexivity.
    + rewrite !get_set_other by discriminate. reflexivity.
    + rewrite !get_set_other by discriminate. reflexivity.
Qed.

Lemma reply_appends_two_turns_witness :
  (let st := Sample.type Id.chatInput " Because sunlight " Sample.started in
   exists st',
     App.sendSidekickAnswer Sample.tutor st = (Ret tt, st') /\
     Dialogue.transcript st' =
       [Markup (App.gemini "Q1"); Markup (App.you "Because sunlight");
        Markup (App.gemini App.greatWork)] /\
     value (Page.get Id.sidekickOutput (dom st')) = "Notes" /\
     value (Page.get Id.sidekickTitle (dom st')) = "Photosynthesis Notes") /\
  (let st := Sample.type Id.chatInput "It is green" Sample.started in
   exists st',
     App.sendSidekickAnswer Scene.curious st = (Ret tt, st') /\
     Dialogue.transcript st' =
       [Markup (App.gemini "Q1"); Markup (App.you "It is green");
        Markup (App.gemini "Q2")] /\
     value (Page.get Id.sidekickTitle (dom st')) = "Photosynthesis").
Proof.
  cbn zeta. split.
  - destruct (reply_appends_two_turns Sample.tutor
                (Sample.type Id.chatInput " Because sunlight " Sample.started)
                (JObj [("done", JBool true); ("content", JStr "Notes");
                       ("title", JStr "Photosynthesis Notes")]))
      as (st' & Hrun & _ & Ht & _ & Hd); [by_running|by_running|by_running|by_running|].
    exists st'. split; [exact Hrun|]. split; [rewrite Ht; by_running|].
    hnf in Hd. destruct Hd as (Ho & Hti). split; [rewrite Ho; by_running|rewrite Hti; by_running].
  - destruct (reply_appends_two_turns Scene.curious
                (Sample.type Id.chatInput "It is green" Sample.started)
                (JObj [("done", JBool false); ("question", JStr "Q2")]))
      as (st' & Hrun & _ & Ht & _ & Hd); [by_running|by_running|by_running|by_running|].
    exists st'. split; [exact Hrun|]. split; [rewrite Ht; by_running|].
    hnf in Hd. destruct Hd as (_ & Hti). rewrite Hti. by_running.
Defined.

Lemma api_outcome API path o env st st' :
  sent st' = sent st ->
  fst (Script.api API path o env st') = fst (Script.api API path o env st).
Proof. intros H. rewrite !api_run. cbn [fst]. rewrite H. reflexivity. Qed.

(** X22: from the start of a dialogue to its draft.  Starting a dialogue,
    typing an answer and sending it, when that answer completes the
    dialogue: two requests went out, the reply carrying the session the
    start returned, the draft is the [content] of the answer, and its title
    is the answer's [title], by default the topic the dialogue was started
    on. *)
Theorem draft_title_defaults_to_topic env st res0 ans res :
  let topic := Dialogue.topic st in
  topic <> "" ->
  fst (App.api "/socratic/start" (opts (startRequest topic)) env st) = Ret res0 ->
  nullish res0 = false -> Js.truthy (field "session_id" res0) = true ->
  Str.trim ans <> "" ->
  fst (App.api "/socratic/reply"
         (opts (Dialogue.replyRequest (field "session_id" res0) (Str.trim ans)))
         env (sending (startRequest topic) st)) = Ret res ->
  nullish res = false -> Js.truthy (field "done" res) = true ->
  let fin := Wiring.run [Wiring.StartSidekickClicked;
                         Wiring.Typed Id.chatInput ans;
                         Wiring.ChatSendClicked] env st in
  value (Page.get Id.sidekickTitle (dom fin)) =
    (if Js.truthy (field "title" res) then Js.toString (field "title" res)
     else topic) /\
  value (Page.get Id.sidekickOutput (dom fin)) = Fmt.inputValue (field "content" res) /\
  sent fin =
    (sent st ++ [startRequest topic;
                 Dialogue.replyRequest (field "session_id" res0) (Str.trim ans)])%list.
Proof.
  cbn zeta. intros Ht Hstart Hres0 Hsid Ha Hreply Hres Hdone.
  set (st1 := sending (startRequest (Dialogue.topic st)) st) in *.
  set (rq := Dialogue.replyRequest (field "session_id" res0) (Str.trim ans)) in *.
  assert (E1 : snd (App.startSidekick env st) =
               withSession (field "session_id" res0)
                 (withDom (Effect.openDialogue (Dialogue.topic st) res0 (dom st)) st1)).
  { rewrite startSidekick_run.
    destruct (Str.is_empty (Dialogue.topic st)) eqn:E.
    { apply is_empty_spec in E. contradiction. }
    pose proof (api_state App.API "/socratic/start"
                  (opts (startRequest (Dialogue.topic st))) env st) as Hs.
    unfold App.api in *. cbn [startRequest opts] in *.
    destruct (Script.api App.API "/socratic/start" _ env st) as [o s];
      cbn [fst snd] in *. subst o s. rewrite Hres0. reflexivity. }
  set (typed := Page.set Id.chatInput
                  (El.setValue ans
                     (Page.get Id.chatInput
                        (Effect.openDialogue (Dialogue.topic st) res0 (dom st))))
                  (Effect.openDialogue (Dialogue.topic st) res0 (dom st))).
  set (st2 := withSession (field "session_id" res0) (withDom typed st1)).
  assert (E2 : Wiring.run [Wiring.StartSidekickClicked;
                           Wiring.Typed Id.chatInput ans;
                           Wiring.ChatSendClicked] env st =
               snd (App.sendSidekickAnswer env st2)).
  { cbn [Wiring.run Wiring.handle]. unfold detach. cbn [snd].
    rewrite E1. reflexivity. }
  rewrite E2. clear E1 E2.
  assert (E3 : snd (App.sendSidekickAnswer env st2) =
               withDom (Effect.showReply res (Effect.sayYou (Str.trim ans) typed))
                 (withSession (field "session_id" res0) (sending rq st1))).
  { rewrite sendSidekickAnswer_run. cbn zeta.
    cbn [SOC_SESSION withSession withDom st2]. unfold Js.not at 1.
    rewrite Hsid. cbn [negb].
    unfold Dialogue.pending.
    assert (Hd : dom st2 = typed) by reflexivity.
    assert (Hv : value (Page.get Id.chatInput typed) = ans)
      by (unfold typed; rewrite get_set_same; reflexivity).
    rewrite Hd, Hv.
    destruct (Str.is_empty (Str.trim ans)) eqn:E'.
    { apply is_empty_spec in E'. contradiction. }
    fold rq. unfold App.api in *.
    match goal with
    | |- context [Script.api App.API "/socratic/reply" (opts rq) env ?s] =>
        assert (Ho : fst (Script.api App.API "/socratic/reply" (opts rq) env s) = Ret res)
          by (rewrite <- Hreply; apply api_outcome; reflexivity);
        pose proof (api_state App.API "/socratic/reply" (opts rq) env s) as Hs';
        destruct (Script.api App.API "/socratic/reply" (opts rq) env s) as [o s']
    end.
    cbn [fst snd] in *. subst o s'. rewrite Hres. reflexivity. }
  rewrite E3. clear E3. cbn [dom withDom sent sending withSession st1].
  unfold Effect.showReply, Js.not. rewrite Hdone. cbn [negb].
  split; [|split].
  - rewrite (get_set_other _ Id.sidekickTitle), get_set_same by discriminate.
    cbn [value El.setValue]. unfold Effect.sayYou, typed.
    rewrite !(get_set_other _ Id.sidekickTitle) by discriminate.
    unfold Effect.openDialogue.
    rewrite !(get_set_other _ Id.sidekickTitle), get_set_same by discriminate.
    cbn [value El.setValue]. unfold Js.or.
    destruct (Js.truthy (field "title" res)) eqn:Htt.
    + destruct (field "title" res); try reflexivity; discriminate.
    + destruct (Dialogue.topic st); [congruence|reflexivity].
  - rewrite !(get_set_other _ Id.sidekickOutput), get_set_same by discriminate.
    reflexivity.
  - rewrite <- List.app_assoc. reflexivity.
Qed.

Lemma draft_title_defaults_to_topic_witness :
  let st := Sample.type Id.sidekickTopic " Photosynthesis " Sample.fresh in
  let fin := Wiring.run [Wiring.StartSidekickClicked;
                         Wiring.Typed Id.chatInput "Because sunlight";
                         Wiring.ChatSendClicked] Scene.study st in
  value (Page.get Id.sidekickTitle (dom fin)) = "Photosynthesis" /\
  value (Page.get Id.sidekickOutput (dom fin)) = "Draft" /\
  sent fin = [startRequest "Photosynthesis";
              Dialogue.replyRequest (JStr "s2") "Because sunlight"].
Proof.
  cbn zeta.
  pose proof (draft_title_defaults_to_topic Scene.study
                (Sample.type Id.sidekickTopic " Photosynthesis " Sample.fresh)
                (JObj [("session_id", JStr "s2"); ("question", JStr "Q1")])
                "Because sunlight"
                (JObj [("done", JBool true); ("content", JStr "Draft")])) as H.
  cbn zeta in H. destruct H as (H1 & H2 & H3); [by_running|by_running|by_running|by_running|by_running|by_running|by_running|by_running|].
  split; [rewrite H1; by_running|]. split; [rewrite H2; by_running|]. rewrite H3; by_running.
Defined.
